(** * Seat inventory of the event booking portal

    A shallow embedding of the booking database (the SQL migration: tables,
    CHECK / UNIQUE / FOREIGN KEY constraints, row level security policies and
    the two seat triggers) and of the page handlers that write to it
    ([handleBooking], [handleCancelBooking], [handleSubmit], [handleDelete]).

    A table is the list of its rows.  A statement is a function from the
    database to a [result]: PostgreSQL runs a statement together with the
    triggers it fires as one unit, so an error leaves the database as it
    was.  The timestamp columns ([created_at], [updated_at]) are left out:
    no constraint, policy or trigger reads them; the one query that orders
    by [created_at] is modelled on the order of the rows. *)

From Stdlib Require Import ZArith List String Bool Lia.
Import ListNotations.
Open Scope Z_scope.

(** ** Data model *)

(** [uuid] columns; the client sees them as strings. *)
Definition uuid : Type := string.

Definition uuid_eqb (a b : uuid) : bool := String.eqb a b.

(** [booking_status text CHECK (booking_status IN ('confirmed','cancelled'))],
    typed in the client as ['confirmed' | 'cancelled']. *)
Inductive status : Type := confirmed | cancelled.

Definition status_eqb (s t : status) : bool :=
  match s, t with
  | confirmed, confirmed | cancelled, cancelled => true
  | _, _ => false
  end.

Module UserProfile.
Record t : Type := mk
  { id : uuid; email : string; full_name : string; is_admin : bool }.
End UserProfile.

Module Event.
Record t : Type := mk
  { id : uuid;
    title : string;
    description : string;
    event_date : string;
    location : string;
    total_seats : Z;
    available_seats : Z;
    image_url : string;
    price : Z;                      (* decimal(10,2), in hundredths *)
    created_by : option uuid }.

Definition with_available_seats (v : Z) (ev : t) : t :=
  mk (id ev) (title ev) (description ev) (event_date ev) (location ev)
     (total_seats ev) v (image_url ev) (price ev) (created_by ev).
End Event.

Module Booking.
Record t : Type := mk
  { id : uuid;
    user_id : uuid;
    event_id : uuid;
    seats_booked : Z;
    booking_status : status }.

Definition with_status (s : status) (b : t) : t :=
  mk (id b) (user_id b) (event_id b) (seats_booked b) s.
End Booking.

(** The admin form's state ([formData] of [AdminPage]). *)
Module FormData.
Record t : Type := mk
  { title : string;
    description : string;
    event_date : string;
    location : string;
    total_seats : Z;
    available_seats : Z;
    image_url : string;
    price : Z }.
End FormData.

(** The three tables. *)
Record db : Type := mkDb
  { user_profiles : list UserProfile.t;
    events : list Event.t;
    bookings : list Booking.t }.

(** ** Errors of the store *)

Inductive constraint_name : Type :=
| events_pkey
| events_available_seats_check
| events_total_seats_check
| events_created_by_fkey
| bookings_pkey
| bookings_seats_booked_check
| bookings_user_id_event_id_booking_status_key
| bookings_user_id_fkey
| bookings_event_id_fkey.

Inductive pg_error : Type :=
| insufficient_privilege                          (* 42501, row level security *)
| numeric_value_out_of_range                      (* 22003, integer column *)
| check_violation (c : constraint_name)           (* 23514 *)
| unique_violation (c : constraint_name)          (* 23505 *)
| foreign_key_violation (c : constraint_name).    (* 23503 *)

Inductive result (A : Type) : Type :=
| Ok (a : A)
| Err (e : pg_error).
Arguments Ok {A} a.
Arguments Err {A} e.

Definition bind {A B : Type} (r : result A) (k : A -> result B) : result B :=
  match r with
  | Ok a => k a
  | Err e => Err e
  end.

Notation "x <- r ;; k" := (bind r (fun x => k))
  (at level 61, r at next level, right associativity).

(** [guard ok e]: go on when [ok], raise [e] otherwise. *)
Definition guard (ok : bool) (e : pg_error) : result unit :=
  if ok then Ok tt else Err e.

(** The SQL type [integer] is 32 bits wide; a value outside of it is an
    error, not a wrap-around. *)
Definition int4_min : Z := - 2 ^ 31.
Definition int4_max : Z := 2 ^ 31 - 1.
Definition in_int4 (z : Z) : bool := (int4_min <=? z) && (z <=? int4_max).

(** ** Row level security

    [auth] is [auth.uid()]: the id of the signed-in user, [None] for the
    [anon] role.  Every policy on [bookings] and every write policy on
    [events] is [TO authenticated]; for [anon] no policy applies and the
    tests below are false as well. *)
Definition auth : Type := option uuid.

Definition is_uid (uid : auth) (u : uuid) : bool :=
  match uid with
  | Some v => uuid_eqb v u
  | None => false
  end.

(** [EXISTS (SELECT 1 FROM user_profiles
             WHERE user_profiles.id = auth.uid() AND user_profiles.is_admin = true)],
    the test of the three "Admins can ... events" policies. *)
Definition admin_exists (d : db) (uid : auth) : bool :=
  existsb (fun p => is_uid uid (UserProfile.id p) && UserProfile.is_admin p)
          (user_profiles d).

(** "Users can create their own bookings":
    [WITH CHECK (auth.uid() = user_id AND booking_status = 'confirmed')]. *)
Definition users_can_create_their_own_bookings (uid : auth) (NEW : Booking.t) : bool :=
  is_uid uid (Booking.user_id NEW)
  && status_eqb (Booking.booking_status NEW) confirmed.

(** "Users can update their own bookings":
    [USING (auth.uid() = user_id) WITH CHECK (auth.uid() = user_id)]; the
    only UPDATE policy on [bookings]. *)
Definition users_can_update_their_own_bookings (uid : auth) (row : Booking.t) : bool :=
  is_uid uid (Booking.user_id row).

(** ** Constraints *)

(** CHECK constraints of [events], in the order PostgreSQL tests them (by
    constraint name). *)
Definition check_event (ev : Event.t) : result unit :=
  _ <- guard (0 <=? Event.available_seats ev)
             (check_violation events_available_seats_check) ;;
  guard (0 <? Event.total_seats ev) (check_violation events_total_seats_check).

(** CHECK constraint of [bookings] ([seats_booked > 0]); the status CHECK
    holds of every value of [status]. *)
Definition check_booking (b : Booking.t) : result unit :=
  guard (0 <? Booking.seats_booked b) (check_violation bookings_seats_booked_check).

Definition find_event (eid : uuid) (evs : list Event.t) : option Event.t :=
  find (fun ev => uuid_eqb (Event.id ev) eid) evs.

Definition find_booking (bid : uuid) (bs : list Booking.t) : option Booking.t :=
  find (fun b => uuid_eqb (Booking.id b) bid) bs.

Definition profile_exists (u : uuid) (ps : list UserProfile.t) : bool :=
  existsb (fun p => uuid_eqb (UserProfile.id p) u) ps.

Definition event_exists (eid : uuid) (evs : list Event.t) : bool :=
  existsb (fun ev => uuid_eqb (Event.id ev) eid) evs.

Definition booking_exists (bid : uuid) (bs : list Booking.t) : bool :=
  existsb (fun b => uuid_eqb (Booking.id b) bid) bs.

(** [UNIQUE(user_id, event_id, booking_status)]: [b] and [c] collide when
    they are different rows with the same triple. *)
Definition same_key (b c : Booking.t) : bool :=
  uuid_eqb (Booking.user_id b) (Booking.user_id c)
  && uuid_eqb (Booking.event_id b) (Booking.event_id c)
  && status_eqb (Booking.booking_status b) (Booking.booking_status c).

Definition key_taken (b : Booking.t) (bs : list Booking.t) : bool :=
  existsb (fun c => negb (uuid_eqb (Booking.id c) (Booking.id b)) && same_key b c) bs.

(** ** The seat triggers

    [UPDATE events SET available_seats = f(available_seats) WHERE id = eid],
    on the rows of the table: for every row with that id the new value is
    computed in type [integer] and the new row is tested against the
    constraints of [events]. *)
Fixpoint set_available_seats (f : Z -> Z) (eid : uuid) (evs : list Event.t)
  : result (list Event.t) :=
  match evs with
  | [] => Ok []
  | ev :: rest =>
      if uuid_eqb (Event.id ev) eid then
        let ev' := Event.with_available_seats (f (Event.available_seats ev)) ev in
        _ <- guard (in_int4 (f (Event.available_seats ev))) numeric_value_out_of_range ;;
        _ <- check_event ev' ;;
        rest' <- set_available_seats f eid rest ;;
        Ok (ev' :: rest')
      else
        rest' <- set_available_seats f eid rest ;;
        Ok (ev :: rest')
  end.

(** The same statement as the session [uid] runs it.  [events] has row
    level security enabled, and its only UPDATE policy is "Admins can update
    events" ([USING] and [WITH CHECK] the admin test).  The two trigger
    functions are declared [LANGUAGE plpgsql] and nothing else: they are not
    [SECURITY DEFINER], so the [UPDATE events] in their bodies runs with the
    rights of the user whose statement fired the trigger and passes through
    that policy.  For a user who is not an admin no row qualifies, and the
    statement updates nothing, without an error. *)
Definition update_events_seats (uid : auth) (f : Z -> Z) (eid : uuid) (d : db)
  : result db :=
  if admin_exists d uid then
    evs <- set_available_seats f eid (events d) ;;
    Ok (mkDb (user_profiles d) evs (bookings d))
  else Ok d.

(** [update_seats_on_booking()], fired [AFTER INSERT ON bookings FOR EACH ROW]. *)
Definition update_seats_on_booking (uid : auth) (NEW : Booking.t) (d : db) : result db :=
  match Booking.booking_status NEW with
  | confirmed =>
      update_events_seats uid (fun a => a - Booking.seats_booked NEW)
                          (Booking.event_id NEW) d
  | cancelled => Ok d
  end.

(** [restore_seats_on_cancel()], fired [AFTER UPDATE ON bookings FOR EACH ROW]. *)
Definition restore_seats_on_cancel (uid : auth) (OLD NEW : Booking.t) (d : db)
  : result db :=
  match Booking.booking_status OLD, Booking.booking_status NEW with
  | confirmed, cancelled =>
      update_events_seats uid (fun a => a + Booking.seats_booked OLD)
                          (Booking.event_id OLD) d
  | _, _ => Ok d
  end.

(** ** Statements on [bookings] *)

(** [INSERT INTO bookings (user_id, event_id, seats_booked, booking_status)],
    the new row's [id] being the value [gen_random_uuid()] returned.  The
    tests come in PostgreSQL's order: the column types, the policy's
    WITH CHECK, the CHECK constraints, the unique indexes, and after the row
    is in the table the foreign keys and [booking_created_trigger]. *)
Definition insert_booking (uid : auth) (NEW : Booking.t) (d : db) : result db :=
  _ <- guard (in_int4 (Booking.seats_booked NEW)) numeric_value_out_of_range ;;
  _ <- guard (users_can_create_their_own_bookings uid NEW) insufficient_privilege ;;
  _ <- check_booking NEW ;;
  _ <- guard (negb (booking_exists (Booking.id NEW) (bookings d)))
             (unique_violation bookings_pkey) ;;
  _ <- guard (negb (key_taken NEW (bookings d)))
             (unique_violation bookings_user_id_event_id_booking_status_key) ;;
  let d1 := mkDb (user_profiles d) (events d) (bookings d ++ [NEW]) in
  _ <- guard (profile_exists (Booking.user_id NEW) (user_profiles d1))
             (foreign_key_violation bookings_user_id_fkey) ;;
  _ <- guard (event_exists (Booking.event_id NEW) (events d1))
             (foreign_key_violation bookings_event_id_fkey) ;;
  update_seats_on_booking uid NEW d1.

(** The columns an UPDATE of [bookings] may set ([None]: left as it is). *)
Record booking_patch : Type := mkPatch
  { set_user_id : option uuid;
    set_event_id : option uuid;
    set_seats_booked : option Z;
    set_booking_status : option status }.

Definition or_else {A : Type} (o : option A) (a : A) : A :=
  match o with
  | Some v => v
  | None => a
  end.

Definition apply_patch (p : booking_patch) (b : Booking.t) : Booking.t :=
  Booking.mk (Booking.id b)
             (or_else (set_user_id p) (Booking.user_id b))
             (or_else (set_event_id p) (Booking.event_id b))
             (or_else (set_seats_booked p) (Booking.seats_booked b))
             (or_else (set_booking_status p) (Booking.booking_status b)).

(** Put [NEW] in the place of the row with id [bid]; [id] is the primary
    key, so this is the first and only such row. *)
Fixpoint replace_booking (bid : uuid) (NEW : Booking.t) (bs : list Booking.t)
  : list Booking.t :=
  match bs with
  | [] => []
  | b :: rest =>
      if uuid_eqb (Booking.id b) bid then NEW :: rest
      else b :: replace_booking bid NEW rest
  end.

(** [UPDATE bookings SET ... WHERE id = bid]; the result carries the number
    of rows updated.  A row the policy's USING clause hides from the session
    is not an error: the statement updates no row.  The unique index and
    the foreign keys are looked at only when one of their columns changes. *)
Definition update_booking (uid : auth) (bid : uuid) (p : booking_patch) (d : db)
  : result (db * nat) :=
  match find_booking bid (bookings d) with
  | None => Ok (d, 0%nat)
  | Some OLD =>
      if users_can_update_their_own_bookings uid OLD then
        let NEW := apply_patch p OLD in
        _ <- guard (in_int4 (Booking.seats_booked NEW)) numeric_value_out_of_range ;;
        _ <- guard (users_can_update_their_own_bookings uid NEW) insufficient_privilege ;;
        _ <- check_booking NEW ;;
        _ <- guard (same_key OLD NEW || negb (key_taken NEW (bookings d)))
                   (unique_violation bookings_user_id_event_id_booking_status_key) ;;
        let d1 := mkDb (user_profiles d) (events d)
                       (replace_booking bid NEW (bookings d)) in
        _ <- guard (uuid_eqb (Booking.user_id OLD) (Booking.user_id NEW)
                    || profile_exists (Booking.user_id NEW) (user_profiles d1))
                   (foreign_key_violation bookings_user_id_fkey) ;;
        _ <- guard (uuid_eqb (Booking.event_id OLD) (Booking.event_id NEW)
                    || event_exists (Booking.event_id NEW) (events d1))
                   (foreign_key_violation bookings_event_id_fkey) ;;
        d2 <- restore_seats_on_cancel uid OLD NEW d1 ;;
        Ok (d2, 1%nat)
      else Ok (d, 0%nat)
  end.

(** [.update({ booking_status: 'cancelled' })] *)
Definition cancel_patch : booking_patch := mkPatch None None None (Some cancelled).

(** ** Statements on [events] *)

(** "Admins can create events": [WITH CHECK (EXISTS (... is_admin = true))]. *)
Definition insert_event (uid : auth) (NEW : Event.t) (d : db) : result db :=
  _ <- guard (in_int4 (Event.total_seats NEW) && in_int4 (Event.available_seats NEW))
             numeric_value_out_of_range ;;
  _ <- guard (admin_exists d uid) insufficient_privilege ;;
  _ <- check_event NEW ;;
  _ <- guard (negb (event_exists (Event.id NEW) (events d)))
             (unique_violation events_pkey) ;;
  _ <- guard (match Event.created_by NEW with
              | Some u => profile_exists u (user_profiles d)
              | None => true
              end)
             (foreign_key_violation events_created_by_fkey) ;;
  Ok (mkDb (user_profiles d) (events d ++ [NEW]) (bookings d)).

(** The columns of the form written over a row; [id] and [created_by] stay.
    [event_date] and [price] are carried as the request holds them: the
    form in which the store keeps a [timestamptz] and a [decimal(10,2)],
    and the texts it refuses for the two columns, are not modelled. *)
Definition apply_form (f : FormData.t) (ev : Event.t) : Event.t :=
  Event.mk (Event.id ev) (FormData.title f) (FormData.description f)
           (FormData.event_date f) (FormData.location f)
           (FormData.total_seats f) (FormData.available_seats f)
           (FormData.image_url f) (FormData.price f) (Event.created_by ev).

Fixpoint set_event_rows (f : FormData.t) (eid : uuid) (evs : list Event.t)
  : result (list Event.t * nat) :=
  match evs with
  | [] => Ok ([], 0%nat)
  | ev :: rest =>
      if uuid_eqb (Event.id ev) eid then
        _ <- check_event (apply_form f ev) ;;
        r <- set_event_rows f eid rest ;;
        Ok (apply_form f ev :: fst r, S (snd r))
      else
        r <- set_event_rows f eid rest ;;
        Ok (ev :: fst r, snd r)
  end.

(** [UPDATE events SET ...formData WHERE id = eid] under "Admins can update
    events"; no trigger is attached to [events]. *)
Definition update_event (uid : auth) (eid : uuid) (f : FormData.t) (d : db)
  : result (db * nat) :=
  _ <- guard (in_int4 (FormData.total_seats f) && in_int4 (FormData.available_seats f))
             numeric_value_out_of_range ;;
  if admin_exists d uid then
    r <- set_event_rows f eid (events d) ;;
    Ok (mkDb (user_profiles d) (fst r) (bookings d), snd r)
  else Ok (d, 0%nat).

(** [DELETE FROM events WHERE id = eid] under "Admins can delete events";
    [bookings.event_id ... ON DELETE CASCADE] takes the event's bookings
    with it. *)
Definition delete_event (uid : auth) (eid : uuid) (d : db) : result (db * nat) :=
  if admin_exists d uid && event_exists eid (events d) then
    Ok (mkDb (user_profiles d)
             (filter (fun ev => negb (uuid_eqb (Event.id ev) eid)) (events d))
             (filter (fun b => negb (uuid_eqb (Booking.event_id b) eid)) (bookings d)),
        List.length (filter (fun ev => uuid_eqb (Event.id ev) eid) (events d)))
  else Ok (d, 0%nat).

(** ** The page handlers

    Each handler takes the session's user (the client's ambient auth
    context) and returns the database afterwards with what the page shows. *)

(** What [EventDetailPage] puts in [message]. *)
Inductive message : Type :=
| PleaseLogin                       (* 'Please login to book tickets' *)
| NotEnoughSeats                    (* 'Not enough seats available' *)
| BookingConfirmed                  (* 'Booking confirmed! Check your dashboard.' *)
| BookingError (e : pg_error).      (* the store's error message *)

(** [EventDetailPage.handleBooking]: [event] is the page's copy of the row,
    fetched when the page was loaded or after its last booking;
    [seatsToBook] is the number typed in; [new_id] is the id the store
    generates for the row. *)
Definition handleBooking (user : auth) (event : option Event.t) (seatsToBook : Z)
    (new_id : uuid) (d : db) : db * option message :=
  match user with
  | None => (d, Some PleaseLogin)
  | Some u =>
      match event with
      | None => (d, None)
      | Some ev =>
          if Event.available_seats ev <? seatsToBook then (d, Some NotEnoughSeats)
          else
            match insert_booking user
                    (Booking.mk new_id u (Event.id ev) seatsToBook confirmed) d with
            | Ok d' => (d', Some BookingConfirmed)
            | Err e => (d, Some (BookingError e))
            end
      end
  end.

(** What [DashboardPage.handleCancelBooking] ends with. *)
Inductive cancel_outcome : Type :=
| CancelDeclined                    (* the confirm dialog was dismissed *)
| CancelDone                        (* no error: the bookings are fetched again *)
| CancelFailed (e : pg_error).      (* alert 'Failed to cancel booking' *)

(** [DashboardPage.handleCancelBooking]; [confirm] is the answer to the
    dialog. *)
Definition handleCancelBooking (user : auth) (confirm : bool) (bookingId : uuid)
    (d : db) : db * cancel_outcome :=
  if confirm then
    match update_booking user bookingId cancel_patch d with
    | Ok (d', _) => (d', CancelDone)
    | Err e => (d, CancelFailed e)
    end
  else (d, CancelDeclined).

(** What [AdminPage.handleSubmit] and [AdminPage.handleDelete] end with; a
    failure that is not the store's ([user!.id] without a user) carries
    [None]. *)
Inductive admin_outcome : Type :=
| AdminDeclined
| AdminDone
| AdminFailed (e : option pg_error).

(** [AdminPage.handleSubmit]: an update of [editingEvent] when there is one,
    an insert otherwise. *)
Definition handleSubmit (user : auth) (editingEvent : option Event.t)
    (formData : FormData.t) (new_id : uuid) (d : db) : db * admin_outcome :=
  match editingEvent with
  | Some ev =>
      match update_event user (Event.id ev) formData d with
      | Ok (d', _) => (d', AdminDone)
      | Err e => (d, AdminFailed (Some e))
      end
  | None =>
      match user with
      | None => (d, AdminFailed None)
      | Some u =>
          match insert_event user
                  (apply_form formData
                     (Event.mk new_id EmptyString EmptyString EmptyString EmptyString
                               0 0 EmptyString 0 (Some u))) d with
          | Ok d' => (d', AdminDone)
          | Err e => (d, AdminFailed (Some e))
          end
      end
  end.

(** [AdminPage.handleDelete] *)
Definition handleDelete (user : auth) (confirm : bool) (eventId : uuid) (d : db)
  : db * admin_outcome :=
  if confirm then
    match delete_event user eventId d with
    | Ok (d', _) => (d', AdminDone)
    | Err e => (d, AdminFailed (Some e))
    end
  else (d, AdminDeclined).

(** Every write the pages make. *)
Inductive action : Type :=
| Book (user : auth) (event : option Event.t) (seatsToBook : Z) (new_id : uuid)
| Cancel (user : auth) (confirm : bool) (bookingId : uuid)
| Submit (user : auth) (editingEvent : option Event.t) (formData : FormData.t)
         (new_id : uuid)
| Delete (user : auth) (confirm : bool) (eventId : uuid).

Definition run (a : action) (d : db) : db :=
  match a with
  | Book user event seatsToBook new_id =>
      fst (handleBooking user event seatsToBook new_id d)
  | Cancel user confirm bookingId => fst (handleCancelBooking user confirm bookingId d)
  | Submit user editingEvent formData new_id =>
      fst (handleSubmit user editingEvent formData new_id d)
  | Delete user confirm eventId => fst (handleDelete user confirm eventId d)
  end.

(** ** Quantities the properties speak of *)

(** The seats of event [eid] that booking [b] holds: its [seats_booked]
    when it is a confirmed booking of that event. *)
Definition held_by (eid : uuid) (b : Booking.t) : Z :=
  if uuid_eqb (Booking.event_id b) eid && status_eqb (Booking.booking_status b) confirmed
  then Booking.seats_booked b else 0.

(** The seats of event [eid] held by confirmed bookings. *)
Fixpoint seats_held (eid : uuid) (bs : list Booking.t) : Z :=
  match bs with
  | [] => 0
  | b :: rest => held_by eid b + seats_held eid rest
  end.

(** [available_seats = total_seats - (seats held by confirmed bookings)],
    for every event. *)
Definition seat_equation (d : db) : Prop :=
  forall ev, In ev (events d) ->
    Event.available_seats ev
    = Event.total_seats ev - seats_held (Event.id ev) (bookings d).

(** What the store enforces on the rows of [events]. *)
Definition events_checked (d : db) : Prop :=
  forall ev, In ev (events d) ->
    0 <= Event.available_seats ev /\ 0 < Event.total_seats ev.

(** What the store enforces on the rows of [bookings]. *)
Definition bookings_checked (d : db) : Prop :=
  forall b, In b (bookings d) -> 0 < Booking.seats_booked b.

(** [id] is the primary key of [bookings]. *)
Definition bookings_pkey_holds (d : db) : Prop :=
  NoDup (map Booking.id (bookings d)).

(** The seat bounds the specification asks for. *)
Definition seat_bounds (d : db) : Prop :=
  forall ev, In ev (events d) ->
    0 <= Event.available_seats ev <= Event.total_seats ev
    /\ 0 < Event.total_seats ev.

(** Per event: its id, its capacity, and its free seats together with the
    seats its confirmed bookings hold.  [seat_equation] says that the last
    two agree. *)
Definition ledger (d : db) : list (uuid * Z * Z) :=
  map (fun ev => (Event.id ev, Event.total_seats ev,
                  Event.available_seats ev + seats_held (Event.id ev) (bookings d)))
      (events d).

(** What a seat trigger does to one row of [events]. *)
Definition seats_moved (f : Z -> Z) (eid : uuid) (ev ev' : Event.t) : Prop :=
  if uuid_eqb (Event.id ev) eid
  then ev' = Event.with_available_seats (f (Event.available_seats ev)) ev
  else ev' = ev.

(** The store's error an action ran into, if any. *)
Definition store_error (a : action) (d : db) : option pg_error :=
  match a with
  | Book user event seatsToBook new_id =>
      match snd (handleBooking user event seatsToBook new_id d) with
      | Some (BookingError e) => Some e
      | _ => None
      end
  | Cancel user confirm bookingId =>
      match snd (handleCancelBooking user confirm bookingId d) with
      | CancelFailed e => Some e
      | _ => None
      end
  | Submit user editingEvent formData new_id =>
      match snd (handleSubmit user editingEvent formData new_id d) with
      | AdminFailed e => e
      | _ => None
      end
  | Delete user confirm eventId =>
      match snd (handleDelete user confirm eventId d) with
      | AdminFailed e => e
      | _ => None
      end
  end.

(** Two Reserve calls in flight.  Each page has read its copy of the event
    before either INSERT reaches the store; the store runs an INSERT with
    the trigger it fires as one unit, so the two INSERTs take effect one
    after the other, in one of two orders. *)
Record request : Type := mkRequest
  { req_user : auth;
    req_event : option Event.t;
    req_seats : Z;
    req_row_id : uuid }.

Definition reserve (r : request) (d : db) : db * option message :=
  handleBooking (req_user r) (req_event r) (req_seats r) (req_row_id r) d.

Inductive order : Type := first_wins | second_wins.

(** The database after both calls, with the message of the first request
    and the message of the second. *)
Definition race (o : order) (r1 r2 : request) (d : db)
  : db * option message * option message :=
  match o with
  | first_wins =>
      let a := reserve r1 d in
      let b := reserve r2 (fst a) in
      (fst b, snd a, snd b)
  | second_wins =>
      let b := reserve r2 d in
      let a := reserve r1 (fst b) in
      (fst a, snd a, snd b)
  end.

(** ** Sample data *)

Module Sample.
Local Open Scope string_scope.

Definition profiles : list UserProfile.t :=
  [ UserProfile.mk "ada"   "ada@example.org"   "Ada"   true;
    UserProfile.mk "ruth"  "ruth@example.org"  "Ruth"  true;
    UserProfile.mk "alice" "alice@example.org" "Alice" false;
    UserProfile.mk "bob"   "bob@example.org"   "Bob"   false ].

(** Two admins and two users; no event yet. *)
Definition empty : db := mkDb profiles [] [].

Definition form (total available : Z) : FormData.t :=
  FormData.mk "Tech Conference 2025" "Keynotes and workshops" "2025-03-15T09:00"
              "Convention Center, Downtown" total available EmptyString 4999.

(** The database after admin [ada] has created event [e1] through the
    form. *)
Definition with_event (total available : Z) : db :=
  run (Submit (Some "ada") None (form total available) "e1") empty.

(** The page's copy of [e1]. *)
Definition shown (d : db) : option Event.t := find_event "e1" (events d).

Definition free (d : db) : option Z := option_map Event.available_seats (shown d).

Definition status_of (bid : uuid) (d : db) : option status :=
  option_map Booking.booking_status (find_booking bid (bookings d)).

(** Admin [ada] books 2 of the 5 seats of [e1], then puts all 5 seats back
    on offer through the edit form (5 of 5 is within the form's bounds). *)
Definition rebalanced : db :=
  let d1 := run (Book (Some "ada") (shown (with_event 5 5)) 2 "b1") (with_event 5 5) in
  run (Submit (Some "ada") (shown d1) (form 5 5) "e1") d1.

(** The row of [e1] with the given seat numbers. *)
Definition row (total available : Z) : Event.t :=
  apply_form (form total available)
    (Event.mk "e1" EmptyString EmptyString EmptyString EmptyString 0 0 EmptyString 0
              (Some "ada")).

(** Admin [ada] has booked 2 of the 5 seats of [e1]: 3 are left. *)
Definition rebalanced_before : db :=
  run (Book (Some "ada") (shown (with_event 5 5)) 2 "b1") (with_event 5 5).

(** [alice] has booked [e1], cancelled, and booked [e1] again. *)
Definition rebooked : db :=
  let d1 := run (Book (Some "alice") (shown (with_event 5 5)) 2 "b1") (with_event 5 5) in
  let d2 := run (Cancel (Some "alice") true "b1") d1 in
  run (Book (Some "alice") (shown d2) 1 "b2") d2.

(** [alice] holds booking [b1] for 2 of the 5 seats of [e1]. *)
Definition alice_booked : db :=
  run (Book (Some "alice") (shown (with_event 5 5)) 2 "b1") (with_event 5 5).
End Sample.

(** ** More of the store and of the pages *)

(** Who runs an action. *)
Definition actor (a : action) : auth :=
  match a with
  | Book user _ _ _ => user
  | Cancel user _ _ => user
  | Submit user _ _ _ => user
  | Delete user _ _ => user
  end.

(** What the foreign keys of [bookings] say: every booking has its user's
    profile and its event. *)
Definition bookings_fkeys_hold (d : db) : Prop :=
  forall b, In b (bookings d) ->
    profile_exists (Booking.user_id b) (user_profiles d) = true
    /\ event_exists (Booking.event_id b) (events d) = true.

(** [id] is the primary key of [events]. *)
Definition events_pkey_holds (d : db) : Prop :=
  NoDup (map Event.id (events d)).

(** [UNIQUE(user_id, event_id, booking_status)]: two rows with the same
    triple are one row. *)
Definition bookings_key_holds (d : db) : Prop :=
  forall b c, In b (bookings d) -> In c (bookings d) ->
    same_key b c = true -> Booking.id b = Booking.id c.

(** The columns an UPDATE of [user_profiles] may set. *)
Record profile_patch : Type := mkProfilePatch
  { set_email : option string;
    set_full_name : option string;
    set_is_admin : option bool }.

Definition apply_profile_patch (p : profile_patch) (r : UserProfile.t) : UserProfile.t :=
  UserProfile.mk (UserProfile.id r)
                 (or_else (set_email p) (UserProfile.email r))
                 (or_else (set_full_name p) (UserProfile.full_name r))
                 (or_else (set_is_admin p) (UserProfile.is_admin r)).

(** [UPDATE user_profiles SET ... WHERE id = pid] under "Users can update
    their own profile": [USING (auth.uid() = id) WITH CHECK (auth.uid() =
    id)], the only UPDATE policy on the table.  The policy names no column:
    a row that passes it may be set in any of its columns.  No trigger is
    attached to the table; [id] is not set, so its keys stay as they are. *)
Definition update_profile (uid : auth) (pid : uuid) (p : profile_patch) (d : db) : db :=
  mkDb (map (fun r => if uuid_eqb (UserProfile.id r) pid && is_uid uid (UserProfile.id r)
                      then apply_profile_patch p r else r)
            (user_profiles d))
       (events d) (bookings d).

(** [EventDetailPage.fetchEvent]: [.eq('id', eventId).maybeSingle()], which
    gives the row, or null when there is none, or an error when several rows
    come back; on an error the page keeps the copy it has. *)
Definition fetchEvent (event : option Event.t) (eventId : uuid) (d : db)
  : option Event.t :=
  match filter (fun ev => uuid_eqb (Event.id ev) eventId) (events d) with
  | [] => None
  | [ev] => Some ev
  | _ => event
  end.

(** "Users can view their own bookings" and "Admins can view all bookings",
    the two SELECT policies on [bookings]. *)
Definition can_view_booking (d : db) (uid : auth) (b : Booking.t) : bool :=
  is_uid uid (Booking.user_id b) || admin_exists d uid.

(** [DashboardPage.fetchBookings] in the session of [user]: the bookings the
    session may see whose [user_id] is the user's, each with its event
    (the embedded [events] row, which every session may read), newest first.  The rows of
    [bookings] are kept in the order of their insertion, which is the order
    of [created_at] ([DEFAULT now()]). *)
Definition fetchBookings (user : uuid) (d : db) : list (Booking.t * option Event.t) :=
  map (fun b => (b, find_event (Booking.event_id b) (events d)))
      (rev (filter (fun b => can_view_booking d (Some user) b
                             && uuid_eqb (Booking.user_id b) user)
                   (bookings d))).

(** [confirmedBookings] and [cancelledBookings] of [DashboardPage]. *)
Definition confirmedBookings (fetched : list (Booking.t * option Event.t))
  : list (Booking.t * option Event.t) :=
  filter (fun r => status_eqb (Booking.booking_status (fst r)) confirmed) fetched.

Definition cancelledBookings (fetched : list (Booking.t * option Event.t))
  : list (Booking.t * option Event.t) :=
  filter (fun r => status_eqb (Booking.booking_status (fst r)) cancelled) fetched.

(** [HomePage]: the status filter. *)
Module FilterStatus.
Inductive t : Type := all | upcoming | available.
End FilterStatus.

(** [String.prototype.includes]: [q] occurs in [s]. *)
Fixpoint includes (s q : string) : bool :=
  String.prefix q s
  || match s with
     | EmptyString => false
     | String _ rest => includes rest q
     end.

Section HomePage.

(** [String.prototype.toLowerCase]. *)
Variable toLowerCase : string -> string.

(** [new Date(event.event_date) > new Date()], as it comes out for an event
    when the filter tests it. *)
Variable isUpcoming : Event.t -> bool.

Definition matches_search (searchQuery : string) (event : Event.t) : bool :=
  includes (toLowerCase (Event.title event)) (toLowerCase searchQuery)
  || includes (toLowerCase (Event.location event)) (toLowerCase searchQuery)
  || includes (toLowerCase (Event.description event)) (toLowerCase searchQuery).

(** [HomePage.filterEvents]: what [filteredEvents] is set to.  An empty
    [searchQuery] is falsy and filters nothing. *)
Definition filterEvents (searchQuery : string) (filterStatus : FilterStatus.t)
    (evs : list Event.t) : list Event.t :=
  let filtered :=
    match searchQuery with
    | EmptyString => evs
    | _ => filter (matches_search searchQuery) evs
    end in
  match filterStatus with
  | FilterStatus.all => filtered
  | FilterStatus.upcoming => filter isUpcoming filtered
  | FilterStatus.available =>
      filter (fun event => (0 <? Event.available_seats event) && isUpcoming event)
             filtered
  end.

End HomePage.

(** [App]: what [useAuth()] gives, and the state of [AppContent]. *)
Module AuthContext.
Record t : Type := mk
  { user : auth; loading : bool; isAdmin : bool }.
End AuthContext.

Record app : Type := mkApp
  { currentPage : string; selectedEventId : option uuid }.

Definition handleNavigate (page : string) (s : app) : app :=
  mkApp page (selectedEventId s).

Definition handleEventClick (eventId : uuid) (s : app) : app :=
  mkApp "event-detail"%string (Some eventId).

Definition handleBackToHome (s : app) : app :=
  mkApp "home"%string None.

Definition signed_in (a : AuthContext.t) : bool :=
  match AuthContext.user a with
  | Some _ => true
  | None => false
  end.

(** The effect of [AppContent]; its two tests exclude each other, so at
    most one of the two [setCurrentPage] calls is made. *)
Definition redirect (a : AuthContext.t) (s : app) : app :=
  if negb (AuthContext.loading a) && negb (signed_in a)
     && (String.eqb (currentPage s) "dashboard"%string || String.eqb (currentPage s) "admin"%string)
  then mkApp "login"%string (selectedEventId s)
  else if negb (AuthContext.loading a) && signed_in a && negb (AuthContext.isAdmin a)
          && String.eqb (currentPage s) "admin"%string
  then mkApp "home"%string (selectedEventId s)
  else s.

(** What [AppContent] shows under the navigation bar. *)
Inductive view : Type :=
| Spinner
| NoPage
| ShowHome
| ShowEventDetail (eventId : uuid)
| ShowLogin
| ShowSignup
| ShowDashboard
| ShowAdmin.

Definition render (a : AuthContext.t) (s : app) : view :=
  if AuthContext.loading a then Spinner
  else if String.eqb (currentPage s) "home"%string then ShowHome
  else if String.eqb (currentPage s) "event-detail"%string then
    match selectedEventId s with
    | Some EmptyString | None => NoPage
    | Some eventId => ShowEventDetail eventId
    end
  else if String.eqb (currentPage s) "login"%string then ShowLogin
  else if String.eqb (currentPage s) "signup"%string then ShowSignup
  else if String.eqb (currentPage s) "dashboard"%string then
    (if signed_in a then ShowDashboard else NoPage)
  else if String.eqb (currentPage s) "admin"%string then
    (if signed_in a && AuthContext.isAdmin a then ShowAdmin else NoPage)
  else NoPage.

(** * Properties *)

(** ** Equality tests *)

Lemma uuid_eqb_refl (a : uuid) : uuid_eqb a a = true.
Proof. apply String.eqb_refl. Qed.

Lemma uuid_eqb_true (a b : uuid) : uuid_eqb a b = true -> a = b.
Proof. apply String.eqb_eq. Qed.

Lemma uuid_eqb_sym (a b : uuid) : uuid_eqb a b = uuid_eqb b a.
Proof. apply String.eqb_sym. Qed.

Lemma status_eqb_true (s t : status) : status_eqb s t = true -> s = t.
Proof. destruct s, t; simpl; congruence. Qed.

(** ** The result monad *)

Lemma bind_Ok {A B : Type} (r : result A) (k : A -> result B) (b : B) :
  bind r k = Ok b -> exists a, r = Ok a /\ k a = Ok b.
Proof. destruct r as [a|e]; simpl; [eauto | discriminate]. Qed.

Lemma guard_Ok (c : bool) (e : pg_error) (u : unit) : guard c e = Ok u -> c = true.
Proof. destruct c; simpl; [reflexivity | discriminate]. Qed.

(** Split a hypothesis [x <- r ;; k = Ok b] into its two halves, a guard
    into its test. *)
Ltac bind_inv H :=
  let a := fresh "a" in
  let Hr := fresh "Hr" in
  apply bind_Ok in H; destruct H as [a [Hr H]];
  try (apply guard_Ok in Hr).

Ltac binds_inv H := repeat (bind_inv H).

(** ** What the seat statement does to [events] *)

Lemma set_available_seats_moves (f : Z -> Z) (eid : uuid) (evs evs' : list Event.t) :
  set_available_seats f eid evs = Ok evs' ->
  Forall2 (seats_moved f eid) evs evs'.
Proof.
  revert evs'; induction evs as [|ev rest IH]; intros evs' H; simpl in H.
  - injection H as <-. constructor.
  - destruct (uuid_eqb (Event.id ev) eid) eqn:E.
    + binds_inv H. injection H as <-.
      constructor; [unfold seats_moved; now rewrite E | now apply IH].
    + bind_inv H. injection H as <-.
      constructor; [unfold seats_moved; now rewrite E | now apply IH].
Qed.

Lemma check_event_Ok (ev : Event.t) (u : unit) :
  check_event ev = Ok u ->
  0 <= Event.available_seats ev /\ 0 < Event.total_seats ev.
Proof.
  unfold check_event. intro H.
  apply bind_Ok in H. destruct H as [v [Ha Ht]].
  apply guard_Ok in Ha. apply guard_Ok in Ht.
  split; [now apply Z.leb_le | now apply Z.ltb_lt].
Qed.

Lemma set_available_seats_checked (f : Z -> Z) (eid : uuid) (evs evs' : list Event.t) :
  set_available_seats f eid evs = Ok evs' ->
  (forall ev, In ev evs -> 0 <= Event.available_seats ev /\ 0 < Event.total_seats ev) ->
  forall ev, In ev evs' -> 0 <= Event.available_seats ev /\ 0 < Event.total_seats ev.
Proof.
  revert evs'; induction evs as [|ev rest IH]; intros evs' H Hc; simpl in H.
  - injection H as <-. intros ev [].
  - destruct (uuid_eqb (Event.id ev) eid) eqn:E.
    + apply bind_Ok in H; destruct H as [u [_ H]].
      apply bind_Ok in H; destruct H as [u' [Hck H]].
      apply bind_Ok in H; destruct H as [rest' [Hrest H]].
      injection H as <-.
      intros x [<- | Hx].
      * exact (check_event_Ok _ _ Hck).
      * apply (IH rest'); [assumption | intros y Hy; apply Hc; now right | assumption].
    + apply bind_Ok in H; destruct H as [rest' [Hrest H]].
      injection H as <-.
      intros x [<- | Hx].
      * apply Hc; now left.
      * apply (IH rest'); [assumption | intros y Hy; apply Hc; now right | assumption].
Qed.

(** ** Seats held, under the two writes to [bookings] *)

Lemma seats_held_app (eid : uuid) (bs cs : list Booking.t) :
  seats_held eid (bs ++ cs) = seats_held eid bs + seats_held eid cs.
Proof. induction bs as [|b rest IH]; simpl; [reflexivity | rewrite IH; lia]. Qed.

Lemma seats_held_insert (eid : uuid) (bs : list Booking.t) (b : Booking.t) :
  seats_held eid (bs ++ [b]) = seats_held eid bs + held_by eid b.
Proof. rewrite seats_held_app. simpl. lia. Qed.

Lemma seats_held_replace (eid bid : uuid) (bs : list Booking.t) (OLD NEW : Booking.t) :
  find_booking bid bs = Some OLD ->
  seats_held eid (replace_booking bid NEW bs)
  = seats_held eid bs - held_by eid OLD + held_by eid NEW.
Proof.
  unfold find_booking.
  induction bs as [|b rest IH]; simpl; [discriminate |].
  destruct (uuid_eqb (Booking.id b) bid).
  - intros [= ->]. simpl. lia.
  - intro H. simpl. rewrite (IH H). lia.
Qed.

Lemma held_by_cancelled (eid : uuid) (b : Booking.t) :
  Booking.booking_status b = cancelled -> held_by eid b = 0.
Proof.
  unfold held_by. intros ->. simpl. now rewrite andb_false_r.
Qed.

Lemma held_by_confirmed (eid : uuid) (b : Booking.t) :
  Booking.booking_status b = confirmed ->
  held_by eid b = if uuid_eqb eid (Booking.event_id b) then Booking.seats_booked b else 0.
Proof.
  unfold held_by. intros ->. simpl. now rewrite andb_true_r, uuid_eqb_sym.
Qed.

Lemma apply_cancel_patch (b : Booking.t) :
  apply_patch cancel_patch b = Booking.with_status cancelled b.
Proof. reflexivity. Qed.

(** ** The ledger under the seat statement *)

(** Moving [k] seats into the free seats of event [eid] while its held
    seats drop by [k] leaves every ledger entry as it was. *)
Lemma ledger_shift (f : Z -> Z) (k : Z) (eid : uuid) (h h' : uuid -> Z)
    (evs evs' : list Event.t) :
  (forall a, f a = a + k) ->
  (forall e, h' e = h e - (if uuid_eqb e eid then k else 0)) ->
  Forall2 (seats_moved f eid) evs evs' ->
  map (fun ev => (Event.id ev, Event.total_seats ev, Event.available_seats ev + h' (Event.id ev))) evs'
  = map (fun ev => (Event.id ev, Event.total_seats ev, Event.available_seats ev + h (Event.id ev))) evs.
Proof.
  intros Hf Hh Hmv.
  induction Hmv as [|ev ev' rest rest' Hm _ IH]; simpl; [reflexivity |].
  rewrite IH. f_equal.
  unfold seats_moved in Hm. rewrite Hh.
  destruct (uuid_eqb (Event.id ev) eid) eqn:E; subst ev'; simpl; rewrite E.
  - rewrite Hf. f_equal. lia.
  - f_equal. lia.
Qed.

Lemma update_events_seats_admin (uid : auth) (f : Z -> Z) (eid : uuid) (d d' : db) :
  admin_exists d uid = true ->
  update_events_seats uid f eid d = Ok d' ->
  user_profiles d' = user_profiles d
  /\ bookings d' = bookings d
  /\ Forall2 (seats_moved f eid) (events d) (events d').
Proof.
  unfold update_events_seats. intros -> H.
  apply bind_Ok in H. destruct H as [evs [Hs H]].
  injection H as <-. simpl.
  repeat split. now apply set_available_seats_moves.
Qed.

(** In any session the seat statement leaves [events] alone or moves the
    seats of the rows of [eid]. *)
Lemma update_events_seats_any (uid : auth) (f : Z -> Z) (eid : uuid) (d d' : db) :
  update_events_seats uid f eid d = Ok d' ->
  user_profiles d' = user_profiles d
  /\ bookings d' = bookings d
  /\ (events d' = events d \/ Forall2 (seats_moved f eid) (events d) (events d')).
Proof.
  destruct (admin_exists d uid) eqn:A; intro H.
  - destruct (update_events_seats_admin _ _ _ _ _ A H) as (Hp & Hb & Hm). auto.
  - unfold update_events_seats in H. rewrite A in H. injection H as <-. auto.
Qed.

(** A booking inserted in an admin's session moves its seats from the free
    seats of its event to the held ones. *)
Lemma insert_booking_ledger (uid : auth) (NEW : Booking.t) (d d' : db) :
  admin_exists d uid = true ->
  insert_booking uid NEW d = Ok d' ->
  ledger d' = ledger d.
Proof.
  intros A H. unfold insert_booking in H.
  apply bind_Ok in H. destruct H as [? [_ H]].
  apply bind_Ok in H. destruct H as [? [Hpol H]]. apply guard_Ok in Hpol.
  do 5 (apply bind_Ok in H; destruct H as [? [_ H]]).
  unfold users_can_create_their_own_bookings in Hpol.
  apply andb_prop in Hpol. destruct Hpol as [_ Hst]. apply status_eqb_true in Hst.
  unfold update_seats_on_booking in H. rewrite Hst in H.
  apply update_events_seats_admin in H; [| exact A].
  simpl in H. destruct H as (_ & Hb & Hm).
  unfold ledger. rewrite Hb.
  apply (ledger_shift (fun a => a - Booking.seats_booked NEW)
           (- Booking.seats_booked NEW) (Booking.event_id NEW)
           (fun e => seats_held e (bookings d))
           (fun e => seats_held e (bookings d ++ [NEW]))).
  - intro a. lia.
  - intro e. rewrite seats_held_insert, (held_by_confirmed _ _ Hst).
    destruct (uuid_eqb e (Booking.event_id NEW)); lia.
  - exact Hm.
Qed.

(** An update that sets the status to cancelled, in an admin's session,
    moves the seats back if and only if the booking was confirmed. *)
Lemma cancel_booking_ledger (uid : auth) (bid : uuid) (d d' : db) (n : nat) :
  admin_exists d uid = true ->
  update_booking uid bid cancel_patch d = Ok (d', n) ->
  ledger d' = ledger d.
Proof.
  intros A H. unfold update_booking in H.
  destruct (find_booking bid (bookings d)) as [OLD|] eqn:F; [| now injection H as <- _].
  destruct (users_can_update_their_own_bookings uid OLD); [| now injection H as <- _].
  rewrite apply_cancel_patch in H.
  do 6 (apply bind_Ok in H; destruct H as [? [_ H]]).
  apply bind_Ok in H. destruct H as [d2 [Htr H]]. injection H as <- _.
  unfold restore_seats_on_cancel in Htr. simpl in Htr.
  destruct (Booking.booking_status OLD) eqn:S.
  - apply update_events_seats_admin in Htr; [| exact A].
    simpl in Htr. destruct Htr as (_ & Hb & Hm).
    unfold ledger. rewrite Hb.
    apply (ledger_shift (fun a => a + Booking.seats_booked OLD)
             (Booking.seats_booked OLD) (Booking.event_id OLD)
             (fun e => seats_held e (bookings d))
             (fun e => seats_held e
                         (replace_booking bid (Booking.with_status cancelled OLD)
                                          (bookings d)))).
    + intro a. lia.
    + intro e. rewrite (seats_held_replace _ _ _ _ _ F).
      rewrite (held_by_confirmed _ _ S), held_by_cancelled by reflexivity.
      destruct (uuid_eqb e (Booking.event_id OLD)); lia.
    + exact Hm.
  - injection Htr as <-. unfold ledger. simpl.
    apply map_ext. intro ev.
    rewrite (seats_held_replace _ _ _ _ _ F).
    rewrite held_by_cancelled by exact S.
    rewrite held_by_cancelled by reflexivity.
    f_equal. lia.
Qed.

Lemma seat_equation_ledger (d : db) :
  seat_equation d <-> (forall i t s, In (i, t, s) (ledger d) -> s = t).
Proof.
  unfold seat_equation, ledger. split.
  - intros H i t s Hin. apply in_map_iff in Hin.
    destruct Hin as [ev [[= <- <- <-] Hev]]. rewrite (H ev Hev). lia.
  - intros H ev Hev.
    specialize (H _ _ _ (in_map _ _ _ Hev)). simpl in H. lia.
Qed.

(** ** C1 *)

(** C1, as amended.  In a session whose user passes the policy "Admins can
    update events", a Reserve ([handleBooking]) and a Cancel
    ([handleCancelBooking]) leave the ledger as it is, whether the call goes
    through or fails: for every event, [total_seats] and the sum of
    [available_seats] and the seats of its confirmed bookings.  So the
    equation [available_seats = total_seats - (seats of confirmed bookings)]
    is true of every event after the call when it was true before. *)
Theorem reserve_cancel_keep_seat_equation (d : db) (user : auth) :
  admin_exists d user = true ->
  (forall event seatsToBook new_id,
      ledger (run (Book user event seatsToBook new_id) d) = ledger d
      /\ (seat_equation d ->
          seat_equation (run (Book user event seatsToBook new_id) d)))
  /\ (forall confirm bookingId,
         ledger (run (Cancel user confirm bookingId) d) = ledger d
         /\ (seat_equation d ->
             seat_equation (run (Cancel user confirm bookingId) d))).
Proof.
  intro A.
  assert (Heq : forall d', ledger d' = ledger d ->
                           ledger d' = ledger d
                           /\ (seat_equation d -> seat_equation d')).
  { intros d' L. split; [exact L |].
    intro H. apply seat_equation_ledger. rewrite L.
    now apply seat_equation_ledger. }
  split.
  - intros event seatsToBook new_id. apply Heq. simpl. unfold handleBooking.
    destruct user as [u|]; [| reflexivity].
    destruct event as [ev|]; [| reflexivity].
    destruct (Event.available_seats ev <? seatsToBook); [reflexivity |].
    destruct (insert_booking _ _ d) as [d'|e] eqn:I; [| reflexivity].
    exact (insert_booking_ledger _ _ _ _ A I).
  - intros confirm bookingId. apply Heq. simpl. unfold handleCancelBooking.
    destruct confirm; [| reflexivity].
    destruct (update_booking _ _ _ d) as [[d' n]|e] eqn:U; [| reflexivity].
    exact (cancel_booking_ledger _ _ _ _ _ A U).
Qed.

Lemma sample_seat_equation : seat_equation (Sample.with_event 10 10).
Proof. intros ev [<- | []]. reflexivity. Qed.

Lemma reserve_cancel_keep_seat_equation_witness :
  seat_equation
    (run (Book (Some "ada"%string) (Sample.shown (Sample.with_event 10 10)) 3 "b1"%string)
         (Sample.with_event 10 10))
  /\ ledger (run (Cancel (Some "ada"%string) true "b1"%string) (Sample.with_event 10 10))
     = ledger (Sample.with_event 10 10).
Proof.
  destruct (reserve_cancel_keep_seat_equation
              (Sample.with_event 10 10) (Some "ada"%string) eq_refl) as [HB HC].
  split.
  - apply HB. exact sample_seat_equation.
  - apply HC.
Defined.

(** C1 as stated fails: an event created through the admin form with 5 of
    its 10 seats on offer, and no booking, has [available_seats = 5] against
    [total_seats - 0 = 10]; a completed Reserve of one seat leaves 4 against
    [10 - 1 = 9]. *)
Lemma seat_equation_fails_after_reserve :
  let d := Sample.with_event 10 5 in
  handleSubmit (Some "ada"%string) None (Sample.form 10 5) "e1"%string Sample.empty
  = (d, AdminDone)
  /\ snd (handleBooking (Some "ada"%string) (Sample.shown d) 1 "b1"%string d)
     = Some BookingConfirmed
  /\ ~ seat_equation (run (Book (Some "ada"%string) (Sample.shown d) 1 "b1"%string) d).
Proof.
  cbv zeta. split; [reflexivity |]. split; [reflexivity |].
  intro H.
  assert (Hin : exists ev,
             In ev (events (run (Book (Some "ada"%string)
                                      (Sample.shown (Sample.with_event 10 5)) 1 "b1"%string)
                                (Sample.with_event 10 5)))
             /\ Event.available_seats ev = 4 /\ Event.total_seats ev = 10
             /\ seats_held (Event.id ev)
                  (bookings (run (Book (Some "ada"%string)
                                       (Sample.shown (Sample.with_event 10 5)) 1 "b1"%string)
                                 (Sample.with_event 10 5))) = 1).
  { eexists. split; [left; reflexivity |]. repeat split. }
  destruct Hin as [ev (Hin & Ha & Ht & Hh)].
  specialize (H ev Hin). rewrite Ha, Ht, Hh in H. discriminate.
Qed.

(** ** The CHECK constraints of [events] *)

Lemma update_events_seats_checked (uid : auth) (f : Z -> Z) (eid : uuid) (d d' : db) :
  update_events_seats uid f eid d = Ok d' ->
  events_checked d -> events_checked d'.
Proof.
  unfold update_events_seats, events_checked.
  destruct (admin_exists d uid); intros H Hc.
  - apply bind_Ok in H. destruct H as [evs [Hs H]]. injection H as <-. simpl.
    exact (set_available_seats_checked _ _ _ _ Hs Hc).
  - now injection H as <-.
Qed.

Lemma insert_booking_checked (uid : auth) (NEW : Booking.t) (d d' : db) :
  insert_booking uid NEW d = Ok d' ->
  events_checked d -> events_checked d'.
Proof.
  unfold insert_booking. intros H Hc.
  do 7 (apply bind_Ok in H; destruct H as [? [_ H]]).
  unfold update_seats_on_booking in H.
  destruct (Booking.booking_status NEW).
  - exact (update_events_seats_checked _ _ _ _ _ H Hc).
  - now injection H as <-.
Qed.

Lemma update_booking_checked (uid : auth) (bid : uuid) (p : booking_patch)
    (d d' : db) (n : nat) :
  update_booking uid bid p d = Ok (d', n) ->
  events_checked d -> events_checked d'.
Proof.
  unfold update_booking. intros H Hc.
  destruct (find_booking bid (bookings d)) as [OLD|]; [| now injection H as <- _].
  destruct (users_can_update_their_own_bookings uid OLD); [| now injection H as <- _].
  do 6 (apply bind_Ok in H; destruct H as [? [_ H]]).
  apply bind_Ok in H. destruct H as [d2 [Htr H]]. injection H as <- _.
  unfold restore_seats_on_cancel in Htr.
  destruct (Booking.booking_status OLD), (Booking.booking_status (apply_patch p OLD));
    try (now injection Htr as <-).
  exact (update_events_seats_checked _ _ _ _ _ Htr Hc).
Qed.

Lemma set_event_rows_checked (f : FormData.t) (eid : uuid) (evs : list Event.t)
    (r : list Event.t * nat) :
  set_event_rows f eid evs = Ok r ->
  (forall ev, In ev evs -> 0 <= Event.available_seats ev /\ 0 < Event.total_seats ev) ->
  forall ev, In ev (fst r) -> 0 <= Event.available_seats ev /\ 0 < Event.total_seats ev.
Proof.
  revert r; induction evs as [|ev rest IH]; intros r H Hc; simpl in H.
  - injection H as <-. intros ev [].
  - destruct (uuid_eqb (Event.id ev) eid).
    + apply bind_Ok in H; destruct H as [u [Hck H]].
      apply bind_Ok in H; destruct H as [r' [Hrest H]].
      injection H as <-. simpl.
      intros x [<- | Hx].
      * exact (check_event_Ok _ _ Hck).
      * apply (IH r'); [assumption | intros y Hy; apply Hc; now right | assumption].
    + apply bind_Ok in H; destruct H as [r' [Hrest H]].
      injection H as <-. simpl.
      intros x [<- | Hx].
      * apply Hc; now left.
      * apply (IH r'); [assumption | intros y Hy; apply Hc; now right | assumption].
Qed.

Lemma update_event_checked (uid : auth) (eid : uuid) (f : FormData.t)
    (d d' : db) (n : nat) :
  update_event uid eid f d = Ok (d', n) ->
  events_checked d -> events_checked d'.
Proof.
  unfold update_event, events_checked. intros H Hc.
  apply bind_Ok in H; destruct H as [? [_ H]].
  destruct (admin_exists d uid); [| now injection H as <- _].
  apply bind_Ok in H. destruct H as [r [Hs H]]. injection H as <- _. simpl.
  exact (set_event_rows_checked _ _ _ _ Hs Hc).
Qed.

Lemma insert_event_checked (uid : auth) (NEW : Event.t) (d d' : db) :
  insert_event uid NEW d = Ok d' ->
  events_checked d -> events_checked d'.
Proof.
  unfold insert_event, events_checked. intros H Hc.
  do 2 (apply bind_Ok in H; destruct H as [? [_ H]]).
  apply bind_Ok in H; destruct H as [? [Hck H]].
  do 2 (apply bind_Ok in H; destruct H as [? [_ H]]).
  injection H as <-. simpl.
  intros ev Hin. apply in_app_or in Hin. destruct Hin as [Hin | [<- | []]].
  - now apply Hc.
  - exact (check_event_Ok _ _ Hck).
Qed.

Lemma delete_event_checked (uid : auth) (eid : uuid) (d d' : db) (n : nat) :
  delete_event uid eid d = Ok (d', n) ->
  events_checked d -> events_checked d'.
Proof.
  unfold delete_event, events_checked. intros H Hc.
  destruct (admin_exists d uid && event_exists eid (events d)); injection H as <- _.
  - simpl. intros ev Hin. apply filter_In in Hin. now apply Hc.
  - exact Hc.
Qed.

(** An edit whose form breaks a CHECK of [events] is turned down at the
    first row it would write. *)
Lemma set_event_rows_rejects (f : FormData.t) (eid : uuid) (evs : list Event.t) :
  event_exists eid evs = true ->
  FormData.available_seats f < 0 \/ FormData.total_seats f <= 0 ->
  set_event_rows f eid evs
  = Err (check_violation (if FormData.available_seats f <? 0
                          then events_available_seats_check
                          else events_total_seats_check)).
Proof.
  intros Hex Hbad. induction evs as [|ev rest IH]; simpl in *; [discriminate |].
  destruct (uuid_eqb (Event.id ev) eid); simpl in Hex.
  - unfold check_event. simpl.
    destruct (FormData.available_seats f <? 0) eqn:La.
    + apply Z.ltb_lt in La.
      replace (0 <=? FormData.available_seats f) with false
        by (symmetry; apply Z.leb_gt; lia).
      reflexivity.
    + apply Z.ltb_ge in La.
      replace (0 <=? FormData.available_seats f) with true
        by (symmetry; apply Z.leb_le; lia).
      replace (0 <? FormData.total_seats f) with false
        by (symmetry; apply Z.ltb_ge; lia).
      reflexivity.
  - now rewrite (IH Hex).
Qed.

(** ** C4 *)

(** C4, as amended.  The two CHECK constraints of [events],
    [available_seats >= 0] and [total_seats > 0], hold of every row after
    every action when they held before; an action the store turns down
    leaves the database as it was; and an admin's edit of an existing event
    whose form breaks one of the two is turned down with that constraint's
    check violation.  (No bound ties [available_seats] to [total_seats].) *)
Theorem checks_hold_after_every_action (d : db) :
  events_checked d ->
  (forall a, events_checked (run a d)
             /\ (forall e, store_error a d = Some e -> run a d = d))
  /\ (forall user ev f new_id,
         admin_exists d user = true ->
         event_exists (Event.id ev) (events d) = true ->
         in_int4 (FormData.total_seats f) && in_int4 (FormData.available_seats f) = true ->
         FormData.available_seats f < 0 \/ FormData.total_seats f <= 0 ->
         handleSubmit user (Some ev) f new_id d
         = (d, AdminFailed
                 (Some (check_violation (if FormData.available_seats f <? 0
                                         then events_available_seats_check
                                         else events_total_seats_check))))).
Proof.
  intro Hc. split.
  - intro a. split.
    + destruct a as [user event seats new_id | user confirm bid
                    | user editing f new_id | user confirm eid]; simpl.
      * unfold handleBooking.
        destruct user as [u|]; [| exact Hc].
        destruct event as [ev|]; [| exact Hc].
        destruct (Event.available_seats ev <? seats); [exact Hc |].
        destruct (insert_booking _ _ d) as [d'|e] eqn:I; [| exact Hc].
        exact (insert_booking_checked _ _ _ _ I Hc).
      * unfold handleCancelBooking.
        destruct confirm; [| exact Hc].
        destruct (update_booking _ _ _ d) as [[d' n]|e] eqn:U; [| exact Hc].
        exact (update_booking_checked _ _ _ _ _ _ U Hc).
      * unfold handleSubmit.
        destruct editing as [ev|].
        -- destruct (update_event _ _ _ d) as [[d' n]|e] eqn:U; [| exact Hc].
           exact (update_event_checked _ _ _ _ _ _ U Hc).
        -- destruct user as [u|]; [| exact Hc].
           destruct (insert_event _ _ d) as [d'|e] eqn:I; [| exact Hc].
           exact (insert_event_checked _ _ _ _ I Hc).
      * unfold handleDelete.
        destruct confirm; [| exact Hc].
        destruct (delete_event _ _ d) as [[d' n]|e] eqn:D; [| exact Hc].
        exact (delete_event_checked _ _ _ _ _ D Hc).
    + intros e.
      destruct a as [user event seats new_id | user confirm bid
                    | user editing f new_id | user confirm eid]; simpl.
      * unfold handleBooking.
        destruct user as [u|]; [| reflexivity].
        destruct event as [ev|]; [| reflexivity].
        destruct (Event.available_seats ev <? seats); [reflexivity |].
        destruct (insert_booking _ _ d); [discriminate | reflexivity].
      * unfold handleCancelBooking.
        destruct confirm; [| reflexivity].
        destruct (update_booking _ _ _ d) as [[d' n]|]; [discriminate | reflexivity].
      * unfold handleSubmit.
        destruct editing as [ev|].
        -- destruct (update_event _ _ _ d) as [[d' n]|]; [discriminate | reflexivity].
        -- destruct user as [u|]; [| reflexivity].
           destruct (insert_event _ _ d); [discriminate | reflexivity].
      * unfold handleDelete.
        destruct confirm; [| reflexivity].
        destruct (delete_event _ _ d) as [[d' n]|]; [discriminate | reflexivity].
  - intros user ev f new_id A Hex Hrange Hbad.
    unfold handleSubmit, update_event.
    rewrite Hrange, A. simpl.
    now rewrite (set_event_rows_rejects _ _ _ Hex Hbad).
Qed.

Lemma sample_events_checked : events_checked (Sample.with_event 5 5).
Proof. intros ev [<- | []]. simpl. lia. Qed.

Lemma checks_hold_after_every_action_witness :
  events_checked (run (Cancel (Some "ada"%string) true "b1"%string) (Sample.with_event 5 5))
  /\ handleSubmit (Some "ada"%string) (Sample.shown (Sample.with_event 5 5))
                  (Sample.form 0 0) "e1"%string (Sample.with_event 5 5)
     = (Sample.with_event 5 5,
        AdminFailed (Some (check_violation events_total_seats_check))).
Proof.
  destruct (checks_hold_after_every_action (Sample.with_event 5 5) sample_events_checked)
    as [Hrun Hedit].
  split.
  - apply Hrun.
  - destruct (Sample.shown (Sample.with_event 5 5)) as [ev|] eqn:S; [| discriminate].
    injection S as <-.
    apply (Hedit (Some "ada"%string)); [reflexivity | reflexivity | reflexivity | right; simpl; lia].
Defined.

(** C4 as stated fails on its upper bound: in [Sample.rebalanced] the event
    has 5 of 5 seats on offer and one confirmed booking of 2; cancelling
    that booking goes through and leaves 7 seats available of 5. *)
Lemma cancel_exceeds_total_seats :
  seat_bounds Sample.rebalanced
  /\ handleCancelBooking (Some "ada"%string) true "b1"%string Sample.rebalanced
     = (run (Cancel (Some "ada"%string) true "b1"%string) Sample.rebalanced, CancelDone)
  /\ Sample.free (run (Cancel (Some "ada"%string) true "b1"%string) Sample.rebalanced)
     = Some 7
  /\ ~ seat_bounds (run (Cancel (Some "ada"%string) true "b1"%string) Sample.rebalanced).
Proof.
  split; [| split; [| split]].
  - intros ev [<- | []]. simpl. lia.
  - reflexivity.
  - reflexivity.
  - intro H.
    assert (Hin : exists ev,
               In ev (events (run (Cancel (Some "ada"%string) true "b1"%string)
                                  Sample.rebalanced))
               /\ Event.available_seats ev = 7 /\ Event.total_seats ev = 5).
    { eexists. split; [left; reflexivity |]. split; reflexivity. }
    destruct Hin as [ev (Hin & Ha & Ht)].
    destruct (H ev Hin) as [[_ Hle] _]. rewrite Ha, Ht in Hle. lia.
Qed.

(** ** Rows of [bookings] by id *)

Lemma find_booking_id (bid : uuid) (bs : list Booking.t) (b : Booking.t) :
  find_booking bid bs = Some b -> uuid_eqb (Booking.id b) bid = true.
Proof. intro H. exact (proj2 (find_some _ _ H)). Qed.

Lemma find_booking_In (bid : uuid) (bs : list Booking.t) (b : Booking.t) :
  find_booking bid bs = Some b -> In b bs.
Proof. intro H. exact (proj1 (find_some _ _ H)). Qed.

Lemma find_replace_same (bid : uuid) (bs : list Booking.t) (OLD NEW : Booking.t) :
  find_booking bid bs = Some OLD ->
  uuid_eqb (Booking.id NEW) bid = true ->
  find_booking bid (replace_booking bid NEW bs) = Some NEW.
Proof.
  unfold find_booking. intros H Hid.
  induction bs as [|b rest IH]; simpl in *; [discriminate |].
  destruct (uuid_eqb (Booking.id b) bid) eqn:E; simpl.
  - now rewrite Hid.
  - rewrite E. now apply IH.
Qed.

Lemma find_replace_other (bid bid' : uuid) (bs : list Booking.t) (NEW : Booking.t) :
  uuid_eqb (Booking.id NEW) bid = true ->
  uuid_eqb bid bid' = false ->
  find_booking bid' (replace_booking bid NEW bs) = find_booking bid' bs.
Proof.
  unfold find_booking. intros Hid Hne.
  induction bs as [|b rest IH]; simpl; [reflexivity |].
  destruct (uuid_eqb (Booking.id b) bid) eqn:E; simpl.
  - apply uuid_eqb_true in Hid, E. rewrite Hid, E. now rewrite Hne.
  - now rewrite IH.
Qed.


Lemma status_eqb_refl (s : status) : status_eqb s s = true.
Proof. now destruct s. Qed.


Lemma is_uid_false (uid : auth) (u : uuid) : uid <> Some u -> is_uid uid u = false.
Proof.
  destruct uid as [v|]; simpl; [| reflexivity].
  intro H. destruct (uuid_eqb v u) eqn:E; [| reflexivity].
  apply uuid_eqb_true in E. congruence.
Qed.

(** ** What an UPDATE of [bookings] that goes through has done *)

Lemma restore_seats_on_cancel_Ok (uid : auth) (OLD NEW : Booking.t) (d1 d2 : db) :
  restore_seats_on_cancel uid OLD NEW d1 = Ok d2 ->
  user_profiles d2 = user_profiles d1
  /\ bookings d2 = bookings d1
  /\ (events d2 = events d1
      \/ (Booking.booking_status OLD = confirmed
          /\ Booking.booking_status NEW = cancelled
          /\ Forall2 (seats_moved (fun a => a + Booking.seats_booked OLD)
                                  (Booking.event_id OLD))
                     (events d1) (events d2))).
Proof.
  unfold restore_seats_on_cancel. intro H.
  destruct (Booking.booking_status OLD) eqn:So, (Booking.booking_status NEW) eqn:Sn;
    try (injection H as <-; auto).
  destruct (update_events_seats_any _ _ _ _ _ H) as (Hp & Hb & [He | Hm]); auto.
  repeat split; auto.
Qed.

(** The shape of every successful [update_booking]: no row, or the one row
    rewritten and the cancel trigger run on the result. *)
Lemma update_booking_Ok (uid : auth) (bid : uuid) (p : booking_patch)
    (d d' : db) (n : nat) :
  update_booking uid bid p d = Ok (d', n) ->
  (d' = d /\ n = 0%nat
   /\ match find_booking bid (bookings d) with
      | Some OLD => users_can_update_their_own_bookings uid OLD = false
      | None => True
      end)
  \/ (exists OLD,
         find_booking bid (bookings d) = Some OLD
         /\ users_can_update_their_own_bookings uid OLD = true
         /\ users_can_update_their_own_bookings uid (apply_patch p OLD) = true
         /\ in_int4 (Booking.seats_booked (apply_patch p OLD)) = true
         /\ 0 < Booking.seats_booked (apply_patch p OLD)
         /\ n = 1%nat
         /\ restore_seats_on_cancel uid OLD (apply_patch p OLD)
              (mkDb (user_profiles d) (events d)
                    (replace_booking bid (apply_patch p OLD) (bookings d)))
            = Ok d').
Proof.
  unfold update_booking. intro H.
  destruct (find_booking bid (bookings d)) as [OLD|] eqn:F;
    [| injection H as <- <-; left; auto].
  destruct (users_can_update_their_own_bookings uid OLD) eqn:P;
    [| injection H as <- <-; left; auto].
  right. exists OLD.
  apply bind_Ok in H; destruct H as [? [Hrange H]]. apply guard_Ok in Hrange.
  apply bind_Ok in H; destruct H as [? [Hpol H]]. apply guard_Ok in Hpol.
  apply bind_Ok in H; destruct H as [? [Hck H]]. apply guard_Ok in Hck.
  do 3 (apply bind_Ok in H; destruct H as [? [_ H]]).
  apply bind_Ok in H; destruct H as [d2 [Htr H]]. injection H as <- <-.
  apply Z.ltb_lt in Hck. auto 10.
Qed.

(** ** C10 *)

(** C10.  An UPDATE of a row of [bookings], whatever columns it sets and
    whoever runs it, leaves the table [events] as it was unless the row's
    status goes from confirmed to cancelled; on that edge a row of [events]
    is either left as it was or, when it is the booking's event, gets the
    booking's (old) [seats_booked] added to [available_seats].  So, the
    stored [seats_booked] being positive, no update of a booking lowers the
    [available_seats] of any event.  The decrement belongs to INSERT alone:
    an inserted row is a confirmed one, and the insert leaves each row of
    [events] as it was or takes the new row's [seats_booked] from the
    [available_seats] of the booking's event. *)
Theorem booking_update_moves_seats_only_on_cancel_edge
    (uid : auth) (bid : uuid) (p : booking_patch) (d d' : db) (n : nat) :
  bookings_checked d ->
  update_booking uid bid p d = Ok (d', n) ->
  (events d' = events d
   \/ exists OLD,
        find_booking bid (bookings d) = Some OLD
        /\ Booking.booking_status OLD = confirmed
        /\ Booking.booking_status (apply_patch p OLD) = cancelled
        /\ Forall2 (seats_moved (fun a => a + Booking.seats_booked OLD)
                                (Booking.event_id OLD))
                   (events d) (events d'))
  /\ Forall2 (fun ev ev' => Event.id ev' = Event.id ev
                            /\ Event.total_seats ev' = Event.total_seats ev
                            /\ Event.available_seats ev <= Event.available_seats ev')
             (events d) (events d')
  /\ (forall NEW d1,
         insert_booking uid NEW d = Ok d1 ->
         Booking.booking_status NEW = confirmed
         /\ (events d1 = events d
             \/ Forall2 (seats_moved (fun a => a - Booking.seats_booked NEW)
                                     (Booking.event_id NEW))
                        (events d) (events d1))).
Proof.
  intros Hck H.
  assert (Hshape :
            events d' = events d
            \/ exists OLD,
                 find_booking bid (bookings d) = Some OLD
                 /\ Booking.booking_status OLD = confirmed
                 /\ Booking.booking_status (apply_patch p OLD) = cancelled
                 /\ Forall2 (seats_moved (fun a => a + Booking.seats_booked OLD)
                                         (Booking.event_id OLD))
                            (events d) (events d')).
  { apply update_booking_Ok in H.
    destruct H as [(-> & _) | (OLD & F & _ & _ & _ & _ & _ & Htr)]; [now left |].
    apply restore_seats_on_cancel_Ok in Htr. simpl in Htr.
    destruct Htr as (_ & _ & [He | (So & Sn & Hm)]); [now left |].
    right. exists OLD. auto. }
  split; [exact Hshape |]. split.
  - destruct Hshape as [-> | (OLD & F & _ & _ & Hm)].
    + induction (events d) as [|ev rest IH]; constructor; [| exact IH].
      repeat split; lia.
    + assert (Hpos : 0 < Booking.seats_booked OLD)
        by (apply Hck; exact (find_booking_In _ _ _ F)).
      induction Hm as [|ev ev' rest rest' Hm _ IH]; constructor; [| exact IH].
      unfold seats_moved in Hm.
      destruct (uuid_eqb (Event.id ev) (Booking.event_id OLD)); subst ev'; simpl;
        repeat split; lia.
  - intros NEW d1 I. unfold insert_booking in I.
    apply bind_Ok in I. destruct I as [? [_ I]].
    apply bind_Ok in I. destruct I as [? [Hpol I]]. apply guard_Ok in Hpol.
    do 5 (apply bind_Ok in I; destruct I as [? [_ I]]).
    unfold users_can_create_their_own_bookings in Hpol.
    apply andb_prop in Hpol. destruct Hpol as [_ Hst]. apply status_eqb_true in Hst.
    split; [exact Hst |].
    unfold update_seats_on_booking in I. rewrite Hst in I.
    destruct (update_events_seats_any _ _ _ _ _ I) as (_ & _ & Hev).
    exact Hev.
Qed.

Lemma sample_bookings_checked : bookings_checked Sample.rebalanced.
Proof. intros b [<- | []]. simpl. lia. Qed.

Lemma booking_update_moves_seats_only_on_cancel_edge_witness :
  Forall2 (fun ev ev' => Event.id ev' = Event.id ev
                         /\ Event.total_seats ev' = Event.total_seats ev
                         /\ Event.available_seats ev <= Event.available_seats ev')
          (events Sample.rebalanced)
          (events (run (Cancel (Some "ada"%string) true "b1"%string) Sample.rebalanced)).
Proof.
  apply (booking_update_moves_seats_only_on_cancel_edge
           (Some "ada"%string) "b1"%string cancel_patch Sample.rebalanced
           (run (Cancel (Some "ada"%string) true "b1"%string) Sample.rebalanced) 1%nat
           sample_bookings_checked eq_refl).
Defined.

(** ** Cancelling *)

(** A cancel that has gone through leaves the booking cancelled, the other
    rows of [bookings] and the profiles as they were. *)
Lemma cancel_Ok_touched (uid : auth) (bid : uuid) (d d' : db) (OLD : Booking.t) :
  find_booking bid (bookings d) = Some OLD ->
  users_can_update_their_own_bookings uid OLD = true ->
  update_booking uid bid cancel_patch d = Ok (d', 1%nat) ->
  user_profiles d' = user_profiles d
  /\ bookings d' = replace_booking bid (Booking.with_status cancelled OLD) (bookings d).
Proof.
  intros F P H. apply update_booking_Ok in H.
  destruct H as [(_ & Hn & _) | (OLD' & F' & _ & _ & _ & _ & _ & Htr)]; [discriminate |].
  rewrite F in F'. injection F' as <-.
  apply restore_seats_on_cancel_Ok in Htr. simpl in Htr.
  destruct Htr as (Hp & Hb & _). now split.
Qed.


(** ** C5 *)


(** The seat statement goes through when every value it computes fits the
    column and keeps the row within its CHECK constraints. *)
Lemma set_available_seats_total (f : Z -> Z) (eid : uuid) (evs : list Event.t) :
  (forall ev, In ev evs ->
     in_int4 (f (Event.available_seats ev)) = true
     /\ 0 <= f (Event.available_seats ev)
     /\ 0 < Event.total_seats ev) ->
  exists evs', set_available_seats f eid evs = Ok evs'.
Proof.
  induction evs as [|ev rest IH]; intro H; simpl; [now exists [] |].
  destruct IH as [rest' Hrest]; [intros x Hx; apply H; now right |].
  rewrite Hrest. simpl.
  destruct (uuid_eqb (Event.id ev) eid); [| eauto].
  destruct (H ev (or_introl eq_refl)) as (Hrange & Hav & Htot).
  rewrite Hrange. unfold check_event. simpl.
  rewrite (proj2 (Z.leb_le _ _) Hav), (proj2 (Z.ltb_lt _ _) Htot). simpl. eauto.
Qed.

(** The owner's cancel goes through unless the user already has a cancelled
    booking of the same event (the unique index) or the seats given back do
    not fit the column. *)
Lemma owner_cancel_goes_through (d : db) (bid : uuid) (b : Booking.t) :
  find_booking bid (bookings d) = Some b ->
  key_taken (Booking.with_status cancelled b) (bookings d) = false ->
  in_int4 (Booking.seats_booked b) = true ->
  0 < Booking.seats_booked b ->
  (forall ev, In ev (events d) ->
     0 <= Event.available_seats ev /\ 0 < Event.total_seats ev
     /\ Event.available_seats ev + Booking.seats_booked b <= int4_max) ->
  exists d', update_booking (Some (Booking.user_id b)) bid cancel_patch d = Ok (d', 1%nat).
Proof.
  intros F Hkey Hrange Hpos Hev.
  unfold update_booking. rewrite F.
  unfold users_can_update_their_own_bookings. simpl.
  rewrite !uuid_eqb_refl, Hrange. simpl.
  unfold check_booking. simpl. rewrite (proj2 (Z.ltb_lt _ _) Hpos). simpl.
  change (apply_patch cancel_patch b) with (Booking.with_status cancelled b).
  rewrite Hkey, orb_true_r. simpl.
  unfold restore_seats_on_cancel. simpl.
  destruct (Booking.booking_status b); [| simpl; eauto].
  unfold update_events_seats. simpl.
  match goal with |- context [if ?c then _ else _] => destruct c end;
    [| simpl; eauto].
  destruct (set_available_seats_total
              (fun a => a + Booking.seats_booked b) (Booking.event_id b) (events d))
    as [evs' Hs].
  { intros ev Hin. destruct (Hev ev Hin) as (Hav & Htot & Hmax).
    repeat split; try lia.
    unfold in_int4, int4_min. apply andb_true_intro. split.
    - apply Z.leb_le. lia.
    - now apply Z.leb_le. }
  rewrite Hs. simpl. eauto.
Qed.

(** ** C8 *)

(** C8, as amended.  A Cancel by anyone who is not the booking's owner, an
    admin included, changes nothing and is not reported as an error: the
    update matches no row.  The owner's Cancel, when the store accepts it,
    leaves the booking cancelled; and the store accepts it unless the owner
    already has a cancelled booking of the same event (the unique index on
    user, event and status) or the seats given back do not fit the integer
    column. *)
Theorem cancel_is_the_owners_alone (d : db) (user : auth) (bookingId : uuid)
    (b : Booking.t) :
  find_booking bookingId (bookings d) = Some b ->
  (user <> Some (Booking.user_id b) ->
   handleCancelBooking user true bookingId d = (d, CancelDone))
  /\ (user = Some (Booking.user_id b) ->
      forall d',
        handleCancelBooking user true bookingId d = (d', CancelDone) ->
        find_booking bookingId (bookings d')
        = Some (Booking.with_status cancelled b))
  /\ (user = Some (Booking.user_id b) ->
      key_taken (Booking.with_status cancelled b) (bookings d) = false ->
      in_int4 (Booking.seats_booked b) = true ->
      0 < Booking.seats_booked b ->
      (forall ev, In ev (events d) ->
         0 <= Event.available_seats ev /\ 0 < Event.total_seats ev
         /\ Event.available_seats ev + Booking.seats_booked b <= int4_max) ->
      snd (handleCancelBooking user true bookingId d) = CancelDone).
Proof.
  intro F. split; [| split].
  - intro Hne. unfold handleCancelBooking, update_booking.
    rewrite F. unfold users_can_update_their_own_bookings.
    now rewrite (is_uid_false _ _ Hne).
  - intros -> d' H. unfold handleCancelBooking in H.
    destruct (update_booking _ _ _ d) as [[d1 n]|e] eqn:U; [| discriminate].
    injection H as <-.
    assert (P : users_can_update_their_own_bookings (Some (Booking.user_id b)) b = true)
      by (unfold users_can_update_their_own_bookings; simpl; apply uuid_eqb_refl).
    pose proof (update_booking_Ok _ _ _ _ _ _ U) as Hinv.
    destruct Hinv as [(_ & _ & Hno) | (OLD & F' & _ & _ & _ & _ & -> & _)].
    + rewrite F in Hno. congruence.
    + destruct (cancel_Ok_touched _ _ _ _ _ F P U) as [_ Hb].
      rewrite Hb. apply (find_replace_same _ _ _ _ F).
      exact (find_booking_id _ _ _ F).
  - intros -> Hkey Hrange Hpos Hev. unfold handleCancelBooking.
    destruct (owner_cancel_goes_through d bookingId b F Hkey Hrange Hpos Hev) as [d' U].
    now rewrite U.
Qed.

Lemma cancel_is_the_owners_alone_witness :
  handleCancelBooking (Some "bob"%string) true "b1"%string Sample.alice_booked
  = (Sample.alice_booked, CancelDone)
  /\ find_booking "b1"%string
       (bookings (run (Cancel (Some "alice"%string) true "b1"%string) Sample.alice_booked))
     = Some (Booking.mk "b1"%string "alice"%string "e1"%string 2 cancelled)
  /\ snd (handleCancelBooking (Some "alice"%string) true "b1"%string Sample.alice_booked)
     = CancelDone.
Proof.
  destruct (cancel_is_the_owners_alone
              Sample.alice_booked (Some "bob"%string) "b1"%string
              (Booking.mk "b1"%string "alice"%string "e1"%string 2 confirmed) eq_refl)
    as (Hother & _ & _).
  destruct (cancel_is_the_owners_alone
              Sample.alice_booked (Some "alice"%string) "b1"%string
              (Booking.mk "b1"%string "alice"%string "e1"%string 2 confirmed) eq_refl)
    as (_ & Howner & Hgoes).
  split; [| split].
  - apply Hother. discriminate.
  - apply (Howner eq_refl). reflexivity.
  - apply (Hgoes eq_refl); [reflexivity | reflexivity | simpl; lia |].
    intros ev [<- | []]. simpl. unfold int4_max. lia.
Defined.

(** C8 as stated fails twice over: admin [ruth], who does not own [b1],
    cannot cancel it, and her call, like the call of user [bob], who is
    neither owner nor admin, is reported as done, not as forbidden. *)
Lemma admin_cancel_is_a_silent_no_op :
  admin_exists Sample.alice_booked (Some "ruth"%string) = true
  /\ admin_exists Sample.alice_booked (Some "bob"%string) = false
  /\ Sample.status_of "b1"%string Sample.alice_booked = Some confirmed
  /\ handleCancelBooking (Some "ruth"%string) true "b1"%string Sample.alice_booked
     = (Sample.alice_booked, CancelDone)
  /\ handleCancelBooking (Some "bob"%string) true "b1"%string Sample.alice_booked
     = (Sample.alice_booked, CancelDone).
Proof. repeat split. Qed.

(** ** What an INSERT into [bookings] that goes through has done *)

Lemma insert_booking_Ok (uid : auth) (NEW : Booking.t) (d d' : db) :
  insert_booking uid NEW d = Ok d' ->
  Booking.booking_status NEW = confirmed
  /\ is_uid uid (Booking.user_id NEW) = true
  /\ 0 < Booking.seats_booked NEW
  /\ booking_exists (Booking.id NEW) (bookings d) = false
  /\ key_taken NEW (bookings d) = false
  /\ user_profiles d' = user_profiles d
  /\ bookings d' = bookings d ++ [NEW].
Proof.
  unfold insert_booking. intro H.
  apply bind_Ok in H. destruct H as [? [_ H]].
  apply bind_Ok in H. destruct H as [? [Hpol H]]. apply guard_Ok in Hpol.
  apply bind_Ok in H. destruct H as [? [Hck H]]. apply guard_Ok in Hck.
  apply bind_Ok in H. destruct H as [? [Hpk H]]. apply guard_Ok in Hpk.
  apply bind_Ok in H. destruct H as [? [Hkey H]]. apply guard_Ok in Hkey.
  do 2 (apply bind_Ok in H; destruct H as [? [_ H]]).
  unfold users_can_create_their_own_bookings in Hpol.
  apply andb_prop in Hpol. destruct Hpol as [Hu Hst]. apply status_eqb_true in Hst.
  apply Z.ltb_lt in Hck.
  apply negb_true_iff in Hpk, Hkey.
  unfold update_seats_on_booking in H. rewrite Hst in H.
  destruct (update_events_seats_any _ _ _ _ _ H) as (Hp & Hb & _).
  simpl in Hp, Hb. auto 10.
Qed.

Lemma find_booking_app (bid : uuid) (bs cs : list Booking.t) :
  find_booking bid (bs ++ cs)
  = match find_booking bid bs with
    | Some b => Some b
    | None => find_booking bid cs
    end.
Proof.
  unfold find_booking. induction bs as [|b rest IH]; simpl; [reflexivity |].
  now destruct (uuid_eqb (Booking.id b) bid).
Qed.

Lemma find_booking_NoDup (bid : uuid) (bs : list Booking.t) (b : Booking.t) :
  NoDup (map Booking.id bs) ->
  In b bs -> uuid_eqb (Booking.id b) bid = true ->
  find_booking bid bs = Some b.
Proof.
  unfold find_booking. intros Hnd Hin Hid.
  induction bs as [|c rest IH]; simpl in *; [contradiction |].
  inversion Hnd as [|x xs Hnotin Hnd']; subst.
  destruct Hin as [-> | Hin].
  - now rewrite Hid.
  - destruct (uuid_eqb (Booking.id c) bid) eqn:E; [| now apply IH].
    exfalso. apply Hnotin.
    apply uuid_eqb_true in E, Hid. rewrite E, <- Hid.
    now apply in_map.
Qed.

Lemma update_event_bookings (uid : auth) (eid : uuid) (f : FormData.t)
    (d d' : db) (n : nat) :
  update_event uid eid f d = Ok (d', n) -> bookings d' = bookings d.
Proof.
  unfold update_event. intro H.
  apply bind_Ok in H; destruct H as [? [_ H]].
  destruct (admin_exists d uid); [| now injection H as <- _].
  apply bind_Ok in H. destruct H as [r [_ H]]. now injection H as <- _.
Qed.

Lemma insert_event_bookings (uid : auth) (NEW : Event.t) (d d' : db) :
  insert_event uid NEW d = Ok d' -> bookings d' = bookings d.
Proof.
  unfold insert_event. intro H.
  do 5 (apply bind_Ok in H; destruct H as [? [_ H]]).
  now injection H as <-.
Qed.

(** ** C6 *)

(** C6 as stated fails.  The policy "Users can update their own bookings"
    tests the owner of the row before and after the update and no status:
    the store takes the owner's UPDATE that sets [booking_status] of a
    cancelled booking to confirmed.  The cancel trigger sees no confirmed to
    cancelled edge and leaves [events] alone. *)
Lemma owner_update_confirms_cancelled_booking :
  let d := run (Cancel (Some "alice"%string) true "b1"%string) Sample.alice_booked in
  let again := update_booking (Some "alice"%string) "b1"%string
                              (mkPatch None None None (Some confirmed)) d in
  Sample.status_of "b1"%string d = Some cancelled
  /\ exists d',
       again = Ok (d', 1%nat)
       /\ Sample.status_of "b1"%string d' = Some confirmed
       /\ events d' = events d.
Proof. cbv zeta. split; [reflexivity |]. eexists. repeat split. Qed.

(** Under every action of the pages, a booking that appears in the table
    appears as confirmed, and a booking that was there is afterwards gone
    (with its event), as it was, or as it was with its status set to
    cancelled: a cancelled booking stays cancelled. *)
Lemma page_action_keeps_status_one_way (a : action) (d : db) (bid : uuid)
    (b' : Booking.t) :
  bookings_pkey_holds d ->
  find_booking bid (bookings (run a d)) = Some b' ->
  match find_booking bid (bookings d) with
  | Some b =>
      (b' = b \/ b' = Booking.with_status cancelled b)
      /\ (Booking.booking_status b = cancelled -> Booking.booking_status b' = cancelled)
  | None => Booking.booking_status b' = confirmed
  end.
Proof.
  intros Hpk H.
  assert (Hsame : bookings (run a d) = bookings d ->
                  match find_booking bid (bookings d) with
                  | Some b =>
                      (b' = b \/ b' = Booking.with_status cancelled b)
                      /\ (Booking.booking_status b = cancelled ->
                          Booking.booking_status b' = cancelled)
                  | None => Booking.booking_status b' = confirmed
                  end).
  { intro E. rewrite E in H. rewrite H. auto. }
  destruct a as [user event seats new_id | user confirm bid0
                | user editing f new_id | user confirm eid]; simpl in *.
  - unfold handleBooking in *.
    destruct user as [u|]; [| now apply Hsame].
    destruct event as [ev|]; [| now apply Hsame].
    destruct (Event.available_seats ev <? seats); [now apply Hsame |].
    destruct (insert_booking _ _ d) as [d'|e] eqn:I; [| now apply Hsame].
    simpl in *. clear Hsame.
    destruct (insert_booking_Ok _ _ _ _ I) as (Hst & _ & _ & _ & _ & _ & Hb).
    rewrite Hb, find_booking_app in H.
    destruct (find_booking bid (bookings d)) as [b|].
    + injection H as <-. auto.
    + unfold find_booking in H. simpl in H.
      destruct (uuid_eqb new_id bid); [| discriminate].
      now injection H as <-.
  - unfold handleCancelBooking in *.
    destruct confirm; [| now apply Hsame].
    destruct (update_booking _ _ _ d) as [[d' n]|e] eqn:U; [| now apply Hsame].
    simpl in *.
    pose proof (update_booking_Ok _ _ _ _ _ _ U) as Hinv.
    destruct Hinv as [(-> & _) | (OLD & F & P & _ & _ & _ & -> & _)];
      [now apply Hsame |].
    clear Hsame.
    destruct (cancel_Ok_touched _ _ _ _ _ F P U) as [_ Hb]. rewrite Hb in H.
    pose proof (find_booking_id _ _ _ F) as Hid.
    destruct (uuid_eqb bid0 bid) eqn:E.
    + apply uuid_eqb_true in E. subst bid0.
      rewrite (find_replace_same _ _ _ (Booking.with_status cancelled OLD) F Hid) in H.
      injection H as <-.
      rewrite F. split; [now right | reflexivity].
    + rewrite (find_replace_other _ _ _ (Booking.with_status cancelled OLD) Hid E) in H.
      rewrite H. auto.
  - unfold handleSubmit in *.
    destruct editing as [ev|].
    + destruct (update_event _ _ _ d) as [[d' n]|e] eqn:U; [| now apply Hsame].
      apply Hsame. exact (update_event_bookings _ _ _ _ _ _ U).
    + destruct user as [u|]; [| now apply Hsame].
      destruct (insert_event _ _ d) as [d'|e] eqn:I; [| now apply Hsame].
      apply Hsame. exact (insert_event_bookings _ _ _ _ I).
  - unfold handleDelete, delete_event in *.
    destruct confirm; [| now apply Hsame].
    destruct (admin_exists d user && event_exists eid (events d));
      [| now apply Hsame].
    simpl in *. clear Hsame.
    pose proof (find_booking_In _ _ _ H) as Hin. apply filter_In in Hin.
    rewrite (find_booking_NoDup _ _ _ Hpk (proj1 Hin) (find_booking_id _ _ _ H)).
    auto.
Qed.

Lemma sample_bookings_pkey : bookings_pkey_holds Sample.alice_booked.
Proof. constructor; [intros [] | constructor]. Qed.

(** ** The unique index of [bookings] *)

Lemma booking_exists_In (bid : uuid) (bs : list Booking.t) (b : Booking.t) :
  In b bs -> uuid_eqb (Booking.id b) bid = true -> booking_exists bid bs = true.
Proof.
  intros Hin Hid. unfold booking_exists. apply existsb_exists. now exists b.
Qed.

Lemma key_taken_In (NEW b : Booking.t) (bs : list Booking.t) :
  In b bs ->
  uuid_eqb (Booking.id b) (Booking.id NEW) = false ->
  same_key NEW b = true ->
  key_taken NEW bs = true.
Proof.
  intros Hin Hid Hkey. unfold key_taken. apply existsb_exists. exists b.
  split; [exact Hin |]. now rewrite Hid, Hkey.
Qed.

(** A second confirmed row for the same user and event never gets past the
    indexes, so the insert trigger is not reached. *)
Lemma insert_duplicate_rejected (uid : auth) (NEW b : Booking.t) (d : db) :
  In b (bookings d) ->
  same_key NEW b = true ->
  exists e, insert_booking uid NEW d = Err e
            /\ (in_int4 (Booking.seats_booked NEW) = true ->
                users_can_create_their_own_bookings uid NEW = true ->
                0 < Booking.seats_booked NEW ->
                booking_exists (Booking.id NEW) (bookings d) = false ->
                e = unique_violation bookings_user_id_event_id_booking_status_key).
Proof.
  intros Hin Hkey. unfold insert_booking.
  destruct (in_int4 (Booking.seats_booked NEW)); simpl;
    [| eexists; split; [reflexivity | discriminate]].
  destruct (users_can_create_their_own_bookings uid NEW); simpl;
    [| eexists; split; [reflexivity | discriminate]].
  unfold check_booking.
  destruct (0 <? Booking.seats_booked NEW) eqn:Hpos; simpl;
    [| eexists; split; [reflexivity |];
       intros _ _ Hlt; apply Z.ltb_ge in Hpos; lia].
  destruct (booking_exists (Booking.id NEW) (bookings d)) eqn:Hpk; simpl;
    [eexists; split; [reflexivity | discriminate] |].
  assert (Hid : uuid_eqb (Booking.id b) (Booking.id NEW) = false).
  { destruct (uuid_eqb (Booking.id b) (Booking.id NEW)) eqn:E; [| reflexivity].
    rewrite (booking_exists_In _ _ _ Hin E) in Hpk. discriminate. }
  rewrite (key_taken_In _ _ _ Hin Hid Hkey). simpl.
  eexists; split; reflexivity.
Qed.

(** ** C7 *)

(** C7.  While a user holds a confirmed booking of an event, a Reserve by
    that user for the same event fails and leaves the database, the seat
    counts included, as it was: the row is stopped at the unique index,
    before the seat trigger.  For a request that is in order otherwise (a
    positive number of seats, no more than the page shows as available) the
    failure is the violation of [UNIQUE(user_id, event_id, booking_status)];
    a request that is out of order in itself is turned down for that. *)
Theorem second_reserve_is_turned_down (d : db) (u : uuid) (ev : Event.t)
    (b : Booking.t) (seatsToBook : Z) (new_id : uuid) :
  In b (bookings d) ->
  Booking.user_id b = u ->
  Booking.event_id b = Event.id ev ->
  Booking.booking_status b = confirmed ->
  fst (handleBooking (Some u) (Some ev) seatsToBook new_id d) = d
  /\ snd (handleBooking (Some u) (Some ev) seatsToBook new_id d) <> Some BookingConfirmed
  /\ (0 < seatsToBook <= Event.available_seats ev ->
      in_int4 seatsToBook = true ->
      booking_exists new_id (bookings d) = false ->
      snd (handleBooking (Some u) (Some ev) seatsToBook new_id d)
      = Some (BookingError
                (unique_violation bookings_user_id_event_id_booking_status_key))).
Proof.
  intros Hin Hu He Hs.
  set (NEW := Booking.mk new_id u (Event.id ev) seatsToBook confirmed).
  assert (Hkey : same_key NEW b = true).
  { unfold same_key, NEW. simpl.
    now rewrite Hu, He, Hs, !uuid_eqb_refl. }
  destruct (insert_duplicate_rejected (Some u) NEW b d Hin Hkey) as [e [I Hwhich]].
  unfold handleBooking. fold NEW. rewrite I.
  destruct (Event.available_seats ev <? seatsToBook) eqn:L; simpl.
  - split; [reflexivity |]. split; [discriminate |].
    intros [_ Hle]. apply Z.ltb_lt in L. lia.
  - split; [reflexivity |]. split; [discriminate |].
    intros [Hpos _] Hrange Hfresh.
    rewrite Hwhich; auto.
    unfold users_can_create_their_own_bookings, NEW. simpl.
    now rewrite uuid_eqb_refl.
Qed.

Lemma second_reserve_is_turned_down_witness :
  fst (handleBooking (Some "alice"%string) (Sample.shown Sample.alice_booked) 1
                     "b2"%string Sample.alice_booked)
  = Sample.alice_booked
  /\ snd (handleBooking (Some "alice"%string) (Sample.shown Sample.alice_booked) 1
                        "b2"%string Sample.alice_booked)
     = Some (BookingError
               (unique_violation bookings_user_id_event_id_booking_status_key)).
Proof.
  destruct (Sample.shown Sample.alice_booked) as [ev|] eqn:S; [| discriminate].
  injection S as <-.
  destruct (second_reserve_is_turned_down
              Sample.alice_booked "alice"%string
              (Event.mk "e1"%string "Tech Conference 2025"%string
                        "Keynotes and workshops"%string "2025-03-15T09:00"%string
                        "Convention Center, Downtown"%string 5 5 EmptyString 4999
                        (Some "ada"%string))
              (Booking.mk "b1"%string "alice"%string "e1"%string 2 confirmed)
              1 "b2"%string
              (or_introl eq_refl) eq_refl eq_refl eq_refl)
    as (Hdb & _ & Hmsg).
  split; [exact Hdb |].
  apply Hmsg; [simpl; lia | reflexivity | reflexivity].
Defined.

(** ** C9 *)

(** C9.  A Reserve of zero or fewer seats changes nothing and is never
    confirmed; for a signed-in user looking at an event it fails with the
    store's error for the quantity: the violation of [CHECK (seats_booked >
    0)], or, for a number that does not fit the column, the range error. *)
Theorem reserve_without_seats_is_rejected (d : db) (seatsToBook : Z) :
  seatsToBook <= 0 ->
  (forall user event new_id,
      fst (handleBooking user event seatsToBook new_id d) = d
      /\ snd (handleBooking user event seatsToBook new_id d) <> Some BookingConfirmed)
  /\ (forall u ev new_id,
         0 <= Event.available_seats ev ->
         handleBooking (Some u) (Some ev) seatsToBook new_id d
         = (d, Some (BookingError
                       (if in_int4 seatsToBook
                        then check_violation bookings_seats_booked_check
                        else numeric_value_out_of_range)))).
Proof.
  intro Hle.
  assert (I : forall u eid new_id,
             insert_booking (Some u) (Booking.mk new_id u eid seatsToBook confirmed) d
             = Err (if in_int4 seatsToBook
                    then check_violation bookings_seats_booked_check
                    else numeric_value_out_of_range)).
  { intros u eid new_id. unfold insert_booking. simpl.
    destruct (in_int4 seatsToBook); simpl; [| reflexivity].
    unfold users_can_create_their_own_bookings, check_booking. simpl.
    rewrite uuid_eqb_refl. simpl.
    now rewrite (proj2 (Z.ltb_ge _ _) Hle). }
  split.
  - intros user event new_id. unfold handleBooking.
    destruct user as [u|]; [| split; [reflexivity | discriminate]].
    destruct event as [ev|]; [| split; [reflexivity | discriminate]].
    destruct (Event.available_seats ev <? seatsToBook);
      [split; [reflexivity | discriminate] |].
    rewrite I. split; [reflexivity | discriminate].
  - intros u ev new_id Hav. unfold handleBooking.
    rewrite (proj2 (Z.ltb_ge _ _)) by lia.
    now rewrite I.
Qed.

Lemma reserve_without_seats_is_rejected_witness :
  handleBooking (Some "alice"%string) (Sample.shown (Sample.with_event 5 5)) 0
                "b1"%string (Sample.with_event 5 5)
  = (Sample.with_event 5 5,
     Some (BookingError (check_violation bookings_seats_booked_check))).
Proof.
  destruct (Sample.shown (Sample.with_event 5 5)) as [ev|] eqn:S; [| discriminate].
  injection S as <-.
  apply (proj2 (reserve_without_seats_is_rejected (Sample.with_event 5 5) 0 (Z.le_refl 0))).
  simpl. lia.
Defined.

(** ** Reserving: what the store guards, and for whom *)

(** A Reserve that is not confirmed has changed nothing. *)
Lemma failed_reserve_changes_nothing (user : auth) (event : option Event.t)
    (seatsToBook : Z) (new_id : uuid) (d : db) :
  snd (handleBooking user event seatsToBook new_id d) <> Some BookingConfirmed ->
  fst (handleBooking user event seatsToBook new_id d) = d.
Proof.
  unfold handleBooking.
  destruct user as [u|]; [| reflexivity].
  destruct event as [ev|]; [| reflexivity].
  destruct (Event.available_seats ev <? seatsToBook); [reflexivity |].
  destruct (insert_booking _ _ d); simpl; [| reflexivity].
  intro H. now contradiction H.
Qed.

(** Where the seat statement is let through to the row, taking more seats
    than the row has left breaks [CHECK (available_seats >= 0)]. *)
Lemma overdraw_rejected (k : Z) (eid : uuid) (evs : list Event.t) (ev : Event.t) :
  find_event eid evs = Some ev ->
  in_int4 (Event.available_seats ev - k) = true ->
  Event.available_seats ev < k ->
  set_available_seats (fun a => a - k) eid evs
  = Err (check_violation events_available_seats_check).
Proof.
  unfold find_event. intros F Hrange Hlt.
  induction evs as [|x rest IH]; simpl in *; [discriminate |].
  destruct (uuid_eqb (Event.id x) eid).
  - injection F as ->. rewrite Hrange. simpl.
    unfold check_event. simpl.
    now rewrite (proj2 (Z.leb_gt _ _)) by lia.
  - now rewrite (IH F).
Qed.

(** In the session of a user who is not an admin, a Reserve and a Cancel
    leave the table [events] as it is, whatever they do to [bookings]. *)
Lemma non_admin_leaves_events (user : auth) (d : db) :
  admin_exists d user = false ->
  (forall event seatsToBook new_id,
      events (run (Book user event seatsToBook new_id) d) = events d)
  /\ (forall confirm bookingId,
         events (run (Cancel user confirm bookingId) d) = events d).
Proof.
  intro A.
  assert (Hseat : forall f eid d1 d2,
             user_profiles d1 = user_profiles d ->
             update_events_seats user f eid d1 = Ok d2 -> d2 = d1).
  { intros f eid d1 d2 Hp H. unfold update_events_seats, admin_exists in H.
    rewrite Hp in H. fold (admin_exists d user) in H. rewrite A in H.
    now injection H as <-. }
  split.
  - intros event seatsToBook new_id. simpl. unfold handleBooking.
    destruct user as [u|]; [| reflexivity].
    destruct event as [ev|]; [| reflexivity].
    destruct (Event.available_seats ev <? seatsToBook); [reflexivity |].
    destruct (insert_booking _ _ d) as [d'|e] eqn:I; [| reflexivity].
    simpl. unfold insert_booking in I.
    do 7 (apply bind_Ok in I; destruct I as [? [_ I]]).
    unfold update_seats_on_booking in I. simpl in I.
    apply Hseat in I; [now subst d' | reflexivity].
  - intros confirm bookingId. simpl. unfold handleCancelBooking.
    destruct confirm; [| reflexivity].
    destruct (update_booking _ _ _ d) as [[d' n]|e] eqn:U; [| reflexivity].
    simpl. apply update_booking_Ok in U.
    destruct U as [(-> & _) | (OLD & _ & _ & _ & _ & _ & _ & Htr)]; [reflexivity |].
    unfold restore_seats_on_cancel in Htr.
    destruct (Booking.booking_status OLD),
             (Booking.booking_status (apply_patch cancel_patch OLD));
      try (now injection Htr as <-).
    apply Hseat in Htr; [now subst d' | reflexivity].
Qed.

(** Between two admins the last seat goes to the one whose INSERT comes
    first; the other is stopped by [CHECK (available_seats >= 0)]. *)
Lemma last_seat_between_admins :
  let d := Sample.with_event 1 1 in
  let ada := mkRequest (Some "ada"%string) (Sample.shown d) 1 "b1"%string in
  let ruth := mkRequest (Some "ruth"%string) (Sample.shown d) 1 "b2"%string in
  (let '(d', to_ada, to_ruth) := race first_wins ada ruth d in
   to_ada = Some BookingConfirmed
   /\ to_ruth = Some (BookingError (check_violation events_available_seats_check))
   /\ Sample.free d' = Some 0)
  /\ (let '(d', to_ada, to_ruth) := race second_wins ada ruth d in
      to_ada = Some (BookingError (check_violation events_available_seats_check))
      /\ to_ruth = Some BookingConfirmed
      /\ Sample.free d' = Some 0).
Proof. cbv zeta. repeat split. Qed.

(** ** C2 *)

(** C2, on the code.  Event [e1] has one seat left and two users who are
    not admins, each with the page showing that seat, reserve it.  In both
    orders of the two INSERTs both calls are confirmed, and the event still
    has its one seat available, with two seats held: the trigger's [UPDATE
    events] is filtered by "Admins can update events" and touches no row. *)
Lemma last_seat_booked_twice :
  let d := Sample.with_event 1 1 in
  let alice := mkRequest (Some "alice"%string) (Sample.shown d) 1 "b1"%string in
  let bob := mkRequest (Some "bob"%string) (Sample.shown d) 1 "b2"%string in
  Sample.free d = Some 1
  /\ admin_exists d (Some "alice"%string) = false
  /\ admin_exists d (Some "bob"%string) = false
  /\ forall o : order,
       let '(d', to_alice, to_bob) := race o alice bob d in
       to_alice = Some BookingConfirmed
       /\ to_bob = Some BookingConfirmed
       /\ Sample.free d' = Some 1
       /\ seats_held "e1"%string (bookings d') = 2.
Proof.
  cbv zeta. do 3 (split; [reflexivity |]).
  intros [|]; vm_compute; repeat split.
Qed.

(** ** C3 *)

(** C3, on the code.  User [alice], who is not an admin, reserves 2 of the
    5 seats of [e1]: the booking row is there, confirmed, and the event
    still has 5 seats available. *)
Lemma booking_without_seat_decrement :
  let d := Sample.with_event 5 5 in
  let r := handleBooking (Some "alice"%string) (Sample.shown d) 2 "b1"%string d in
  admin_exists d (Some "alice"%string) = false
  /\ Sample.free d = Some 5
  /\ snd r = Some BookingConfirmed
  /\ find_booking "b1"%string (bookings (fst r))
     = Some (Booking.mk "b1"%string "alice"%string "e1"%string 2 confirmed)
  /\ events (fst r) = events d
  /\ Sample.free (fst r) = Some 5.
Proof. cbv zeta. repeat split. Qed.

(** ** The primary key of [bookings] *)

Lemma replace_booking_ids (bid : uuid) (NEW : Booking.t) (bs : list Booking.t) :
  uuid_eqb (Booking.id NEW) bid = true ->
  map Booking.id (replace_booking bid NEW bs) = map Booking.id bs.
Proof.
  intro Hid. induction bs as [|b rest IH]; simpl; [reflexivity |].
  destruct (uuid_eqb (Booking.id b) bid) eqn:E; simpl.
  - apply uuid_eqb_true in Hid, E. congruence.
  - now rewrite IH.
Qed.

Lemma booking_exists_false (bid : uuid) (bs : list Booking.t) :
  booking_exists bid bs = false -> ~ In bid (map Booking.id bs).
Proof.
  intros H Hin. apply in_map_iff in Hin. destruct Hin as [b [<- Hin]].
  rewrite (booking_exists_In _ _ _ Hin (uuid_eqb_refl _)) in H. discriminate.
Qed.

Lemma NoDup_map_filter {A B : Type} (f : A -> B) (g : A -> bool) (l : list A) :
  NoDup (map f l) -> NoDup (map f (filter g l)).
Proof.
  induction l as [|x rest IH]; simpl; intro H; [constructor |].
  inversion H as [|y ys Hnotin Hnd]; subst.
  destruct (g x); simpl; [| now apply IH].
  constructor; [| now apply IH].
  intro Hin. apply Hnotin.
  apply in_map_iff in Hin. destruct Hin as [z [<- Hz]].
  apply filter_In in Hz. now apply in_map.
Qed.

(** The store keeps [id] a key of [bookings] under every action. *)
Lemma bookings_pkey_kept (a : action) (d : db) :
  bookings_pkey_holds d -> bookings_pkey_holds (run a d).
Proof.
  unfold bookings_pkey_holds. intro Hpk.
  destruct a as [user event seats new_id | user confirm bid
                | user editing f new_id | user confirm eid]; simpl.
  - unfold handleBooking.
    destruct user as [u|]; [| exact Hpk].
    destruct event as [ev|]; [| exact Hpk].
    destruct (Event.available_seats ev <? seats); [exact Hpk |].
    destruct (insert_booking _ _ d) as [d'|e] eqn:I; [| exact Hpk].
    destruct (insert_booking_Ok _ _ _ _ I) as (_ & _ & _ & Hfresh & _ & _ & Hb).
    simpl. rewrite Hb, map_app. simpl.
    apply NoDup_app; [exact Hpk | constructor; [intros [] | constructor] |].
    intros x Hx [<- | []]. exact (booking_exists_false _ _ Hfresh Hx).
  - unfold handleCancelBooking.
    destruct confirm; [| exact Hpk].
    destruct (update_booking _ _ _ d) as [[d' n]|e] eqn:U; [| exact Hpk].
    simpl. pose proof (update_booking_Ok _ _ _ _ _ _ U) as Hinv.
    destruct Hinv as [(-> & _) | (OLD & F & P & _ & _ & _ & -> & _)]; [exact Hpk |].
    destruct (cancel_Ok_touched _ _ _ _ _ F P U) as [_ Hb].
    rewrite Hb, replace_booking_ids; [exact Hpk | exact (find_booking_id _ _ _ F)].
  - unfold handleSubmit.
    destruct editing as [ev|].
    + destruct (update_event _ _ _ d) as [[d' n]|e] eqn:U; [| exact Hpk].
      simpl. now rewrite (update_event_bookings _ _ _ _ _ _ U).
    + destruct user as [u|]; [| exact Hpk].
      destruct (insert_event _ _ d) as [d'|e] eqn:I; [| exact Hpk].
      simpl. now rewrite (insert_event_bookings _ _ _ _ I).
  - unfold handleDelete, delete_event.
    destruct confirm; [| exact Hpk].
    destruct (admin_exists d user && event_exists eid (events d)); [| exact Hpk].
    simpl. now apply NoDup_map_filter.
Qed.

(** The store keeps [seats_booked > 0] true of every booking under every
    action. *)
Lemma bookings_checked_kept (a : action) (d : db) :
  bookings_checked d -> bookings_checked (run a d).
Proof.
  unfold bookings_checked. intro Hck.
  destruct a as [user event seatsToBook new_id | user confirm bid
                | user editing f new_id | user confirm eid]; simpl.
  - unfold handleBooking.
    destruct user as [u|]; [| exact Hck].
    destruct event as [ev|]; [| exact Hck].
    destruct (Event.available_seats ev <? seatsToBook); [exact Hck |].
    destruct (insert_booking _ _ d) as [d'|e] eqn:I; [| exact Hck].
    destruct (insert_booking_Ok _ _ _ _ I) as (_ & _ & Hpos & _ & _ & _ & Hb).
    simpl. rewrite Hb. intros b Hin.
    apply in_app_or in Hin. destruct Hin as [Hin | [<- | []]]; [now apply Hck | exact Hpos].
  - unfold handleCancelBooking.
    destruct confirm; [| exact Hck].
    destruct (update_booking _ _ _ d) as [[d' n]|e] eqn:U; [| exact Hck].
    simpl. pose proof (update_booking_Ok _ _ _ _ _ _ U) as Hinv.
    destruct Hinv as [(-> & _) | (OLD & F & P & _ & _ & Hpos & -> & _)]; [exact Hck |].
    destruct (cancel_Ok_touched _ _ _ _ _ F P U) as [_ Hb].
    rewrite Hb. clear - Hck Hpos.
    induction (bookings d) as [|c rest IH]; simpl; [intros b [] |].
    destruct (uuid_eqb (Booking.id c) bid).
    + intros b [<- | Hin]; [exact Hpos | apply Hck; now right].
    + intros b [<- | Hin]; [apply Hck; now left |].
      apply IH; [| exact Hin]. intros x Hx. apply Hck. now right.
  - unfold handleSubmit.
    destruct editing as [ev|].
    + destruct (update_event _ _ _ d) as [[d' n]|e] eqn:U; [| exact Hck].
      simpl. now rewrite (update_event_bookings _ _ _ _ _ _ U).
    + destruct user as [u|]; [| exact Hck].
      destruct (insert_event _ _ d) as [d'|e] eqn:I; [| exact Hck].
      simpl. now rewrite (insert_event_bookings _ _ _ _ I).
  - unfold handleDelete, delete_event.
    destruct confirm; [| exact Hck].
    destruct (admin_exists d user && event_exists eid (events d)); [| exact Hck].
    simpl. intros b Hin. apply filter_In in Hin. now apply Hck.
Qed.

(** * Further properties of the store *)

(** ** What each handler can have done *)

Lemma seats_moved_ids (f : Z -> Z) (eid : uuid) (evs evs' : list Event.t) :
  Forall2 (seats_moved f eid) evs evs' ->
  map Event.id evs' = map Event.id evs.
Proof.
  induction 1 as [|ev ev' rest rest' Hm _ IH]; simpl; [reflexivity |].
  rewrite IH. f_equal. unfold seats_moved in Hm.
  destruct (uuid_eqb (Event.id ev) eid); now subst ev'.
Qed.

Lemma set_event_rows_ids (f : FormData.t) (eid : uuid) (evs : list Event.t)
    (r : list Event.t * nat) :
  set_event_rows f eid evs = Ok r -> map Event.id (fst r) = map Event.id evs.
Proof.
  revert r. induction evs as [|ev rest IH]; intros r H; simpl in H.
  - now injection H as <-.
  - destruct (uuid_eqb (Event.id ev) eid).
    + apply bind_Ok in H. destruct H as [? [_ H]].
      apply bind_Ok in H. destruct H as [r' [Hr H]].
      injection H as <-. simpl. now rewrite (IH _ Hr).
    + apply bind_Ok in H. destruct H as [r' [Hr H]].
      injection H as <-. simpl. now rewrite (IH _ Hr).
Qed.

Lemma event_exists_ids (eid : uuid) (evs : list Event.t) :
  event_exists eid evs = existsb (fun i => uuid_eqb i eid) (map Event.id evs).
Proof.
  unfold event_exists. induction evs as [|ev rest IH]; simpl; [reflexivity |].
  now rewrite IH.
Qed.

Lemma event_exists_same_ids (eid : uuid) (evs evs' : list Event.t) :
  map Event.id evs' = map Event.id evs ->
  event_exists eid evs' = event_exists eid evs.
Proof. intro H. now rewrite !event_exists_ids, H. Qed.

(** A confirmed Reserve is an INSERT that went through; any other outcome
    left the database alone. *)
Lemma handleBooking_cases (user : auth) (event : option Event.t) (seatsToBook : Z)
    (new_id : uuid) (d : db) :
  handleBooking user event seatsToBook new_id d
  = (d, snd (handleBooking user event seatsToBook new_id d))
  \/ exists u ev d',
       user = Some u /\ event = Some ev
       /\ seatsToBook <= Event.available_seats ev
       /\ insert_booking (Some u)
            (Booking.mk new_id u (Event.id ev) seatsToBook confirmed) d = Ok d'
       /\ handleBooking user event seatsToBook new_id d = (d', Some BookingConfirmed).
Proof.
  unfold handleBooking.
  destruct user as [u|]; [| now left].
  destruct event as [ev|]; [| now left].
  destruct (Event.available_seats ev <? seatsToBook) eqn:L; [now left |].
  destruct (insert_booking _ _ d) as [d'|e] eqn:I; [| now left].
  right. exists u, ev, d'. apply Z.ltb_ge in L. auto 10.
Qed.

(** What an INSERT into [bookings] that went through found and left in the
    other two tables. *)
Lemma insert_booking_frame (uid : auth) (NEW : Booking.t) (d d' : db) :
  insert_booking uid NEW d = Ok d' ->
  profile_exists (Booking.user_id NEW) (user_profiles d) = true
  /\ event_exists (Booking.event_id NEW) (events d) = true
  /\ map Event.id (events d') = map Event.id (events d).
Proof.
  unfold insert_booking. intro H.
  do 5 (apply bind_Ok in H; destruct H as [? [_ H]]).
  apply bind_Ok in H. destruct H as [? [Hp H]]. apply guard_Ok in Hp.
  apply bind_Ok in H. destruct H as [? [He H]]. apply guard_Ok in He.
  simpl in Hp, He. split; [exact Hp |]. split; [exact He |].
  unfold update_seats_on_booking in H.
  destruct (Booking.booking_status NEW); [| now injection H as <-].
  destruct (update_events_seats_any _ _ _ _ _ H) as (_ & _ & [-> | Hm]);
    [reflexivity | exact (seats_moved_ids _ _ _ _ Hm)].
Qed.

Lemma is_uid_true_owner (uid : auth) (b : Booking.t) :
  users_can_update_their_own_bookings uid b = true -> uid = Some (Booking.user_id b).
Proof.
  unfold users_can_update_their_own_bookings, is_uid.
  destruct uid as [v|]; [| discriminate].
  intro H. now rewrite (uuid_eqb_true _ _ H).
Qed.

(** A Cancel that changed anything rewrote the one row it names, as
    cancelled, and at most moved seats in [events]. *)
Lemma handleCancelBooking_cases (user : auth) (confirm : bool) (bookingId : uuid)
    (d : db) :
  fst (handleCancelBooking user confirm bookingId d) = d
  \/ exists OLD d',
       find_booking bookingId (bookings d) = Some OLD
       /\ user = Some (Booking.user_id OLD)
       /\ handleCancelBooking user confirm bookingId d = (d', CancelDone)
       /\ user_profiles d' = user_profiles d
       /\ bookings d'
          = replace_booking bookingId (Booking.with_status cancelled OLD) (bookings d)
       /\ map Event.id (events d') = map Event.id (events d).
Proof.
  unfold handleCancelBooking.
  destruct confirm; [| now left].
  destruct (update_booking user bookingId cancel_patch d) as [[d' n]|e] eqn:U;
    [| now left].
  pose proof (update_booking_Ok _ _ _ _ _ _ U) as Hinv.
  destruct Hinv as [(-> & _) | (OLD & F & P & _ & _ & _ & -> & Htr)]; [now left |].
  right. exists OLD, d'.
  destruct (cancel_Ok_touched _ _ _ _ _ F P U) as [Hp Hb].
  apply restore_seats_on_cancel_Ok in Htr. simpl in Htr.
  destruct Htr as (_ & _ & Hev).
  repeat split; auto.
  - now apply is_uid_true_owner.
  - destruct Hev as [-> | (_ & _ & Hm)];
      [reflexivity | exact (seats_moved_ids _ _ _ _ Hm)].
Qed.

(** A save that changed anything was an admin's: the form written over the
    rows of the edited event, or one new row. *)
Lemma handleSubmit_cases (user : auth) (editingEvent : option Event.t)
    (formData : FormData.t) (new_id : uuid) (d : db) :
  fst (handleSubmit user editingEvent formData new_id d) = d
  \/ (admin_exists d user = true
      /\ snd (handleSubmit user editingEvent formData new_id d) = AdminDone
      /\ ((exists ev r,
              editingEvent = Some ev
              /\ set_event_rows formData (Event.id ev) (events d) = Ok r
              /\ fst (handleSubmit user editingEvent formData new_id d)
                 = mkDb (user_profiles d) (fst r) (bookings d))
          \/ (exists u,
                 editingEvent = None /\ user = Some u
                 /\ event_exists new_id (events d) = false
                 /\ check_event
                      (apply_form formData
                         (Event.mk new_id EmptyString EmptyString EmptyString
                                   EmptyString 0 0 EmptyString 0 (Some u))) = Ok tt
                 /\ fst (handleSubmit user editingEvent formData new_id d)
                    = mkDb (user_profiles d)
                           (events d
                            ++ [apply_form formData
                                  (Event.mk new_id EmptyString EmptyString EmptyString
                                            EmptyString 0 0 EmptyString 0 (Some u))])
                           (bookings d)))).
Proof.
  unfold handleSubmit.
  destruct editingEvent as [ev|].
  - destruct (update_event user (Event.id ev) formData d) as [[d' n]|e] eqn:U;
      [| now left].
    unfold update_event in U.
    apply bind_Ok in U. destruct U as [? [_ U]].
    destruct (admin_exists d user) eqn:A; [| injection U as <- _; now left].
    apply bind_Ok in U. destruct U as [r [Hr U]]. injection U as <- _.
    right. split; [reflexivity |]. split; [reflexivity |].
    left. exists ev, r. auto.
  - destruct user as [u|]; [| now left].
    destruct (insert_event _ _ d) as [d'|e] eqn:I; [| now left].
    unfold insert_event in I.
    apply bind_Ok in I. destruct I as [? [_ I]].
    apply bind_Ok in I. destruct I as [? [A I]]. apply guard_Ok in A.
    apply bind_Ok in I. destruct I as [[] [Hck I]].
    apply bind_Ok in I. destruct I as [? [Hpk I]]. apply guard_Ok in Hpk.
    apply bind_Ok in I. destruct I as [? [_ I]].
    injection I as <-. apply negb_true_iff in Hpk. simpl in Hpk.
    right. split; [exact A |]. split; [reflexivity |].
    right. exists u. auto 10.
Qed.

(** A delete that changed anything was an admin's: the rows of the event
    are gone, and with them the bookings of the event. *)
Lemma handleDelete_cases (user : auth) (confirm : bool) (eventId : uuid) (d : db) :
  fst (handleDelete user confirm eventId d) = d
  \/ (admin_exists d user = true
      /\ event_exists eventId (events d) = true
      /\ handleDelete user confirm eventId d
         = (mkDb (user_profiles d)
                 (filter (fun ev => negb (uuid_eqb (Event.id ev) eventId)) (events d))
                 (filter (fun b => negb (uuid_eqb (Booking.event_id b) eventId))
                         (bookings d)),
            AdminDone)).
Proof.
  unfold handleDelete, delete_event.
  destruct confirm; [| now left].
  destruct (admin_exists d user); simpl; [| now left].
  destruct (event_exists eventId (events d)); simpl; [| now left].
  right. auto.
Qed.

(** ** The primary key of [events] *)

Lemma event_exists_false (eid : uuid) (evs : list Event.t) :
  event_exists eid evs = false -> ~ In eid (map Event.id evs).
Proof.
  rewrite event_exists_ids. intros H Hin.
  assert (existsb (fun i => uuid_eqb i eid) (map Event.id evs) = true)
    by (apply existsb_exists; exists eid; split; [exact Hin | apply uuid_eqb_refl]).
  congruence.
Qed.

(** On the code: every action of the pages keeps [id] a key of [events]. *)
Theorem events_pkey_kept (a : action) (d : db) :
  events_pkey_holds d -> events_pkey_holds (run a d).
Proof.
  unfold events_pkey_holds. intro Hpk.
  destruct a as [user event seatsToBook new_id | user confirm bid
                | user editing f new_id | user confirm eid]; simpl.
  - destruct (handleBooking_cases user event seatsToBook new_id d)
      as [-> | (u & ev & d' & _ & _ & _ & I & ->)]; [exact Hpk |].
    simpl. destruct (insert_booking_frame _ _ _ _ I) as (_ & _ & Hids).
    now rewrite Hids.
  - destruct (handleCancelBooking_cases user confirm bid d)
      as [-> | (OLD & d' & _ & _ & -> & _ & _ & Hids)]; [exact Hpk |].
    simpl. now rewrite Hids.
  - destruct (handleSubmit_cases user editing f new_id d)
      as [-> | (_ & _ & [(ev & r & _ & Hr & ->) | (u & _ & _ & Hfresh & _ & ->)])];
      [exact Hpk | |]; simpl.
    + now rewrite (set_event_rows_ids _ _ _ _ Hr).
    + rewrite map_app. simpl.
      apply NoDup_app; [exact Hpk | constructor; [intros [] | constructor] |].
      intros x Hx [<- | []]. exact (event_exists_false _ _ Hfresh Hx).
  - destruct (handleDelete_cases user confirm eid d) as [-> | (_ & _ & ->)];
      [exact Hpk |].
    simpl. now apply NoDup_map_filter.
Qed.

Lemma sample_events_pkey : events_pkey_holds (Sample.with_event 5 5).
Proof. constructor; [intros [] | constructor]. Qed.

Lemma events_pkey_kept_witness :
  events_pkey_holds
    (run (Submit (Some "ada"%string) None (Sample.form 20 20) "e2"%string)
         (Sample.with_event 5 5)).
Proof.
  apply (events_pkey_kept
           (Submit (Some "ada"%string) None (Sample.form 20 20) "e2"%string)
           (Sample.with_event 5 5)).
  exact sample_events_pkey.
Defined.

(** ** The foreign keys of [bookings] *)

Lemma in_replace_booking (bid : uuid) (NEW x : Booking.t) (bs : list Booking.t) :
  In x (replace_booking bid NEW bs) -> x = NEW \/ In x bs.
Proof.
  induction bs as [|b rest IH]; simpl; [tauto |].
  destruct (uuid_eqb (Booking.id b) bid); simpl.
  - intros [<- | H]; auto.
  - intros [<- | H]; auto. destruct (IH H); auto.
Qed.

Lemma event_exists_app (eid : uuid) (evs evs' : list Event.t) :
  event_exists eid evs = true -> event_exists eid (evs ++ evs') = true.
Proof.
  unfold event_exists. rewrite existsb_app. intros ->. reflexivity.
Qed.

Lemma event_exists_filter_other (eid gone : uuid) (evs : list Event.t) :
  uuid_eqb eid gone = false ->
  event_exists eid evs = true ->
  event_exists eid (filter (fun ev => negb (uuid_eqb (Event.id ev) gone)) evs) = true.
Proof.
  unfold event_exists. intros Hne H.
  apply existsb_exists in H. destruct H as [ev [Hin Hid]].
  apply existsb_exists. exists ev. split; [| exact Hid].
  apply filter_In. split; [exact Hin |].
  apply uuid_eqb_true in Hid. now rewrite Hid, Hne.
Qed.

(** On the code: no action of the pages writes to [user_profiles], and every
    action leaves every booking with its user's profile and with its event:
    a booking is only taken for an event that exists, an edit keeps the ids of
    the events, and a deleted event takes its bookings with it. *)
Theorem bookings_fkeys_kept (a : action) (d : db) :
  bookings_fkeys_hold d ->
  user_profiles (run a d) = user_profiles d
  /\ bookings_fkeys_hold (run a d).
Proof.
  unfold bookings_fkeys_hold. intro Hfk.
  destruct a as [user event seatsToBook new_id | user confirm bid
                | user editing f new_id | user confirm eid]; simpl.
  - destruct (handleBooking_cases user event seatsToBook new_id d)
      as [-> | (u & ev & d' & _ & _ & _ & I & ->)]; [now split |].
    simpl.
    destruct (insert_booking_frame _ _ _ _ I) as (Hp & He & Hids).
    destruct (insert_booking_Ok _ _ _ _ I) as (_ & _ & _ & _ & _ & Hps & Hb).
    split; [exact Hps |].
    intros b Hin. rewrite Hps, (event_exists_same_ids _ _ _ Hids).
    rewrite Hb in Hin. apply in_app_or in Hin.
    destruct Hin as [Hin | [<- | []]]; [now apply Hfk | now split].
  - destruct (handleCancelBooking_cases user confirm bid d)
      as [-> | (OLD & d' & F & _ & -> & Hps & Hb & Hids)]; [now split |].
    simpl. split; [exact Hps |].
    intros b Hin. rewrite Hps, (event_exists_same_ids _ _ _ Hids).
    rewrite Hb in Hin. apply in_replace_booking in Hin.
    destruct Hin as [-> | Hin]; [| now apply Hfk].
    exact (Hfk OLD (find_booking_In _ _ _ F)).
  - destruct (handleSubmit_cases user editing f new_id d)
      as [-> | (_ & _ & [(ev & r & _ & Hr & ->) | (u & _ & _ & _ & _ & ->)])];
      [now split | |]; simpl; (split; [reflexivity |]); intros b Hin.
    + rewrite (event_exists_same_ids _ _ _ (set_event_rows_ids _ _ _ _ Hr)).
      now apply Hfk.
    + destruct (Hfk b Hin) as [Hp He]. split; [exact Hp |].
      now apply event_exists_app.
  - destruct (handleDelete_cases user confirm eid d) as [-> | (_ & _ & ->)];
      [now split |].
    simpl. split; [reflexivity |]. intros b Hin.
    apply filter_In in Hin. destruct Hin as [Hin Hne].
    apply negb_true_iff in Hne.
    destruct (Hfk b Hin) as [Hp He]. split; [exact Hp |].
    now apply event_exists_filter_other.
Qed.

Lemma sample_bookings_fkeys : bookings_fkeys_hold Sample.alice_booked.
Proof. intros b [<- | []]. split; reflexivity. Qed.

Lemma bookings_fkeys_kept_witness :
  bookings_fkeys_hold
    (run (Delete (Some "ada"%string) true "e1"%string) Sample.alice_booked).
Proof.
  apply (bookings_fkeys_kept
           (Delete (Some "ada"%string) true "e1"%string) Sample.alice_booked).
  exact sample_bookings_fkeys.
Defined.

(** ** The unique index of [bookings], as an invariant *)

Lemma same_key_true (b c : Booking.t) :
  same_key b c = true
  <-> Booking.user_id b = Booking.user_id c
      /\ Booking.event_id b = Booking.event_id c
      /\ Booking.booking_status b = Booking.booking_status c.
Proof.
  unfold same_key. split.
  - intro H. apply andb_prop in H. destruct H as [H Hs].
    apply andb_prop in H. destruct H as [Hu He].
    apply uuid_eqb_true in Hu, He. apply status_eqb_true in Hs. auto.
  - intros (-> & -> & ->). now rewrite !uuid_eqb_refl, status_eqb_refl.
Qed.

Lemma same_key_sym (b c : Booking.t) : same_key b c = same_key c b.
Proof.
  destruct (same_key b c) eqn:E, (same_key c b) eqn:E'; try reflexivity.
  - apply same_key_true in E. destruct E as (Hu & He & Hs).
    assert (same_key c b = true) by (apply same_key_true; auto). congruence.
  - apply same_key_true in E'. destruct E' as (Hu & He & Hs).
    assert (same_key b c = true) by (apply same_key_true; auto). congruence.
Qed.

Lemma same_key_trans (b c e : Booking.t) :
  same_key b c = true -> same_key c e = true -> same_key b e = true.
Proof.
  intros H1 H2. apply same_key_true in H1, H2. apply same_key_true.
  destruct H1 as (-> & -> & ->). exact H2.
Qed.

Lemma key_taken_false (NEW c : Booking.t) (bs : list Booking.t) :
  key_taken NEW bs = false -> In c bs -> same_key NEW c = true ->
  Booking.id c = Booking.id NEW.
Proof.
  intros Hk Hin Hs.
  destruct (uuid_eqb (Booking.id c) (Booking.id NEW)) eqn:E;
    [now apply uuid_eqb_true |].
  rewrite (key_taken_In _ _ _ Hin E Hs) in Hk. discriminate.
Qed.

(** An UPDATE of a booking, whatever it sets, keeps the triples unique. *)
Lemma update_booking_key (uid : auth) (bid : uuid) (p : booking_patch)
    (d d' : db) (n : nat) :
  update_booking uid bid p d = Ok (d', n) ->
  bookings_key_holds d -> bookings_key_holds d'.
Proof.
  unfold update_booking. intros H Hkey.
  destruct (find_booking bid (bookings d)) as [OLD|] eqn:F; [| now injection H as <- _].
  destruct (users_can_update_their_own_bookings uid OLD); [| now injection H as <- _].
  set (NEW := apply_patch p OLD) in *.
  do 3 (apply bind_Ok in H; destruct H as [? [_ H]]).
  apply bind_Ok in H. destruct H as [? [Hg H]]. apply guard_Ok in Hg.
  do 2 (apply bind_Ok in H; destruct H as [? [_ H]]).
  apply bind_Ok in H. destruct H as [d2 [Htr H]]. injection H as <- _.
  apply restore_seats_on_cancel_Ok in Htr. simpl in Htr.
  destruct Htr as (_ & Hb & _).
  assert (Hnew : forall c, In c (bookings d) -> same_key NEW c = true ->
                           Booking.id c = Booking.id NEW).
  { intros c Hin Hs. apply orb_prop in Hg. destruct Hg as [Hsame | Hfree].
    - pose proof (same_key_trans _ _ _ Hsame Hs) as Hoc.
      rewrite <- (Hkey OLD c (find_booking_In _ _ _ F) Hin Hoc). reflexivity.
    - apply negb_true_iff in Hfree. exact (key_taken_false _ _ _ Hfree Hin Hs). }
  unfold bookings_key_holds. rewrite Hb. intros b c Hinb Hinc Hs.
  apply in_replace_booking in Hinb, Hinc.
  destruct Hinb as [-> | Hinb], Hinc as [-> | Hinc].
  - reflexivity.
  - symmetry. now apply Hnew.
  - apply Hnew; [exact Hinb | now rewrite same_key_sym].
  - now apply Hkey.
Qed.

(** On the code: after every action of the pages no two different rows of
    [bookings] have the same user, event and status; so a user never holds
    two confirmed bookings of one event. *)
Theorem bookings_key_kept (a : action) (d : db) :
  bookings_key_holds d -> bookings_key_holds (run a d).
Proof.
  intro Hkey.
  destruct a as [user event seatsToBook new_id | user confirm bid
                | user editing f new_id | user confirm eid]; simpl.
  - destruct (handleBooking_cases user event seatsToBook new_id d)
      as [-> | (u & ev & d' & _ & _ & _ & I & ->)]; [exact Hkey |].
    simpl.
    destruct (insert_booking_Ok _ _ _ _ I) as (_ & _ & _ & _ & Hfree & _ & Hb).
    unfold bookings_key_holds. rewrite Hb. intros b c Hinb Hinc Hs.
    apply in_app_or in Hinb, Hinc.
    destruct Hinb as [Hinb | [<- | []]], Hinc as [Hinc | [<- | []]].
    + now apply Hkey.
    + apply (key_taken_false _ _ _ Hfree Hinb). now rewrite same_key_sym.
    + symmetry. exact (key_taken_false _ _ _ Hfree Hinc Hs).
    + reflexivity.
  - unfold handleCancelBooking.
    destruct confirm; [| exact Hkey].
    destruct (update_booking user bid cancel_patch d) as [[d' n]|e] eqn:U;
      [| exact Hkey].
    exact (update_booking_key _ _ _ _ _ _ U Hkey).
  - destruct (handleSubmit_cases user editing f new_id d)
      as [-> | (_ & _ & [(ev & r & _ & _ & ->) | (u & _ & _ & _ & _ & ->)])];
      exact Hkey.
  - destruct (handleDelete_cases user confirm eid d) as [-> | (_ & _ & ->)];
      [exact Hkey |].
    unfold bookings_key_holds. simpl. intros b c Hinb Hinc.
    apply filter_In in Hinb, Hinc. apply Hkey; tauto.
Qed.

Lemma sample_bookings_key : bookings_key_holds Sample.alice_booked.
Proof. intros b c [<- | []] [<- | []] _. reflexivity. Qed.

Lemma bookings_key_kept_witness :
  bookings_key_holds
    (run (Cancel (Some "alice"%string) true "b1"%string) Sample.alice_booked).
Proof.
  apply (bookings_key_kept
           (Cancel (Some "alice"%string) true "b1"%string) Sample.alice_booked).
  exact sample_bookings_key.
Defined.

(** ** Who can write what *)

Lemma admin_exists_anon (d : db) : admin_exists d None = false.
Proof.
  unfold admin_exists. induction (user_profiles d) as [|p rest IH]; simpl; auto.
Qed.

(** On the code: in the session of a user who is not an admin no action of
    the pages changes the table [events].  The admin page's handlers do not
    all say so: an insert is refused by the policy, but an edit and a delete
    match no row and are reported as done. *)
Theorem only_admins_write_events (d : db) (user : auth) :
  admin_exists d user = false ->
  (forall a, actor a = user -> events (run a d) = events d)
  /\ (forall ev f new_id,
         in_int4 (FormData.total_seats f) && in_int4 (FormData.available_seats f) = true ->
         handleSubmit user (Some ev) f new_id d = (d, AdminDone))
  /\ (forall u f new_id,
         user = Some u ->
         in_int4 (FormData.total_seats f) && in_int4 (FormData.available_seats f) = true ->
         handleSubmit user None f new_id d
         = (d, AdminFailed (Some insufficient_privilege)))
  /\ (forall eventId, handleDelete user true eventId d = (d, AdminDone)).
Proof.
  intro A. split; [| split; [| split]].
  - intros a Ha.
    destruct a as [user' event seatsToBook new_id | user' confirm bid
                  | user' editing f new_id | user' confirm eid];
      simpl in Ha; subst user'.
    + apply (non_admin_leaves_events user d A).
    + apply (non_admin_leaves_events user d A).
    + simpl. destruct (handleSubmit_cases user editing f new_id d)
        as [-> | (A' & _)]; [reflexivity | congruence].
    + simpl. destruct (handleDelete_cases user confirm eid d)
        as [-> | (A' & _)]; [reflexivity | congruence].
  - intros ev f new_id Hrange. unfold handleSubmit, update_event.
    now rewrite Hrange, A.
  - intros u f new_id -> Hrange. unfold handleSubmit, insert_event.
    simpl. simpl in Hrange. now rewrite Hrange, A.
  - intro eventId. unfold handleDelete, delete_event. now rewrite A.
Qed.

Lemma only_admins_write_events_witness :
  events (run (Delete (Some "alice"%string) true "e1"%string) (Sample.with_event 5 5))
  = events (Sample.with_event 5 5)
  /\ handleSubmit (Some "alice"%string) None (Sample.form 20 20) "e2"%string
                  (Sample.with_event 5 5)
     = (Sample.with_event 5 5, AdminFailed (Some insufficient_privilege)).
Proof.
  destruct (only_admins_write_events (Sample.with_event 5 5) (Some "alice"%string) eq_refl)
    as (Hev & _ & Hins & _).
  split.
  - apply Hev. reflexivity.
  - apply (Hins "alice"%string); reflexivity.
Defined.

(** On the code: a visitor who is not signed in changes nothing, through
    any handler. *)
Theorem anonymous_writes_nothing (a : action) (d : db) :
  actor a = None -> run a d = d.
Proof.
  destruct a as [user event seatsToBook new_id | user confirm bid
                | user editing f new_id | user confirm eid];
    simpl; intros ->.
  - reflexivity.
  - unfold handleCancelBooking, update_booking.
    destruct confirm; [| reflexivity].
    destruct (find_booking bid (bookings d)); reflexivity.
  - destruct (handleSubmit_cases None editing f new_id d) as [H | (A & _)];
      [exact H | rewrite admin_exists_anon in A; discriminate].
  - destruct (handleDelete_cases None confirm eid d) as [H | (A & _)];
      [exact H | rewrite admin_exists_anon in A; discriminate].
Qed.

Lemma anonymous_writes_nothing_witness :
  run (Cancel None true "b1"%string) Sample.alice_booked = Sample.alice_booked.
Proof.
  apply (anonymous_writes_nothing (Cancel None true "b1"%string) Sample.alice_booked).
  reflexivity.
Defined.

(** On the code: the two write policies of [bookings] tie every row to its
    owner.  An INSERT that goes through adds one row, the session user's
    own; an UPDATE that goes through, whatever it sets, leaves the table as
    it is or rewrites one row of the session user's, which stays that
    user's: a booking cannot be made for, taken from, or handed to another
    user. *)
Theorem bookings_stay_with_their_owner (uid : auth) (d : db) :
  (forall NEW d',
      insert_booking uid NEW d = Ok d' ->
      uid = Some (Booking.user_id NEW)
      /\ bookings d' = bookings d ++ [NEW])
  /\ (forall bid p d' n,
         update_booking uid bid p d = Ok (d', n) ->
         bookings d' = bookings d
         \/ exists OLD,
              find_booking bid (bookings d) = Some OLD
              /\ uid = Some (Booking.user_id OLD)
              /\ Booking.user_id (apply_patch p OLD) = Booking.user_id OLD
              /\ bookings d' = replace_booking bid (apply_patch p OLD) (bookings d))
  /\ (forall bid p OLD other,
         find_booking bid (bookings d) = Some OLD ->
         uid = Some (Booking.user_id OLD) ->
         set_user_id p = Some other ->
         other <> Booking.user_id OLD ->
         in_int4 (Booking.seats_booked (apply_patch p OLD)) = true ->
         update_booking uid bid p d = Err insufficient_privilege).
Proof.
  split; [| split].
  - intros NEW d' I.
    destruct (insert_booking_Ok _ _ _ _ I) as (_ & Hu & _ & _ & _ & _ & Hb).
    split; [| exact Hb].
    destruct uid as [v|]; simpl in Hu; [| discriminate].
    now rewrite (uuid_eqb_true _ _ Hu).
  - intros bid p d' n U. apply update_booking_Ok in U.
    destruct U as [(-> & _) | (OLD & F & P & P' & _ & _ & _ & Htr)]; [now left |].
    right. exists OLD.
    apply restore_seats_on_cancel_Ok in Htr. simpl in Htr.
    destruct Htr as (_ & Hb & _).
    pose proof (is_uid_true_owner _ _ P) as Hu.
    pose proof (is_uid_true_owner _ _ P') as Hu'.
    repeat split; auto. congruence.
  - intros bid p OLD other F -> Hset Hne Hrange.
    assert (P : users_can_update_their_own_bookings (Some (Booking.user_id OLD)) OLD
                = true)
      by (unfold users_can_update_their_own_bookings; simpl; apply uuid_eqb_refl).
    assert (P' : users_can_update_their_own_bookings (Some (Booking.user_id OLD))
                   (apply_patch p OLD) = false).
    { unfold users_can_update_their_own_bookings, apply_patch. simpl.
      rewrite Hset. simpl.
      destruct (uuid_eqb (Booking.user_id OLD) other) eqn:E; [| reflexivity].
      apply uuid_eqb_true in E. congruence. }
    unfold update_booking. rewrite F, P. cbv zeta. now rewrite Hrange, P'.
Qed.

Lemma bookings_stay_with_their_owner_witness :
  update_booking (Some "alice"%string) "b1"%string
                 (mkPatch (Some "bob"%string) None None None) Sample.alice_booked
  = Err insufficient_privilege.
Proof.
  destruct (bookings_stay_with_their_owner (Some "alice"%string) Sample.alice_booked)
    as (_ & _ & Hgive).
  apply (Hgive "b1"%string _
               (Booking.mk "b1"%string "alice"%string "e1"%string 2 confirmed)
               "bob"%string);
    [reflexivity | reflexivity | reflexivity | discriminate | reflexivity].
Defined.

(** ** Reserve, then cancel *)

Lemma admin_exists_profiles (d1 d : db) (uid : auth) :
  user_profiles d1 = user_profiles d -> admin_exists d1 uid = admin_exists d uid.
Proof. unfold admin_exists. now intros ->. Qed.

Lemma update_events_seats_other (uid : auth) (f : Z -> Z) (eid : uuid) (d1 d2 : db) :
  update_events_seats uid f eid d1 = Ok d2 ->
  admin_exists d1 uid = false -> d2 = d1.
Proof.
  unfold update_events_seats. intros H A. rewrite A in H. now injection H as <-.
Qed.

Lemma find_booking_fresh (bid : uuid) (bs : list Booking.t) :
  booking_exists bid bs = false -> find_booking bid bs = None.
Proof.
  unfold booking_exists, find_booking.
  induction bs as [|b rest IH]; simpl; [reflexivity |].
  destruct (uuid_eqb (Booking.id b) bid); simpl; [discriminate | exact IH].
Qed.

Lemma with_available_seats_same (ev : Event.t) :
  Event.with_available_seats (Event.available_seats ev) ev = ev.
Proof. now destruct ev. Qed.

(** Taking [k] seats from an event and giving [k] back leaves every row as
    it was. *)
Lemma seats_moved_back (k : Z) (eid : uuid) (evs evs1 evs2 : list Event.t) :
  Forall2 (seats_moved (fun a => a - k) eid) evs evs1 ->
  Forall2 (seats_moved (fun a => a + k) eid) evs1 evs2 ->
  evs2 = evs.
Proof.
  intro H1. revert evs2.
  induction H1 as [|ev ev1 rest rest1 Hm _ IH]; intros evs2 H2.
  - now inversion H2.
  - inversion H2 as [|x ev2 xs rest2 Hm2 Hrest2]; subst.
    rewrite (IH _ Hrest2). f_equal.
    unfold seats_moved in Hm, Hm2.
    destruct (uuid_eqb (Event.id ev) eid) eqn:E; subst ev1; simpl in Hm2.
    + rewrite E in Hm2. subst ev2. destruct ev as [i t ds dt l tot av im pr cb].
      unfold Event.with_available_seats. simpl.
      now replace (av - k + k) with av by lia.
    + rewrite E in Hm2. now subst ev2.
Qed.

(** On the code: a Reserve that is confirmed, followed by a Cancel of that
    booking by the same user that goes through, leaves the table [events]
    and the seats held for every event exactly as they were before the
    Reserve, with the booking kept as a cancelled row.  This holds in every
    session: for an admin the seats are taken and given back, for another
    user they are never moved. *)
Theorem reserve_then_cancel_restores_seats (user : auth) (event : option Event.t)
    (seatsToBook : Z) (new_id : uuid) (d d1 d2 : db) :
  handleBooking user event seatsToBook new_id d = (d1, Some BookingConfirmed) ->
  handleCancelBooking user true new_id d1 = (d2, CancelDone) ->
  events d2 = events d
  /\ (forall eid, seats_held eid (bookings d2) = seats_held eid (bookings d))
  /\ option_map Booking.booking_status (find_booking new_id (bookings d2))
     = Some cancelled.
Proof.
  intros HB HC. unfold handleBooking in HB.
  destruct user as [u|]; [| discriminate].
  destruct event as [ev|]; [| discriminate].
  destruct (Event.available_seats ev <? seatsToBook); [discriminate |].
  destruct (insert_booking _ _ d) as [d'|e] eqn:I; [| discriminate].
  injection HB as <-.
  - set (NEW := Booking.mk new_id u (Event.id ev) seatsToBook confirmed) in *.
    destruct (insert_booking_Ok _ _ _ _ I) as (_ & _ & _ & Hfresh & _ & Hps & Hb).
    assert (F : find_booking new_id (bookings d') = Some NEW).
    { rewrite Hb, find_booking_app, (find_booking_fresh new_id _ Hfresh).
      unfold find_booking. simpl. now rewrite uuid_eqb_refl. }
    unfold handleCancelBooking in HC.
    destruct (update_booking (Some u) new_id cancel_patch d') as [[d3 n]|e] eqn:U;
      [| discriminate].
    injection HC as ->.
    pose proof (update_booking_Ok _ _ _ _ _ _ U) as Hinv.
    destruct Hinv as [(_ & _ & Hno) | (OLD & F' & P & _ & _ & _ & -> & Htr)].
    { rewrite F in Hno. unfold users_can_update_their_own_bookings in Hno.
      simpl in Hno. rewrite uuid_eqb_refl in Hno. discriminate. }
    rewrite F in F'. injection F' as <-.
    destruct (cancel_Ok_touched _ _ _ _ _ F P U) as [_ Hb2].
    split; [| split].
    + (* events *)
      unfold insert_booking in I.
      do 7 (apply bind_Ok in I; destruct I as [? [_ I]]).
      unfold update_seats_on_booking in I. simpl in I.
      unfold restore_seats_on_cancel in Htr. simpl in Htr.
      destruct (admin_exists d (Some u)) eqn:A.
      * apply update_events_seats_admin in I;
          [| now rewrite (admin_exists_profiles _ d)].
        destruct I as (Hps1 & _ & Hm1). simpl in Hm1.
        apply update_events_seats_admin in Htr;
          [| now rewrite (admin_exists_profiles _ d)].
        destruct Htr as (_ & _ & Hm2). simpl in Hm2.
        exact (seats_moved_back _ _ _ _ _ Hm1 Hm2).
      * apply update_events_seats_other in I;
          [| now rewrite (admin_exists_profiles _ d)].
        apply update_events_seats_other in Htr;
          [| now rewrite (admin_exists_profiles _ d)].
        subst. reflexivity.
    + intro eid. rewrite Hb2, (seats_held_replace _ _ _ _ _ F), Hb, seats_held_insert.
      rewrite (held_by_cancelled eid (Booking.with_status cancelled NEW)) by reflexivity.
      lia.
    + rewrite Hb2.
      rewrite (find_replace_same _ _ _ (Booking.with_status cancelled NEW) F
                                 (uuid_eqb_refl _)).
      reflexivity.
Qed.

Lemma reserve_then_cancel_restores_seats_witness :
  events (run (Cancel (Some "ada"%string) true "b1"%string)
              (run (Book (Some "ada"%string) (Sample.shown (Sample.with_event 5 5)) 3
                         "b1"%string)
                   (Sample.with_event 5 5)))
  = events (Sample.with_event 5 5).
Proof.
  apply (reserve_then_cancel_restores_seats
           (Some "ada"%string) (Sample.shown (Sample.with_event 5 5)) 3 "b1"%string
           (Sample.with_event 5 5)
           (run (Book (Some "ada"%string) (Sample.shown (Sample.with_event 5 5)) 3
                      "b1"%string)
                (Sample.with_event 5 5))
           (run (Cancel (Some "ada"%string) true "b1"%string)
                (run (Book (Some "ada"%string) (Sample.shown (Sample.with_event 5 5)) 3
                           "b1"%string)
                     (Sample.with_event 5 5))));
    reflexivity.
Defined.

(** ** An admin's Reserve against the row *)

Lemma set_available_seats_overdraw (k : Z) (eid : uuid) (evs : list Event.t)
    (row : Event.t) :
  find_event eid evs = Some row ->
  Event.available_seats row < k ->
  exists e, set_available_seats (fun a => a - k) eid evs = Err e.
Proof.
  unfold find_event. intros F Hlt.
  induction evs as [|x rest IH]; simpl in *; [discriminate |].
  destruct (uuid_eqb (Event.id x) eid).
  - injection F as ->.
    destruct (in_int4 (Event.available_seats row - k)); simpl; [| eauto].
    unfold check_event. simpl.
    rewrite (proj2 (Z.leb_gt _ _)) by lia. simpl. eauto.
  - destruct (IH F) as [e He]. rewrite He. simpl. eauto.
Qed.

Lemma admin_exists_profile (d : db) (u : uuid) :
  admin_exists d (Some u) = true -> profile_exists u (user_profiles d) = true.
Proof.
  unfold admin_exists, profile_exists. intro H.
  apply existsb_exists in H. destruct H as [p [Hin Hp]].
  apply andb_prop in Hp. destruct Hp as [Hu _]. simpl in Hu.
  apply existsb_exists. exists p. split; [exact Hin |].
  now rewrite uuid_eqb_sym.
Qed.

Lemma find_event_exists (eid : uuid) (evs : list Event.t) (row : Event.t) :
  find_event eid evs = Some row -> event_exists eid evs = true.
Proof.
  unfold find_event, event_exists. intro F.
  apply existsb_exists. exists row. exact (find_some _ _ F).
Qed.

(** An INSERT whose trigger fails, fails. *)
Lemma insert_booking_trigger_fails (uid : auth) (NEW : Booking.t) (d : db) :
  (exists e, update_seats_on_booking uid NEW
               (mkDb (user_profiles d) (events d) (bookings d ++ [NEW])) = Err e) ->
  exists e, insert_booking uid NEW d = Err e.
Proof.
  intros [e He]. unfold insert_booking, check_booking.
  destruct (in_int4 (Booking.seats_booked NEW)); simpl; [| eauto].
  destruct (users_can_create_their_own_bookings uid NEW); simpl; [| eauto].
  destruct (0 <? Booking.seats_booked NEW); simpl; [| eauto].
  destruct (booking_exists (Booking.id NEW) (bookings d)); simpl; [eauto |].
  destruct (key_taken NEW (bookings d)); simpl; [eauto |].
  destruct (profile_exists (Booking.user_id NEW) (user_profiles d)); simpl; [| eauto].
  destruct (event_exists (Booking.event_id NEW) (events d)); simpl; [| eauto].
  eauto.
Qed.

(** An INSERT that passes every test of its own is as good as its trigger. *)
Lemma insert_booking_guards_pass (uid : auth) (NEW : Booking.t) (d : db) :
  in_int4 (Booking.seats_booked NEW) = true ->
  users_can_create_their_own_bookings uid NEW = true ->
  0 < Booking.seats_booked NEW ->
  booking_exists (Booking.id NEW) (bookings d) = false ->
  key_taken NEW (bookings d) = false ->
  profile_exists (Booking.user_id NEW) (user_profiles d) = true ->
  event_exists (Booking.event_id NEW) (events d) = true ->
  insert_booking uid NEW d
  = update_seats_on_booking uid NEW
      (mkDb (user_profiles d) (events d) (bookings d ++ [NEW])).
Proof.
  intros R P Hpos Hpk Hkey Hp He. unfold insert_booking, check_booking.
  rewrite R, P, (proj2 (Z.ltb_lt _ _) Hpos), Hpk, Hkey. simpl.
  now rewrite Hp, He.
Qed.

(** On the code: in an admin's session a Reserve of more seats than the
    event's row has left is never confirmed and changes nothing, however
    many seats the page's copy of the event shows: the trigger's update is
    tested against the row.  When nothing else is wrong with the request the
    error is the violation of [CHECK (available_seats >= 0)]. *)
Theorem admin_reserve_never_overdraws (d : db) (u : uuid) (event : Event.t)
    (row : Event.t) (seatsToBook : Z) (new_id : uuid) :
  admin_exists d (Some u) = true ->
  find_event (Event.id event) (events d) = Some row ->
  Event.available_seats row < seatsToBook ->
  fst (handleBooking (Some u) (Some event) seatsToBook new_id d) = d
  /\ snd (handleBooking (Some u) (Some event) seatsToBook new_id d)
     <> Some BookingConfirmed
  /\ (0 <= Event.available_seats row ->
      seatsToBook <= Event.available_seats event ->
      in_int4 seatsToBook = true ->
      booking_exists new_id (bookings d) = false ->
      key_taken (Booking.mk new_id u (Event.id event) seatsToBook confirmed)
                (bookings d) = false ->
      snd (handleBooking (Some u) (Some event) seatsToBook new_id d)
      = Some (BookingError (check_violation events_available_seats_check))).
Proof.
  intros A F Hlt.
  set (NEW := Booking.mk new_id u (Event.id event) seatsToBook confirmed).
  set (d1 := mkDb (user_profiles d) (events d) (bookings d ++ [NEW])).
  assert (Htrig : update_seats_on_booking (Some u) NEW d1
                  = (evs <- set_available_seats (fun a => a - seatsToBook)
                                                (Event.id event) (events d) ;;
                     Ok (mkDb (user_profiles d) evs (bookings d ++ [NEW])))).
  { assert (A1 : admin_exists d1 (Some u) = true)
      by (rewrite (admin_exists_profiles d1 d); [exact A | reflexivity]).
    unfold update_seats_on_booking, update_events_seats. rewrite A1. reflexivity. }
  assert (I : exists e, insert_booking (Some u) NEW d = Err e).
  { apply insert_booking_trigger_fails. fold d1. rewrite Htrig.
    destruct (set_available_seats_overdraw _ _ _ _ F Hlt) as [e He].
    exists e. now rewrite He. }
  destruct I as [e I].
  unfold handleBooking. fold NEW. rewrite I.
  destruct (Event.available_seats event <? seatsToBook) eqn:L; simpl.
  - split; [reflexivity |]. split; [discriminate |].
    intros _ Hle. apply Z.ltb_lt in L. lia.
  - split; [reflexivity |]. split; [discriminate |].
    intros Hav _ R Hpk Hkey.
    rewrite insert_booking_guards_pass in I; auto.
    + fold d1 in I. rewrite Htrig in I.
      rewrite (overdraw_rejected _ _ _ _ F) in I; [| | exact Hlt].
      * simpl in I. now injection I as <-.
      * unfold in_int4, int4_min, int4_max in *.
        apply andb_prop in R. destruct R as [_ Rhi]. apply Z.leb_le in Rhi.
        apply andb_true_intro. split; apply Z.leb_le; lia.
    + unfold users_can_create_their_own_bookings, NEW. simpl.
      now rewrite uuid_eqb_refl.
    + simpl. lia.
    + exact (admin_exists_profile _ _ A).
    + exact (find_event_exists _ _ _ F).
Qed.

Lemma admin_reserve_never_overdraws_witness :
  snd (handleBooking (Some "ruth"%string) (Some (Sample.row 5 5)) 4
                     "b2"%string Sample.rebalanced_before)
  = Some (BookingError (check_violation events_available_seats_check)).
Proof.
  refine (proj2 (proj2 (admin_reserve_never_overdraws Sample.rebalanced_before
                          "ruth"%string (Sample.row 5 5) (Sample.row 5 3) 4
                          "b2"%string eq_refl eq_refl _))
                _ _ eq_refl eq_refl eq_refl);
    simpl; lia.
Defined.

(** ** Saving an event, and reading it back *)

Lemma find_event_app (eid : uuid) (evs evs' : list Event.t) :
  find_event eid (evs ++ evs')
  = match find_event eid evs with
    | Some ev => Some ev
    | None => find_event eid evs'
    end.
Proof.
  unfold find_event. induction evs as [|ev rest IH]; simpl; [reflexivity |].
  now destruct (uuid_eqb (Event.id ev) eid).
Qed.

Lemma find_event_fresh (eid : uuid) (evs : list Event.t) :
  event_exists eid evs = false -> find_event eid evs = None.
Proof.
  unfold event_exists, find_event.
  induction evs as [|ev rest IH]; simpl; [reflexivity |].
  destruct (uuid_eqb (Event.id ev) eid); simpl; [discriminate | exact IH].
Qed.

Lemma set_event_rows_find (f : FormData.t) (edited eid : uuid) (evs : list Event.t)
    (r : list Event.t * nat) :
  set_event_rows f edited evs = Ok r ->
  find_event eid (fst r)
  = if uuid_eqb eid edited
    then option_map (apply_form f) (find_event eid evs)
    else find_event eid evs.
Proof.
  unfold find_event. revert r.
  induction evs as [|ev rest IH]; intros r H; simpl in H.
  - injection H as <-. simpl. now destruct (uuid_eqb eid edited).
  - destruct (uuid_eqb (Event.id ev) edited) eqn:E.
    + apply bind_Ok in H. destruct H as [? [_ H]].
      apply bind_Ok in H. destruct H as [r' [Hr H]].
      injection H as <-. simpl.
      destruct (uuid_eqb (Event.id ev) eid) eqn:E'.
      * apply uuid_eqb_true in E, E'. subst. now rewrite uuid_eqb_refl.
      * exact (IH _ Hr).
    + apply bind_Ok in H. destruct H as [r' [Hr H]].
      injection H as <-. simpl.
      destruct (uuid_eqb (Event.id ev) eid) eqn:E'.
      * apply uuid_eqb_true in E'. subst eid. now rewrite E.
      * exact (IH _ Hr).
Qed.

(** On the code: when an admin's save of the create form goes through, the
    event read back under the new id holds the form's [title],
    [description], [location], [image_url], [total_seats] and
    [available_seats], which the store keeps as sent, with the admin as
    [created_by]; every other event reads as before, no booking is touched,
    and the form's seat numbers were within the store's two CHECK
    constraints.  Nothing is said of [event_date] and [price], which the
    store keeps in its own form. *)
Theorem created_event_reads_back (d d' : db) (u : uuid) (f : FormData.t)
    (new_id : uuid) :
  handleSubmit (Some u) None f new_id d = (d', AdminDone) ->
  (exists row,
      find_event new_id (events d') = Some row
      /\ Event.id row = new_id
      /\ Event.title row = FormData.title f
      /\ Event.description row = FormData.description f
      /\ Event.location row = FormData.location f
      /\ Event.total_seats row = FormData.total_seats f
      /\ Event.available_seats row = FormData.available_seats f
      /\ Event.image_url row = FormData.image_url f
      /\ Event.created_by row = Some u)
  /\ (forall eid, uuid_eqb new_id eid = false ->
                  find_event eid (events d') = find_event eid (events d))
  /\ bookings d' = bookings d
  /\ admin_exists d (Some u) = true
  /\ 0 <= FormData.available_seats f
  /\ 0 < FormData.total_seats f.
Proof.
  intro H. unfold handleSubmit in H.
  destruct (insert_event _ _ d) as [d1|e] eqn:I; [| discriminate].
  injection H as <-.
  unfold insert_event in I.
  apply bind_Ok in I. destruct I as [? [_ I]].
  apply bind_Ok in I. destruct I as [? [A I]]. apply guard_Ok in A.
  apply bind_Ok in I. destruct I as [[] [Hck I]].
  apply bind_Ok in I. destruct I as [? [Hfresh I]]. apply guard_Ok in Hfresh.
  apply bind_Ok in I. destruct I as [? [_ I]].
  injection I as <-. apply negb_true_iff in Hfresh. simpl in Hfresh. simpl.
  split; [| split; [| split; [| split]]].
  - eexists. split.
    + rewrite find_event_app, (find_event_fresh _ _ Hfresh).
      unfold find_event. simpl. rewrite uuid_eqb_refl. reflexivity.
    + repeat split.
  - intros eid Hne. rewrite find_event_app.
    destruct (find_event eid (events d)); [reflexivity |].
    unfold find_event. simpl. now rewrite Hne.
  - reflexivity.
  - exact A.
  - exact (check_event_Ok _ _ Hck).
Qed.

Lemma created_event_reads_back_witness :
  option_map Event.available_seats
    (find_event "e2"%string
       (events (run (Submit (Some "ada"%string) None (Sample.form 20 15) "e2"%string)
                    (Sample.with_event 5 5))))
  = Some 15.
Proof.
  destruct (proj1 (created_event_reads_back
                     (Sample.with_event 5 5)
                     (run (Submit (Some "ada"%string) None (Sample.form 20 15)
                                  "e2"%string)
                          (Sample.with_event 5 5))
                     "ada"%string (Sample.form 20 15) "e2"%string eq_refl))
    as (row & Hfind & _ & _ & _ & _ & _ & Hav & _).
  rewrite Hfind. simpl. now rewrite Hav.
Defined.

(** On the code: when an admin's save of the edit form goes through, the
    edited event reads back with its [id] and [created_by] kept and with the
    form's [title], [description], [location], [image_url], [total_seats]
    and [available_seats], which the store keeps as sent; every other event
    reads as before, and [bookings] is as it was: the two seat columns
    become what the form holds, whatever seats the event's bookings hold.
    Nothing is said of [event_date] and [price], which the store keeps in
    its own form. *)
Theorem edited_event_reads_back (d d' : db) (user : auth) (editingEvent : Event.t)
    (f : FormData.t) (new_id : uuid) :
  admin_exists d user = true ->
  handleSubmit user (Some editingEvent) f new_id d = (d', AdminDone) ->
  (forall old,
      find_event (Event.id editingEvent) (events d) = Some old ->
      exists row,
        find_event (Event.id editingEvent) (events d') = Some row
        /\ Event.id row = Event.id old
        /\ Event.created_by row = Event.created_by old
        /\ Event.title row = FormData.title f
        /\ Event.description row = FormData.description f
        /\ Event.location row = FormData.location f
        /\ Event.total_seats row = FormData.total_seats f
        /\ Event.available_seats row = FormData.available_seats f
        /\ Event.image_url row = FormData.image_url f)
  /\ (find_event (Event.id editingEvent) (events d) = None ->
      find_event (Event.id editingEvent) (events d') = None)
  /\ (forall eid, uuid_eqb eid (Event.id editingEvent) = false ->
                  find_event eid (events d') = find_event eid (events d))
  /\ bookings d' = bookings d
  /\ (forall eid, seats_held eid (bookings d') = seats_held eid (bookings d)).
Proof.
  intros A H. unfold handleSubmit, update_event in H.
  destruct (guard (in_int4 (FormData.total_seats f)
                   && in_int4 (FormData.available_seats f))
                  numeric_value_out_of_range) as [[]|e]; simpl in H; [| discriminate].
  rewrite A in H.
  destruct (set_event_rows f (Event.id editingEvent) (events d)) as [r|e] eqn:Hr;
    simpl in H; [| discriminate].
  injection H as <-. simpl.
  pose proof (fun eid => set_event_rows_find _ _ eid _ _ Hr) as Hfind.
  split; [| split; [| split; [| split; reflexivity]]].
  - intros old Hold. exists (apply_form f old). split.
    + rewrite Hfind, uuid_eqb_refl, Hold. reflexivity.
    + repeat split.
  - intro Hnone. now rewrite Hfind, uuid_eqb_refl, Hnone.
  - intros eid Hne. now rewrite Hfind, Hne.
Qed.

Lemma edited_event_reads_back_witness :
  option_map Event.available_seats
    (find_event "e1"%string (events Sample.rebalanced))
  = Some 5
  /\ seats_held "e1"%string (bookings Sample.rebalanced) = 2.
Proof.
  destruct (edited_event_reads_back
              Sample.rebalanced_before Sample.rebalanced (Some "ada"%string)
              (Sample.row 5 3) (Sample.form 5 5) "e1"%string eq_refl eq_refl)
    as (Hfind & _ & _ & _ & Hheld).
  destruct (Hfind (Sample.row 5 3) eq_refl) as (row & Hrow & _ & _ & _ & _ & _ & _ & Hav & _).
  split.
  - change (Event.id (Sample.row 5 3)) with "e1"%string in Hrow.
    rewrite Hrow. simpl. now rewrite Hav.
  - rewrite Hheld. reflexivity.
Defined.

(** ** Deleting an event *)

(** On the code: an admin's delete of an event that exists removes the
    event and exactly the bookings of that event, confirmed or cancelled,
    whoever holds them; every other event and booking stays as it is. *)
Theorem delete_takes_the_bookings (d : db) (user : auth) (eventId : uuid) :
  admin_exists d user = true ->
  event_exists eventId (events d) = true ->
  snd (handleDelete user true eventId d) = AdminDone
  /\ event_exists eventId (events (run (Delete user true eventId) d)) = false
  /\ (forall ev, In ev (events (run (Delete user true eventId) d))
                 <-> In ev (events d) /\ Event.id ev <> eventId)
  /\ (forall b, In b (bookings (run (Delete user true eventId) d))
                <-> In b (bookings d) /\ Booking.event_id b <> eventId)
  /\ seats_held eventId (bookings (run (Delete user true eventId) d)) = 0
  /\ (forall eid, eid <> eventId ->
                  seats_held eid (bookings (run (Delete user true eventId) d))
                  = seats_held eid (bookings d)).
Proof.
  intros A Hex. simpl. unfold handleDelete, delete_event. rewrite A, Hex. simpl.
  clear A Hex.
  split; [reflexivity |]. split; [| split; [| split; [| split]]].
  - unfold event_exists.
    induction (events d) as [|ev rest IH]; simpl; [reflexivity |].
    destruct (uuid_eqb (Event.id ev) eventId) eqn:E; simpl; [exact IH |].
    now rewrite E.
  - intro ev. rewrite filter_In. split; intros [Hin Hne]; (split; [exact Hin |]).
    + apply negb_true_iff in Hne. exact (proj1 (String.eqb_neq _ _) Hne).
    + apply negb_true_iff. exact (proj2 (String.eqb_neq _ _) Hne).
  - intro b. rewrite filter_In. split; intros [Hin Hne]; (split; [exact Hin |]).
    + apply negb_true_iff in Hne. exact (proj1 (String.eqb_neq _ _) Hne).
    + apply negb_true_iff. exact (proj2 (String.eqb_neq _ _) Hne).
  - induction (bookings d) as [|b rest IH]; simpl; [reflexivity |].
    destruct (uuid_eqb (Booking.event_id b) eventId) eqn:E; simpl; [exact IH |].
    unfold held_by. rewrite E. simpl. exact IH.
  - intros eid Hne.
    induction (bookings d) as [|b rest IH]; simpl; [reflexivity |].
    destruct (uuid_eqb (Booking.event_id b) eventId) eqn:E; simpl.
    + rewrite IH. unfold held_by.
      apply uuid_eqb_true in E. rewrite E.
      unfold uuid_eqb. rewrite (proj2 (String.eqb_neq eventId eid)) by congruence.
      simpl. lia.
    + now rewrite IH.
Qed.

Lemma delete_takes_the_bookings_witness :
  bookings (run (Delete (Some "ada"%string) true "e1"%string) Sample.alice_booked) = []
  /\ event_exists "e1"%string
       (events (run (Delete (Some "ada"%string) true "e1"%string) Sample.alice_booked))
     = false.
Proof.
  destruct (delete_takes_the_bookings Sample.alice_booked (Some "ada"%string)
                                      "e1"%string eq_refl eq_refl)
    as (_ & Hgone & _).
  split; [reflexivity | exact Hgone].
Defined.

(** ** What the event page shows after a booking *)

Lemma fetchEvent_pkey (event : option Event.t) (eventId : uuid) (d : db) :
  events_pkey_holds d ->
  fetchEvent event eventId d = find_event eventId (events d).
Proof.
  unfold events_pkey_holds, fetchEvent, find_event.
  induction (events d) as [|ev rest IH]; simpl; intro Hnd; [reflexivity |].
  inversion Hnd as [|x xs Hnotin Hnd']; subst.
  destruct (uuid_eqb (Event.id ev) eventId) eqn:E.
  - assert (Hnone : filter (fun ev0 => uuid_eqb (Event.id ev0) eventId) rest = []).
    { apply uuid_eqb_true in E. subst eventId.
      clear - Hnotin. induction rest as [|y ys IHr]; simpl; [reflexivity |].
      destruct (uuid_eqb (Event.id y) (Event.id ev)) eqn:E'.
      - exfalso. apply Hnotin. left. now apply uuid_eqb_true.
      - apply IHr. intro H. apply Hnotin. now right. }
    now rewrite Hnone.
  - exact (IH Hnd').
Qed.

Lemma seats_moved_find (f : Z -> Z) (eid : uuid) (evs evs' : list Event.t) :
  Forall2 (seats_moved f eid) evs evs' ->
  find_event eid evs'
  = option_map (fun ev => Event.with_available_seats (f (Event.available_seats ev)) ev)
               (find_event eid evs).
Proof.
  unfold find_event.
  induction 1 as [|ev ev' rest rest' Hm _ IH]; simpl; [reflexivity |].
  unfold seats_moved in Hm.
  destruct (uuid_eqb (Event.id ev) eid) eqn:E; subst ev'; simpl; rewrite E.
  - reflexivity.
  - exact IH.
Qed.

(** On the code: after a booking is confirmed, what [fetchEvent] puts on the
    page is the row of the store, not the page's earlier copy: in an admin's
    session the row with [seatsToBook] seats fewer than it had, in any other
    session the row as it was. *)
Theorem page_shows_the_row_after_booking (d d' : db) (u : uuid) (event : Event.t)
    (seatsToBook : Z) (new_id : uuid) :
  events_pkey_holds d ->
  handleBooking (Some u) (Some event) seatsToBook new_id d
  = (d', Some BookingConfirmed) ->
  exists row,
    find_event (Event.id event) (events d) = Some row
    /\ fetchEvent (Some event) (Event.id event) d'
       = Some (if admin_exists d (Some u)
               then Event.with_available_seats
                      (Event.available_seats row - seatsToBook) row
               else row).
Proof.
  intros Hpk H.
  unfold handleBooking in H.
  destruct (Event.available_seats event <? seatsToBook); [discriminate |].
  destruct (insert_booking _ _ d) as [d1|e] eqn:I; [| discriminate].
  injection H as <-.
  destruct (insert_booking_frame _ _ _ _ I) as (_ & Hex & Hids). simpl in Hex.
  assert (Hpk' : events_pkey_holds d1)
    by (unfold events_pkey_holds in *; now rewrite Hids).
  rewrite (fetchEvent_pkey _ _ _ Hpk').
  destruct (find_event (Event.id event) (events d)) as [row|] eqn:F.
  2:{ exfalso. unfold find_event in F. unfold event_exists in Hex.
      apply existsb_exists in Hex. destruct Hex as [x [Hin Hx]].
      exact (eq_true_false_abs _ Hx (find_none _ _ F x Hin)). }
  exists row. split; [reflexivity |].
  unfold insert_booking in I.
  do 7 (apply bind_Ok in I; destruct I as [? [_ I]]).
  unfold update_seats_on_booking in I. simpl in I.
  destruct (admin_exists d (Some u)) eqn:A.
  - apply update_events_seats_admin in I;
      [| now rewrite (admin_exists_profiles _ d)].
    destruct I as (_ & _ & Hm). simpl in Hm.
    rewrite (seats_moved_find _ _ _ _ Hm), F. reflexivity.
  - apply update_events_seats_other in I;
      [| now rewrite (admin_exists_profiles _ d)].
    subst d1. simpl. exact F.
Qed.

Lemma page_shows_the_row_after_booking_witness :
  fetchEvent (Some (Sample.row 5 5)) "e1"%string
    (run (Book (Some "ruth"%string) (Some (Sample.row 5 5)) 1 "b2"%string)
         Sample.rebalanced_before)
  = Some (Sample.row 5 2).
Proof.
  destruct (page_shows_the_row_after_booking
              Sample.rebalanced_before
              (run (Book (Some "ruth"%string) (Some (Sample.row 5 5)) 1 "b2"%string)
                   Sample.rebalanced_before)
              "ruth"%string (Sample.row 5 5) 1 "b2"%string)
    as [row [Hrow Hshow]].
  - constructor; [intros [] | constructor].
  - reflexivity.
  - injection Hrow as <-. exact Hshow.
Defined.

(** ** The dashboard *)

Lemma in_fetchBookings (user : uuid) (d : db) (b : Booking.t) (e : option Event.t) :
  In (b, e) (fetchBookings user d)
  <-> In b (bookings d) /\ Booking.user_id b = user
      /\ e = find_event (Booking.event_id b) (events d).
Proof.
  unfold fetchBookings. rewrite in_map_iff. split.
  - intros [x [[= <- <-] Hin]]. apply in_rev in Hin. apply filter_In in Hin.
    destruct Hin as [Hin Hc]. apply andb_prop in Hc. destruct Hc as [_ Hu].
    apply uuid_eqb_true in Hu. auto.
  - intros (Hin & Hu & ->). exists b. split; [reflexivity |].
    apply in_rev. rewrite rev_involutive. apply filter_In. split; [exact Hin |].
    unfold can_view_booking. simpl.
    subst user. now rewrite uuid_eqb_refl.
Qed.

(** On the code: the dashboard lists exactly the bookings of the signed-in
    user, an admin's dashboard too, each with the event read for its
    [event_id]; every listed booking is counted once, as active or as
    cancelled; and while the foreign keys hold no listed booking is without
    its event (none is skipped by the [if (!event) return null] of the
    page). *)
Theorem dashboard_lists_own_bookings (d : db) (user : uuid) :
  (forall b e,
      In (b, e) (fetchBookings user d)
      <-> In b (bookings d) /\ Booking.user_id b = user
          /\ e = find_event (Booking.event_id b) (events d))
  /\ (List.length (confirmedBookings (fetchBookings user d))
      + List.length (cancelledBookings (fetchBookings user d))
      = List.length (fetchBookings user d))%nat
  /\ (bookings_fkeys_hold d ->
      forall b e, In (b, e) (fetchBookings user d) -> e <> None).
Proof.
  split; [| split].
  - intros b e. apply in_fetchBookings.
  - unfold confirmedBookings, cancelledBookings.
    induction (fetchBookings user d) as [|r rest IH]; simpl; [reflexivity |].
    destruct (Booking.booking_status (fst r)); simpl; lia.
  - intros Hfk b e Hin. apply in_fetchBookings in Hin.
    destruct Hin as (Hin & _ & ->).
    destruct (Hfk b Hin) as [_ Hex].
    unfold event_exists in Hex. apply existsb_exists in Hex.
    destruct Hex as [x [Hx Hid]].
    unfold find_event. intro Hnone.
    exact (eq_true_false_abs _ Hid (find_none _ _ Hnone x Hx)).
Qed.

Lemma dashboard_lists_own_bookings_witness :
  find_event "e1"%string (events Sample.alice_booked) <> None.
Proof.
  apply (proj2 (proj2 (dashboard_lists_own_bookings Sample.alice_booked "alice"%string))
               sample_bookings_fkeys
               (Booking.mk "b1"%string "alice"%string "e1"%string 2 confirmed)).
  left. reflexivity.
Defined.

(** On the code: after a confirmed Reserve the user's dashboard lists the
    new booking first, as an active one, above the bookings it listed
    before. *)
Theorem dashboard_lists_new_booking_first (d d' : db) (u : uuid)
    (event : Event.t) (seatsToBook : Z) (new_id : uuid) :
  handleBooking (Some u) (Some event) seatsToBook new_id d
  = (d', Some BookingConfirmed) ->
  map fst (fetchBookings u d')
  = Booking.mk new_id u (Event.id event) seatsToBook confirmed
    :: map fst (fetchBookings u d)
  /\ In (Booking.mk new_id u (Event.id event) seatsToBook confirmed)
        (map fst (confirmedBookings (fetchBookings u d'))).
Proof.
  intro H. unfold handleBooking in H.
  destruct (Event.available_seats event <? seatsToBook); [discriminate |].
  destruct (insert_booking _ _ d) as [d1|e] eqn:I; [| discriminate].
  injection H as <-.
  destruct (insert_booking_Ok _ _ _ _ I) as (_ & _ & _ & _ & _ & Hps & Hb).
  assert (Hlist : map fst (fetchBookings u d1)
                  = Booking.mk new_id u (Event.id event) seatsToBook confirmed
                    :: map fst (fetchBookings u d)).
  { unfold fetchBookings. rewrite !map_map. simpl. rewrite !map_id.
    rewrite Hb, filter_app, rev_app_distr. simpl.
    unfold can_view_booking at 1. simpl. rewrite uuid_eqb_refl. simpl.
    f_equal. f_equal. apply filter_ext. intro b.
    unfold can_view_booking. now rewrite (admin_exists_profiles d1 d) by exact Hps. }
  split; [exact Hlist |].
  unfold confirmedBookings.
  destruct (fetchBookings u d1) as [|[b e] rest]; [discriminate |].
  simpl in Hlist. injection Hlist as -> _. simpl. now left.
Qed.

Lemma dashboard_lists_new_booking_first_witness :
  map fst (fetchBookings "alice"%string Sample.alice_booked)
  = [Booking.mk "b1"%string "alice"%string "e1"%string 2 confirmed].
Proof.
  apply (proj1 (dashboard_lists_new_booking_first
                  (Sample.with_event 5 5) Sample.alice_booked "alice"%string
                  (Sample.row 5 5) 2 "b1"%string eq_refl)).
Defined.

Lemma cancel_is_owner_find (d d' : db) (bookingId : uuid) (b : Booking.t) :
  find_booking bookingId (bookings d) = Some b ->
  handleCancelBooking (Some (Booking.user_id b)) true bookingId d = (d', CancelDone) ->
  find_booking bookingId (bookings d') = Some (Booking.with_status cancelled b).
Proof.
  intros F H. unfold handleCancelBooking in H.
  destruct (update_booking _ _ _ d) as [[d1 n]|e] eqn:U; [| discriminate].
  injection H as <-.
  assert (P : users_can_update_their_own_bookings (Some (Booking.user_id b)) b = true)
    by (unfold users_can_update_their_own_bookings; simpl; apply uuid_eqb_refl).
  pose proof (update_booking_Ok _ _ _ _ _ _ U) as Hinv.
  destruct Hinv as [(_ & _ & Hno) | (OLD & F' & _ & _ & _ & _ & -> & _)].
  - rewrite F in Hno. congruence.
  - destruct (cancel_Ok_touched _ _ _ _ _ F P U) as [_ Hb].
    rewrite Hb. apply (find_replace_same _ _ _ _ F).
    exact (find_booking_id _ _ _ F).
Qed.

(** On the code: after the owner's Cancel of a booking goes through, the
    dashboard lists it under the cancelled bookings and no longer under the
    active ones. *)
Theorem dashboard_moves_cancelled_booking (d d' : db) (bookingId : uuid)
    (b : Booking.t) :
  bookings_pkey_holds d ->
  find_booking bookingId (bookings d) = Some b ->
  handleCancelBooking (Some (Booking.user_id b)) true bookingId d = (d', CancelDone) ->
  In (Booking.with_status cancelled b)
     (map fst (cancelledBookings (fetchBookings (Booking.user_id b) d')))
  /\ (forall r, In r (confirmedBookings (fetchBookings (Booking.user_id b) d')) ->
                Booking.id (fst r) <> bookingId).
Proof.
  intros Hpk F H.
  assert (Hpk' : bookings_pkey_holds d').
  { unfold bookings_pkey_holds in *.
    destruct (handleCancelBooking_cases (Some (Booking.user_id b)) true bookingId d)
      as [Hsame | (OLD & d1 & F1 & _ & H1 & _ & Hb & _)].
    - rewrite H in Hsame. simpl in Hsame. now subst d'.
    - rewrite H in H1. injection H1 as <-.
      rewrite Hb, replace_booking_ids; [exact Hpk | exact (find_booking_id _ _ _ F1)]. }
  pose proof (cancel_is_owner_find d d' bookingId b F H) as F'.
  split.
  - apply in_map_iff.
    exists (Booking.with_status cancelled b,
            find_event (Booking.event_id b) (events d')).
    split; [reflexivity |].
    unfold cancelledBookings. apply filter_In. split; [| reflexivity].
    apply in_fetchBookings. split; [| now split].
    exact (find_booking_In _ _ _ F').
  - intros [c e] Hin Hid. unfold confirmedBookings in Hin.
    apply filter_In in Hin. destruct Hin as [Hin Hs]. simpl in *.
    apply in_fetchBookings in Hin. destruct Hin as (Hin & _ & _).
    assert (Hc : find_booking bookingId (bookings d') = Some c).
    { apply (find_booking_NoDup _ _ _ Hpk' Hin). subst bookingId. apply uuid_eqb_refl. }
    rewrite F' in Hc. injection Hc as <-. discriminate.
Qed.

Lemma dashboard_moves_cancelled_booking_witness :
  In (Booking.mk "b1"%string "alice"%string "e1"%string 2 cancelled)
     (map fst (cancelledBookings
                 (fetchBookings "alice"%string
                    (run (Cancel (Some "alice"%string) true "b1"%string)
                         Sample.alice_booked)))).
Proof.
  apply (proj1 (dashboard_moves_cancelled_booking
                  Sample.alice_booked
                  (run (Cancel (Some "alice"%string) true "b1"%string)
                       Sample.alice_booked)
                  "b1"%string
                  (Booking.mk "b1"%string "alice"%string "e1"%string 2 confirmed)
                  sample_bookings_pkey eq_refl eq_refl)).
Defined.

(** ** The event list of the home page *)

Lemma prefix_refl (s : string) : String.prefix s s = true.
Proof.
  induction s as [|c rest IH]; simpl; [reflexivity |].
  destruct (Ascii.ascii_dec c c) as [_ | Hne]; [exact IH | now contradiction Hne].
Qed.

Lemma prefix_app (q s : string) : String.prefix q (q ++ s) = true.
Proof.
  induction q as [|c rest IH]; simpl; [now destruct s |].
  destruct (Ascii.ascii_dec c c) as [_ | Hne]; [exact IH | now contradiction Hne].
Qed.

Lemma includes_prefix (s q : string) :
  String.prefix q s = true -> includes s q = true.
Proof.
  intro H. destruct s as [|c rest]; unfold includes; fold includes; now rewrite H.
Qed.

(** [includes] finds [q] wherever it occurs in [s]. *)
Lemma includes_occurrence (before q after : string) :
  includes (before ++ q ++ after) q = true.
Proof.
  induction before as [|c rest IH].
  - change ((EmptyString ++ q ++ after)%string) with ((q ++ after)%string).
    apply includes_prefix. apply prefix_app.
  - change ((String c rest ++ q ++ after)%string)
      with (String c (rest ++ q ++ after)%string).
    unfold includes; fold includes. rewrite IH. apply orb_true_r.
Qed.

Lemma includes_refl (s : string) : includes s s = true.
Proof. apply includes_prefix, prefix_refl. Qed.

Lemma prefix_split (q s : string) :
  String.prefix q s = true -> exists after, s = (q ++ after)%string.
Proof.
  revert s. induction q as [|c rest IH]; intros s H.
  - now exists s.
  - destruct s as [|c' s']; simpl in H; [discriminate |].
    destruct (Ascii.ascii_dec c c') as [<- | _]; [| discriminate].
    destruct (IH _ H) as [after ->]. now exists after.
Qed.

(** ... and nowhere else. *)
Lemma includes_split (s q : string) :
  includes s q = true -> exists before after, s = (before ++ q ++ after)%string.
Proof.
  induction s as [|c rest IH]; unfold includes; fold includes; intro H.
  - rewrite orb_false_r in H. destruct (prefix_split _ _ H) as [after ->].
    now exists EmptyString, after.
  - apply orb_prop in H. destruct H as [H | H].
    + destruct (prefix_split _ _ H) as [after ->]. now exists EmptyString, after.
    + destruct (IH H) as (before & after & ->).
      now exists (String c before), after.
Qed.

Lemma filter_filter {A : Type} (p q : A -> bool) (l : list A) :
  filter p (filter q l) = filter (fun x => q x && p x) l.
Proof.
  induction l as [|x rest IH]; simpl; [reflexivity |].
  destruct (q x); simpl; [| exact IH].
  destruct (p x); now rewrite IH.
Qed.

Lemma filter_idem {A : Type} (p : A -> bool) (l : list A) :
  filter p (filter p l) = filter p l.
Proof.
  rewrite filter_filter. apply filter_ext. intro x. now destruct (p x).
Qed.

(** On the code: the home page's list is the fetched list with events left
    out, never reordered or repeated, and filtering it again changes
    nothing.  With no search text and the filter on 'all' nothing is left
    out.  Every event listed under 'available' has seats left and is also
    listed under 'upcoming', and every event listed under 'upcoming' is
    listed under 'all'.  An event is found by a search for its whole title,
    location or description. *)
Theorem home_page_list (toLowerCase : string -> string) (isUpcoming : Event.t -> bool)
    (searchQuery : string) (evs : list Event.t) :
  filterEvents toLowerCase isUpcoming EmptyString FilterStatus.all evs = evs
  /\ (forall st, exists keep,
         filterEvents toLowerCase isUpcoming searchQuery st evs = filter keep evs)
  /\ (forall st,
         filterEvents toLowerCase isUpcoming searchQuery st
           (filterEvents toLowerCase isUpcoming searchQuery st evs)
         = filterEvents toLowerCase isUpcoming searchQuery st evs)
  /\ (forall ev,
         In ev (filterEvents toLowerCase isUpcoming searchQuery FilterStatus.available evs) ->
         0 < Event.available_seats ev
         /\ In ev (filterEvents toLowerCase isUpcoming searchQuery FilterStatus.upcoming evs))
  /\ (forall ev,
         In ev (filterEvents toLowerCase isUpcoming searchQuery FilterStatus.upcoming evs) ->
         isUpcoming ev = true
         /\ In ev (filterEvents toLowerCase isUpcoming searchQuery FilterStatus.all evs))
  /\ (forall ev,
         In ev evs ->
         searchQuery = Event.title ev \/ searchQuery = Event.location ev
         \/ searchQuery = Event.description ev ->
         In ev (filterEvents toLowerCase isUpcoming searchQuery FilterStatus.all evs)).
Proof.
  split; [reflexivity |].
  set (keep := match searchQuery with
               | EmptyString => fun _ : Event.t => true
               | _ => matches_search toLowerCase searchQuery
               end).
  assert (Hk : forall l,
             (match searchQuery with
              | EmptyString => l
              | _ => filter (matches_search toLowerCase searchQuery) l
              end) = filter keep l).
  { intro l. unfold keep. destruct searchQuery; [| reflexivity].
    induction l as [|x xs IH]; simpl; [reflexivity | now rewrite <- IH]. }
  unfold filterEvents. cbv zeta. rewrite !Hk.
  split; [| split; [| split; [| split]]].
  - intros [| |]; [exists keep; reflexivity | | ]; rewrite filter_filter; eauto.
  - intros [| |]; rewrite !Hk, ?filter_filter; apply filter_ext; intro x;
      destruct (keep x), (0 <? Event.available_seats x), (isUpcoming x); reflexivity.
  - intros ev Hin. apply filter_In in Hin. destruct Hin as [Hin Hc].
    apply andb_prop in Hc. destruct Hc as [Hs Hu].
    split; [now apply Z.ltb_lt |]. apply filter_In. now split.
  - intros ev Hin. apply filter_In in Hin. now destruct Hin.
  - intros ev Hin Hq. apply filter_In. split; [exact Hin |].
    unfold keep. destruct searchQuery as [|c rest]; [reflexivity |].
    unfold matches_search.
    destruct Hq as [Hq | [Hq | Hq]]; rewrite <- Hq, includes_refl;
      rewrite ?orb_true_r; reflexivity.
Qed.

Lemma home_page_list_witness :
  In (Sample.row 5 5)
     (filterEvents (fun s => s) (fun _ => true) "Tech Conference 2025"%string
                   FilterStatus.all [Sample.row 5 5]).
Proof.
  apply (proj2 (proj2 (proj2 (proj2 (proj2
           (home_page_list (fun s => s) (fun _ => true) "Tech Conference 2025"%string
                           [Sample.row 5 5])))))).
  - left. reflexivity.
  - left. reflexivity.
Defined.

(** ** Navigation *)

(** On the code: once the session is loaded and the effect has run, the
    effect has nothing more to do, the admin page is shown exactly to a
    signed-in admin who asked for it and the dashboard exactly to a
    signed-in user who asked for it; a visitor who asks for either is shown
    the login page, and a signed-in user who is not an admin and asks for the
    admin page is shown the home page. *)
Theorem navigation_is_guarded (a : AuthContext.t) (s : app) (page : string) :
  AuthContext.loading a = false ->
  redirect a (redirect a (handleNavigate page s)) = redirect a (handleNavigate page s)
  /\ (render a (redirect a (handleNavigate page s)) = ShowAdmin
      <-> page = "admin"%string /\ signed_in a = true /\ AuthContext.isAdmin a = true)
  /\ (render a (redirect a (handleNavigate page s)) = ShowDashboard
      <-> page = "dashboard"%string /\ signed_in a = true)
  /\ (signed_in a = false ->
      page = "dashboard"%string \/ page = "admin"%string ->
      render a (redirect a (handleNavigate page s)) = ShowLogin)
  /\ (signed_in a = true -> AuthContext.isAdmin a = false ->
      page = "admin"%string ->
      render a (redirect a (handleNavigate page s)) = ShowHome).
Proof.
  intro Hl. unfold redirect, render, handleNavigate. simpl. rewrite Hl. simpl.
  destruct (String.eqb_spec page "admin"%string) as [-> | Hadm].
  - simpl. destruct (signed_in a), (AuthContext.isAdmin a); simpl;
      repeat split; try tauto; try discriminate; intuition discriminate.
  - destruct (String.eqb_spec page "dashboard"%string) as [-> | Hdash].
    + simpl. destruct (signed_in a), (AuthContext.isAdmin a); simpl;
        repeat split; try tauto; try discriminate; intuition discriminate.
    + pose proof (proj2 (String.eqb_neq _ _) Hadm) as Ea.
      pose proof (proj2 (String.eqb_neq _ _) Hdash) as Ed.
      destruct (signed_in a), (AuthContext.isAdmin a); simpl;
        rewrite ?Ea, ?Ed; simpl; rewrite ?Ea, ?Ed; simpl;
        (split; [reflexivity |]);
        destruct (String.eqb page "home"), (String.eqb page "event-detail"),
                 (String.eqb page "login"), (String.eqb page "signup"),
                 (selectedEventId s) as [[|c r]|];
        simpl; repeat split; intros; try discriminate; try tauto;
        intuition (try discriminate; try congruence).
Qed.

Lemma navigation_is_guarded_witness :
  render (AuthContext.mk (Some "alice"%string) false false)
         (redirect (AuthContext.mk (Some "alice"%string) false false)
                   (handleNavigate "admin"%string (mkApp "home"%string None)))
  = ShowHome.
Proof.
  apply (proj2 (proj2 (proj2 (proj2
           (navigation_is_guarded (AuthContext.mk (Some "alice"%string) false false)
                                  (mkApp "home"%string None) "admin"%string eq_refl)))));
    reflexivity.
Defined.

(** On the code: any visitor, signed in or not, who clicks an event is shown
    that event's page, the effect leaving the choice alone; going back shows
    the home page and forgets the event. *)
Theorem event_page_is_open_to_all (a : AuthContext.t) (s : app) (eventId : uuid) :
  AuthContext.loading a = false ->
  eventId <> EmptyString ->
  redirect a (handleEventClick eventId s) = handleEventClick eventId s
  /\ render a (redirect a (handleEventClick eventId s)) = ShowEventDetail eventId
  /\ render a (redirect a (handleBackToHome (handleEventClick eventId s))) = ShowHome
  /\ selectedEventId (handleBackToHome (handleEventClick eventId s)) = None.
Proof.
  intros Hl Hid. unfold redirect, render, handleEventClick, handleBackToHome.
  simpl. rewrite Hl. simpl. rewrite !andb_false_r. simpl.
  split; [reflexivity |]. split; [| split; reflexivity].
  destruct eventId; [now contradiction Hid | reflexivity].
Qed.

Lemma event_page_is_open_to_all_witness :
  render (AuthContext.mk None false false)
         (redirect (AuthContext.mk None false false)
                   (handleEventClick "e1"%string (mkApp "home"%string None)))
  = ShowEventDetail "e1"%string.
Proof.
  apply (proj1 (proj2 (event_page_is_open_to_all
                         (AuthContext.mk None false false) (mkApp "home"%string None)
                         "e1"%string eq_refl ltac:(discriminate)))).
Defined.

(** ** The profile policy *)

Lemma update_profile_other (uid : auth) (pid : uuid) (p : profile_patch) (d : db) :
  uid <> Some pid -> update_profile uid pid p d = d.
Proof.
  intro Hne. unfold update_profile. destruct d as [ps evs bs]. simpl. f_equal.
  induction ps as [|r rest IH]; simpl; [reflexivity |].
  rewrite IH. f_equal.
  destruct (uuid_eqb (UserProfile.id r) pid) eqn:E; [| reflexivity].
  apply uuid_eqb_true in E. rewrite E. now rewrite (is_uid_false _ _ Hne).
Qed.

(** On the code: "Users can update their own profile" lets a session
    rewrite its own row of [user_profiles] and no other, and it lets it set
    every column of that row: a user who sets [is_admin] on the own profile
    passes the admin test of the [events] policies from then on, without
    touching [events] or [bookings]. *)
Theorem own_profile_update_grants_admin (d : db) (u : uuid) :
  profile_exists u (user_profiles d) = true ->
  admin_exists (update_profile (Some u) u (mkProfilePatch None None (Some true)) d)
               (Some u) = true
  /\ events (update_profile (Some u) u (mkProfilePatch None None (Some true)) d)
     = events d
  /\ bookings (update_profile (Some u) u (mkProfilePatch None None (Some true)) d)
     = bookings d
  /\ (forall uid p, uid <> Some u -> update_profile uid u p d = d).
Proof.
  intro Hex. split; [| split; [reflexivity | split; [reflexivity |]]].
  - unfold admin_exists, update_profile, profile_exists in *. simpl.
    induction (user_profiles d) as [|r rest IH]; simpl in *; [discriminate |].
    destruct (uuid_eqb (UserProfile.id r) u) eqn:E; simpl in *.
    + apply uuid_eqb_true in E. subst u. rewrite !uuid_eqb_refl. simpl.
      now rewrite ?uuid_eqb_refl.
    + rewrite (IH Hex). apply orb_true_r.
  - intros uid p Hne. now apply update_profile_other.
Qed.

Lemma own_profile_update_grants_admin_witness :
  admin_exists Sample.alice_booked (Some "alice"%string) = false
  /\ admin_exists
       (update_profile (Some "alice"%string) "alice"%string
                       (mkProfilePatch None None (Some true)) Sample.alice_booked)
       (Some "alice"%string) = true.
Proof.
  split; [reflexivity |].
  apply (proj1 (own_profile_update_grants_admin Sample.alice_booked "alice"%string
                                                eq_refl)).
Defined.

(** ** Rows that are not there, and keys that are taken *)

Lemma insert_booking_missing_event (uid : auth) (NEW : Booking.t) (d : db) :
  event_exists (Booking.event_id NEW) (events d) = false ->
  exists e, insert_booking uid NEW d = Err e
            /\ (in_int4 (Booking.seats_booked NEW) = true ->
                users_can_create_their_own_bookings uid NEW = true ->
                0 < Booking.seats_booked NEW ->
                booking_exists (Booking.id NEW) (bookings d) = false ->
                key_taken NEW (bookings d) = false ->
                profile_exists (Booking.user_id NEW) (user_profiles d) = true ->
                e = foreign_key_violation bookings_event_id_fkey).
Proof.
  intro Hno. unfold insert_booking, check_booking.
  destruct (in_int4 (Booking.seats_booked NEW)); simpl;
    [| eexists; split; [reflexivity | discriminate]].
  destruct (users_can_create_their_own_bookings uid NEW); simpl;
    [| eexists; split; [reflexivity | discriminate]].
  destruct (0 <? Booking.seats_booked NEW) eqn:Hpos; simpl;
    [| eexists; split; [reflexivity |];
       intros _ _ Hlt; apply Z.ltb_ge in Hpos; lia].
  destruct (booking_exists (Booking.id NEW) (bookings d)); simpl;
    [eexists; split; [reflexivity | discriminate] |].
  destruct (key_taken NEW (bookings d)); simpl;
    [eexists; split; [reflexivity | discriminate] |].
  destruct (profile_exists (Booking.user_id NEW) (user_profiles d)); simpl;
    [| eexists; split; [reflexivity | discriminate]].
  rewrite Hno. simpl. eexists; split; reflexivity.
Qed.

(** On the code: a Reserve for an event that is no longer in the store (the
    page still shows its copy) is never confirmed and changes nothing; for a
    request that is in order otherwise the error is the violation of the
    foreign key [bookings.event_id -> events.id]. *)
Theorem reserve_for_missing_event (d : db) (u : uuid) (event : Event.t)
    (seatsToBook : Z) (new_id : uuid) :
  event_exists (Event.id event) (events d) = false ->
  fst (handleBooking (Some u) (Some event) seatsToBook new_id d) = d
  /\ snd (handleBooking (Some u) (Some event) seatsToBook new_id d)
     <> Some BookingConfirmed
  /\ (0 < seatsToBook <= Event.available_seats event ->
      in_int4 seatsToBook = true ->
      booking_exists new_id (bookings d) = false ->
      key_taken (Booking.mk new_id u (Event.id event) seatsToBook confirmed)
                (bookings d) = false ->
      profile_exists u (user_profiles d) = true ->
      snd (handleBooking (Some u) (Some event) seatsToBook new_id d)
      = Some (BookingError (foreign_key_violation bookings_event_id_fkey))).
Proof.
  intro Hno.
  set (NEW := Booking.mk new_id u (Event.id event) seatsToBook confirmed).
  destruct (insert_booking_missing_event (Some u) NEW d Hno) as [e [I Hwhich]].
  unfold handleBooking. fold NEW. rewrite I.
  destruct (Event.available_seats event <? seatsToBook) eqn:L; simpl.
  - split; [reflexivity |]. split; [discriminate |].
    intros [_ Hle]. apply Z.ltb_lt in L. lia.
  - split; [reflexivity |]. split; [discriminate |].
    intros [Hpos _] R Hpk Hkey Hp. rewrite Hwhich; auto.
    unfold users_can_create_their_own_bookings, NEW. simpl.
    now rewrite uuid_eqb_refl.
Qed.

Lemma reserve_for_missing_event_witness :
  snd (handleBooking (Some "alice"%string) (Some (Sample.row 5 5)) 1 "b1"%string
                     Sample.empty)
  = Some (BookingError (foreign_key_violation bookings_event_id_fkey)).
Proof.
  destruct (reserve_for_missing_event Sample.empty "alice"%string (Sample.row 5 5) 1
                                      "b1"%string eq_refl)
    as (_ & _ & Hmsg).
  apply Hmsg; [simpl; lia | reflexivity | reflexivity | reflexivity | reflexivity].
Defined.

(** On the code: [UNIQUE(user_id, event_id, booking_status)] counts
    cancelled rows too.  A user who has cancelled a booking of an event and
    booked the event again cannot cancel the second booking: the update
    would make a second cancelled row for the same user and event, and it is
    refused with the violation of the unique index; nothing changes. *)
Theorem second_cancel_of_an_event_is_refused (d : db) (bookingId : uuid)
    (b c : Booking.t) :
  find_booking bookingId (bookings d) = Some b ->
  Booking.booking_status b = confirmed ->
  In c (bookings d) ->
  Booking.id c <> Booking.id b ->
  Booking.user_id c = Booking.user_id b ->
  Booking.event_id c = Booking.event_id b ->
  Booking.booking_status c = cancelled ->
  in_int4 (Booking.seats_booked b) = true ->
  0 < Booking.seats_booked b ->
  handleCancelBooking (Some (Booking.user_id b)) true bookingId d
  = (d, CancelFailed (unique_violation bookings_user_id_event_id_booking_status_key)).
Proof.
  intros F Sb Hin Hid Hu He Sc R Hpos.
  assert (P : users_can_update_their_own_bookings (Some (Booking.user_id b)) b = true)
    by (unfold users_can_update_their_own_bookings; simpl; apply uuid_eqb_refl).
  assert (Hnk : same_key b (Booking.with_status cancelled b) = false).
  { destruct (same_key b (Booking.with_status cancelled b)) eqn:K; [| reflexivity].
    apply same_key_true in K. destruct K as (_ & _ & K). simpl in K. congruence. }
  assert (Htaken : key_taken (Booking.with_status cancelled b) (bookings d) = true).
  { apply (key_taken_In _ c); [exact Hin | |].
    - simpl. exact (proj2 (String.eqb_neq _ _) Hid).
    - apply same_key_true. simpl. auto. }
  unfold handleCancelBooking, update_booking. rewrite F, P. cbv zeta.
  rewrite apply_cancel_patch.
  set (NEW := Booking.with_status cancelled b) in *.
  assert (HR : in_int4 (Booking.seats_booked NEW) = true) by exact R.
  assert (HP : users_can_update_their_own_bookings (Some (Booking.user_id b)) NEW = true)
    by exact P.
  assert (HC : check_booking NEW = Ok tt)
    by (unfold check_booking; simpl; now rewrite (proj2 (Z.ltb_lt _ _) Hpos)).
  rewrite HR, HP, HC, Hnk, Htaken. reflexivity.
Qed.

Lemma second_cancel_of_an_event_is_refused_witness :
  handleCancelBooking (Some "alice"%string) true "b2"%string Sample.rebooked
  = (Sample.rebooked,
     CancelFailed (unique_violation bookings_user_id_event_id_booking_status_key)).
Proof.
  apply (second_cancel_of_an_event_is_refused
           Sample.rebooked "b2"%string
           (Booking.mk "b2"%string "alice"%string "e1"%string 1 confirmed)
           (Booking.mk "b1"%string "alice"%string "e1"%string 2 cancelled));
    try reflexivity; try (right; left; reflexivity); try (left; reflexivity);
    try discriminate.
Defined.

Lemma bookings_pkey_kept_witness :
  bookings_pkey_holds
    (run (Book (Some "bob"%string) (Some (Sample.row 5 5)) 1 "b2"%string)
         Sample.alice_booked).
Proof.
  apply (bookings_pkey_kept
           (Book (Some "bob"%string) (Some (Sample.row 5 5)) 1 "b2"%string)
           Sample.alice_booked).
  exact sample_bookings_pkey.
Defined.

Lemma sample_alice_bookings_checked : bookings_checked Sample.alice_booked.
Proof. intros b [<- | []]. simpl. lia. Qed.

Lemma bookings_checked_kept_witness :
  bookings_checked
    (run (Book (Some "bob"%string) (Some (Sample.row 5 5)) 1 "b2"%string)
         Sample.alice_booked).
Proof.
  apply (bookings_checked_kept
           (Book (Some "bob"%string) (Some (Sample.row 5 5)) 1 "b2"%string)
           Sample.alice_booked).
  exact sample_alice_bookings_checked.
Defined.

(** ** C5, the seats *)




(** ** C6, the store and the pages *)

(** An UPDATE of [bookings] in the session [uid] rewrites at most the row it
    names, and that row only when [uid] is its [user_id]. *)
Lemma update_booking_rows (uid : auth) (bid0 : uuid) (p : booking_patch)
    (d d' : db) (n : nat) (bid : uuid) (b' : Booking.t) :
  update_booking uid bid0 p d = Ok (d', n) ->
  find_booking bid (bookings d') = Some b' ->
  exists b,
    find_booking bid (bookings d) = Some b
    /\ (b' = b
        \/ (bid0 = bid /\ uid = Some (Booking.user_id b) /\ b' = apply_patch p b)).
Proof.
  intros U H. apply update_booking_Ok in U.
  destruct U as [(-> & _) | (OLD & F & P & _ & _ & _ & _ & Htr)]; [eauto |].
  apply restore_seats_on_cancel_Ok in Htr. simpl in Htr.
  destruct Htr as (_ & Hb & _). rewrite Hb in H.
  assert (Hid : uuid_eqb (Booking.id (apply_patch p OLD)) bid0 = true)
    by exact (find_booking_id _ _ _ F).
  destruct (uuid_eqb bid0 bid) eqn:E.
  - apply uuid_eqb_true in E. subst bid0.
    rewrite (find_replace_same _ _ _ (apply_patch p OLD) F Hid) in H.
    injection H as <-. exists OLD. split; [exact F |]. right.
    split; [reflexivity |]. split; [| reflexivity].
    unfold users_can_update_their_own_bookings, is_uid in P.
    destruct uid as [v|]; [| discriminate].
    now rewrite (uuid_eqb_true _ _ P).
  - rewrite (find_replace_other _ _ _ (apply_patch p OLD) Hid E) in H. eauto.
Qed.

(** C6, as amended.  With [id] the primary key of [bookings]:
    - under every action of the pages, a booking that appears in the table
      appears as confirmed, and a booking that was there is afterwards gone
      (with its event), as it was, or as it was with its status set to
      cancelled, so a cancelled booking stays cancelled;
    - an INSERT that the store takes leaves the rows there as they are and
      adds a confirmed row;
    - an UPDATE that the store takes leaves every row as it is, but for the
      row it names when the session is that of the row's [user_id]: this
      row becomes what the statement sets, whatever status it sets. *)
Theorem booking_status_is_one_way (d : db) (bid : uuid) (b' : Booking.t) :
  bookings_pkey_holds d ->
  (forall a,
      find_booking bid (bookings (run a d)) = Some b' ->
      match find_booking bid (bookings d) with
      | Some b =>
          (b' = b \/ b' = Booking.with_status cancelled b)
          /\ (Booking.booking_status b = cancelled ->
              Booking.booking_status b' = cancelled)
      | None => Booking.booking_status b' = confirmed
      end)
  /\ (forall uid NEW d',
        insert_booking uid NEW d = Ok d' ->
        find_booking bid (bookings d') = Some b' ->
        match find_booking bid (bookings d) with
        | Some b => b' = b
        | None => b' = NEW /\ Booking.booking_status b' = confirmed
        end)
  /\ (forall uid bid0 p d' n,
        update_booking uid bid0 p d = Ok (d', n) ->
        find_booking bid (bookings d') = Some b' ->
        exists b,
          find_booking bid (bookings d) = Some b
          /\ (b' = b
              \/ (bid0 = bid /\ uid = Some (Booking.user_id b)
                  /\ b' = apply_patch p b))).
Proof.
  intro Hpk. split; [| split].
  - intros a H. exact (page_action_keeps_status_one_way a d bid b' Hpk H).
  - intros uid NEW d' I H.
    destruct (insert_booking_Ok _ _ _ _ I) as (Hst & _ & _ & _ & _ & _ & Hb).
    rewrite Hb, find_booking_app in H.
    destruct (find_booking bid (bookings d)) as [b|].
    + now injection H as <-.
    + unfold find_booking in H. simpl in H.
      destruct (uuid_eqb (Booking.id NEW) bid); [| discriminate].
      injection H as <-. now split.
  - intros uid bid0 p d' n U H. exact (update_booking_rows _ _ _ _ _ _ _ _ U H).
Qed.

Lemma booking_status_is_one_way_witness :
  match find_booking "b1"%string (bookings Sample.alice_booked) with
  | Some b =>
      (Booking.mk "b1"%string "alice"%string "e1"%string 2 cancelled = b
       \/ Booking.mk "b1"%string "alice"%string "e1"%string 2 cancelled
          = Booking.with_status cancelled b)
      /\ (Booking.booking_status b = cancelled ->
          Booking.booking_status
            (Booking.mk "b1"%string "alice"%string "e1"%string 2 cancelled) = cancelled)
  | None =>
      Booking.booking_status
        (Booking.mk "b1"%string "alice"%string "e1"%string 2 cancelled) = confirmed
  end.
Proof.
  apply (proj1 (booking_status_is_one_way
                  Sample.alice_booked "b1"%string
                  (Booking.mk "b1"%string "alice"%string "e1"%string 2 cancelled)
                  sample_bookings_pkey)
               (Cancel (Some "alice"%string) true "b1"%string)).
  reflexivity.
Defined.
